(** * Audit-log API: ingestion-to-lifecycle pipeline

    A shallow embedding of the Go sources of the audit-log service
    (repositories, ingestion service, HTTP handlers, live hub, workers and
    rate-limit middleware) together with the properties of its
    specification.

    Conventions.
    - A Go [string] is a [string]; a Go [int]/[int64] is a [Z] (wrap-around is
      written out where the code computes with it); [time.Time] is a [Z]
      counting nanoseconds from the zero instant, so that [IsZero] is a
      comparison with [0].
    - A Go function returning [(T, error)] returns a [result T]; a function
      returning only [error] returns a [result unit].
    - A Go map is a [gmap]; the primary-store table is the list of its rows.
    - Calls that leave the process (primary store, broker, object store,
      pub/sub) act on a [World]; whether such a call fails is decided by an
      environment indexed by the number of calls made so far, and every call
      is appended to the world's trace. *)

From stdpp Require Import gmap strings list fin_maps pretty.
From Stdlib Require Import ZArith Lia Ascii.
From Stdlib Require DecimalString DecimalZ DecimalPos.

#[local] Open Scope string_scope.
#[local] Open Scope list_scope.
#[local] Open Scope Z_scope.

(** ** Go errors and results *)

Inductive error :=
| New (msg : string)
| Errorf (msg : string) (cause : error).

#[global] Instance error_eq_dec : EqDecision error.
Proof. solve_decision. Defined.

Inductive result (A : Type) :=
| Ok (a : A)
| Err (e : error).
Arguments Ok {A} a.
Arguments Err {A} e.

Definition is_ok {A} (r : result A) : bool :=
  match r with Ok _ => true | Err _ => false end.

Definition is_err {A} (r : result A) : bool := negb (is_ok r).

(** [s != ""] *)
Definition nonempty (s : string) : bool := negb (String.eqb s "").

(** ** package time *)
Module time.

Definition Time := Z.
Definition Duration := Z.

Definition Nanosecond : Duration := 1.
Definition Second : Duration := 1000000000.
Definition Minute : Duration := 60 * Second.
Definition Hour : Duration := 60 * Minute.

Definition minDuration : Duration := - 2 ^ 63.
Definition maxDuration : Duration := 2 ^ 63 - 1.

Definition IsZero (t : Time) : bool := (t =? 0)%Z.
Definition After (t u : Time) : bool := (u <? t)%Z.
Definition Before (t u : Time) : bool := (t <? u)%Z.

(** [t.Sub(u)]: the difference, saturated to the range of a Duration. *)
Definition Sub (t u : Time) : Duration :=
  let d := (t - u)%Z in
  if (d <? minDuration)%Z then minDuration
  else if (maxDuration <? d)%Z then maxDuration
  else d.

End time.

(** Go's [int] on a 64-bit platform: the value of an arithmetic result after
    wrap-around. *)
Definition wrap_int (z : Z) : Z := ((z + 2 ^ 63) mod 2 ^ 64 - 2 ^ 63)%Z.

(** ** package domain *)
Module domain.

Definition SeverityInfo : string := "INFO".
Definition SeverityWarning : string := "WARNING".
Definition SeverityError : string := "ERROR".
Definition SeverityCritical : string := "CRITICAL".

Module AuditLog.
Record t := mk {
  ID : string;
  TenantID : string;
  UserID : string;
  SessionID : string;
  IPAddress : string;
  UserAgent : string;
  Action : string;
  ResourceType : string;
  ResourceID : string;
  Message : string;
  Severity : string;
  BeforeState : string;
  AfterState : string;
  Metadata : string;
  Timestamp : time.Time;
  CreatedAt : time.Time;
  UpdatedAt : time.Time
}.

#[global] Instance eq_dec : EqDecision t.
Proof. solve_decision. Defined.

Definition set_ID (v : string) (l : t) : t :=
  mk v (TenantID l) (UserID l) (SessionID l) (IPAddress l) (UserAgent l)
     (Action l) (ResourceType l) (ResourceID l) (Message l) (Severity l)
     (BeforeState l) (AfterState l) (Metadata l)
     (Timestamp l) (CreatedAt l) (UpdatedAt l).

Definition set_TenantID (v : string) (l : t) : t :=
  mk (ID l) v (UserID l) (SessionID l) (IPAddress l) (UserAgent l)
     (Action l) (ResourceType l) (ResourceID l) (Message l) (Severity l)
     (BeforeState l) (AfterState l) (Metadata l)
     (Timestamp l) (CreatedAt l) (UpdatedAt l).

Definition set_Severity (v : string) (l : t) : t :=
  mk (ID l) (TenantID l) (UserID l) (SessionID l) (IPAddress l) (UserAgent l)
     (Action l) (ResourceType l) (ResourceID l) (Message l) v
     (BeforeState l) (AfterState l) (Metadata l)
     (Timestamp l) (CreatedAt l) (UpdatedAt l).

Definition set_times (ts created updated : time.Time) (l : t) : t :=
  mk (ID l) (TenantID l) (UserID l) (SessionID l) (IPAddress l) (UserAgent l)
     (Action l) (ResourceType l) (ResourceID l) (Message l) (Severity l)
     (BeforeState l) (AfterState l) (Metadata l)
     ts created updated.
End AuditLog.

Module AuditLogFilter.
Record t := mk {
  TenantID : string;
  UserID : string;
  SessionID : string;
  IPAddress : string;
  UserAgent : string;
  Action : string;
  ResourceType : string;
  ResourceID : string;
  Message : string;
  Severity : string;
  StartTime : time.Time;
  EndTime : time.Time;
  Page : Z;
  PageSize : Z;
  Limit : Z;
  Offset : Z
}.

(** The zero value of the struct. *)
Definition zero : t :=
  mk "" "" "" "" "" "" "" "" "" "" 0%Z 0%Z 0%Z 0%Z 0%Z 0%Z.

Definition set_TenantID (v : string) (f : t) : t :=
  mk v (UserID f) (SessionID f) (IPAddress f) (UserAgent f) (Action f)
     (ResourceType f) (ResourceID f) (Message f) (Severity f)
     (StartTime f) (EndTime f) (Page f) (PageSize f) (Limit f) (Offset f).

Definition set_EndTime (v : time.Time) (f : t) : t :=
  mk (TenantID f) (UserID f) (SessionID f) (IPAddress f) (UserAgent f)
     (Action f) (ResourceType f) (ResourceID f) (Message f) (Severity f)
     (StartTime f) v (Page f) (PageSize f) (Limit f) (Offset f).

Definition set_Page (v : Z) (f : t) : t :=
  mk (TenantID f) (UserID f) (SessionID f) (IPAddress f) (UserAgent f)
     (Action f) (ResourceType f) (ResourceID f) (Message f) (Severity f)
     (StartTime f) (EndTime f) v (PageSize f) (Limit f) (Offset f).

Definition set_PageSize (v : Z) (f : t) : t :=
  mk (TenantID f) (UserID f) (SessionID f) (IPAddress f) (UserAgent f)
     (Action f) (ResourceType f) (ResourceID f) (Message f) (Severity f)
     (StartTime f) (EndTime f) (Page f) v (Limit f) (Offset f).

Definition set_Limit (v : Z) (f : t) : t :=
  mk (TenantID f) (UserID f) (SessionID f) (IPAddress f) (UserAgent f)
     (Action f) (ResourceType f) (ResourceID f) (Message f) (Severity f)
     (StartTime f) (EndTime f) (Page f) (PageSize f) v (Offset f).

Definition set_Offset (v : Z) (f : t) : t :=
  mk (TenantID f) (UserID f) (SessionID f) (IPAddress f) (UserAgent f)
     (Action f) (ResourceType f) (ResourceID f) (Message f) (Severity f)
     (StartTime f) (EndTime f) (Page f) (PageSize f) (Limit f) v.
End AuditLogFilter.

Module AuditLogStats.
Record t := mk {
  TotalLogs : Z;
  ActionCounts : gmap string Z;
  SeverityCounts : gmap string Z;
  ResourceCounts : gmap string Z
}.
End AuditLogStats.

End domain.

(** ** package utils: the request context and the tenant it carries *)
Module utils.

(** A value of interface type, as far as the claims of a token need it. *)
Inductive any :=
| AnyNil
| AnyString (s : string)
| AnyNumber (z : Z)
| AnyOther.

(** A value stored in a context or in the key map of a request: either a
    plain value or a token's claim map ([jwt.MapClaims]). *)
Inductive value :=
| Plain (a : any)
| MapClaims (m : gmap string any).

(** [context.Context], restricted to its values; keys are [ContextKey]s. *)
Abbreviation Context := (gmap string value).

Definition ClaimsKey : string := "claims".
Definition TenantIDKey : string := "tenant_id".

Definition ErrNoClaimsInContext := New "no claims found in context".
Definition ErrInvalidClaimsType := New "invalid claims type".
Definition ErrNoTenantIDInClaims := New "no tenant_id found in claims".
Definition ErrInvalidTenantIDType := New "tenant_id must be a string".

Definition GetTenantIDFromContext (c : Context) : result string :=
  match c !! ClaimsKey with
  | Some (MapClaims claims) =>
      match claims !! TenantIDKey with
      | None => Err ErrNoTenantIDInClaims
      | Some (AnyString tenantIDStr) => Ok tenantIDStr
      | Some _ => Err ErrInvalidTenantIDType
      end
  | _ => Err ErrNoClaimsInContext
  end.

End utils.

(** ** package dto *)
Module dto.

Module CreateAuditLogRequest.
Record t := mk {
  TenantID : string;      (* binding:"required" *)
  UserID : string;
  SessionID : string;
  IPAddress : string;
  UserAgent : string;
  Action : string;        (* binding:"required" *)
  ResourceType : string;  (* binding:"required" *)
  ResourceID : string;    (* binding:"required" *)
  Severity : string;      (* binding:"required" *)
  Message : string;       (* binding:"required" *)
  BeforeState : string;
  AfterState : string;
  Metadata : string;
  Timestamp : time.Time   (* binding:"required" *)
}.
End CreateAuditLogRequest.

Module AuditLogResponse.
Record t := mk {
  ID : string;
  TenantID : string;
  UserID : string;
  SessionID : string;
  IPAddress : string;
  UserAgent : string;
  Action : string;
  ResourceType : string;
  ResourceID : string;
  Severity : string;
  Message : string;
  BeforeState : string;
  AfterState : string;
  Metadata : string;
  Timestamp : time.Time
}.

#[global] Instance eq_dec : EqDecision t.
Proof. solve_decision. Defined.
End AuditLogResponse.

Module GetAuditLogStatsResponse.
Record t := mk {
  TotalLogs : Z;
  ActionCounts : gmap string Z;
  SeverityCounts : gmap string Z;
  ResourceCounts : gmap string Z
}.
End GetAuditLogStatsResponse.

Import domain.

(** [ToAuditLog]: the fields the request does not carry keep their zero
    value. *)
Definition ToAuditLog (r : CreateAuditLogRequest.t) : AuditLog.t :=
  AuditLog.mk
    ""
    (CreateAuditLogRequest.TenantID r)
    (CreateAuditLogRequest.UserID r)
    (CreateAuditLogRequest.SessionID r)
    (CreateAuditLogRequest.IPAddress r)
    (CreateAuditLogRequest.UserAgent r)
    (CreateAuditLogRequest.Action r)
    (CreateAuditLogRequest.ResourceType r)
    (CreateAuditLogRequest.ResourceID r)
    (CreateAuditLogRequest.Message r)
    (CreateAuditLogRequest.Severity r)
    (CreateAuditLogRequest.BeforeState r)
    (CreateAuditLogRequest.AfterState r)
    (CreateAuditLogRequest.Metadata r)
    (CreateAuditLogRequest.Timestamp r)
    0 0.

Definition FromAuditLog (log : AuditLog.t) : AuditLogResponse.t :=
  AuditLogResponse.mk
    (AuditLog.ID log)
    (AuditLog.TenantID log)
    (AuditLog.UserID log)
    (AuditLog.SessionID log)
    (AuditLog.IPAddress log)
    (AuditLog.UserAgent log)
    (AuditLog.Action log)
    (AuditLog.ResourceType log)
    (AuditLog.ResourceID log)
    (AuditLog.Severity log)
    (AuditLog.Message log)
    (AuditLog.BeforeState log)
    (AuditLog.AfterState log)
    (AuditLog.Metadata log)
    (AuditLog.Timestamp log).

Definition FromAuditLogs (logs : list AuditLog.t) : list AuditLogResponse.t :=
  map FromAuditLog logs.

(** The [binding:"required"] tags of [CreateAuditLogRequest], as the
    validator of [ShouldBindJSON] checks them: a required field must not
    hold the zero value of its type (an absent JSON field leaves it). *)
Definition binding_required (r : CreateAuditLogRequest.t) : bool :=
  nonempty (CreateAuditLogRequest.TenantID r)
  && nonempty (CreateAuditLogRequest.Action r)
  && nonempty (CreateAuditLogRequest.ResourceType r)
  && nonempty (CreateAuditLogRequest.ResourceID r)
  && nonempty (CreateAuditLogRequest.Severity r)
  && nonempty (CreateAuditLogRequest.Message r)
  && negb (time.IsZero (CreateAuditLogRequest.Timestamp r)).

End dto.

(** ** package queue: broker messages *)
Module queue.

Definition MessageTypeIndex : string := "INDEX".
Definition MessageTypeBulkIndex : string := "BULK_INDEX".
Definition MessageTypeArchive : string := "ARCHIVE".
Definition MessageTypeCleanup : string := "CLEANUP".

Module Message.
Record t := mk {
  Type_ : string;
  TenantID : string;
  Logs : list domain.AuditLog.t;
  Timestamp : time.Time;
  BeforeDate : time.Time
}.

#[global] Instance eq_dec : EqDecision t.
Proof. solve_decision. Defined.
End Message.

Module ReceivedMessage.
Record t := mk {
  Message : Message.t;
  ReceiptHandle : string
}.

#[global] Instance eq_dec : EqDecision t.
Proof. solve_decision. Defined.
End ReceivedMessage.

(** The three queues of the broker. *)
Inductive Queue := IndexQueue | ArchiveQueue | CleanupQueue.

#[global] Instance Queue_eq_dec : EqDecision Queue.
Proof. solve_decision. Defined.

End queue.

(** ** The world outside the process *)

(** An object of the archive bucket: the envelope written by the archive
    worker. *)
Module ArchiveData.
Record t := mk {
  tenant_id : string;
  before_date : time.Time;
  archived_at : time.Time;
  log_count : Z;
  logs : list domain.AuditLog.t
}.
End ArchiveData.

(** A call that left the process, with its outcome. *)
Inductive Call :=
| PgInsert (rows : list domain.AuditLog.t) (ok : bool)
| PgSelect (ok : bool) (found : nat)
| PgDelete (tenantID : string) (beforeDate : time.Time) (ok : bool)
| SqsSend (q : queue.Queue) (msg : queue.Message.t) (ok : bool)
| SqsReceive (q : queue.Queue) (ok : bool)
| SqsDelete (q : queue.Queue) (receiptHandle : string) (ok : bool)
| S3Put (key : string) (ok : bool)
| RedisPublish (channel : string) (log : dto.AuditLogResponse.t) (ok : bool)
| RedisGet (key : string) (ok : bool)
| RedisPipeline (key : string) (ok : bool)
| OsRequest (ok : bool).

#[global] Instance Call_eq_dec : EqDecision Call.
Proof. solve_decision. Defined.

(** What the process cannot decide: which outside calls fail (indexed by the
    number of outside calls made before), the identifiers and instants it is
    given, and two library functions taken as they are. *)
Record Env := mkEnv {
  pg_fails : nat -> bool;
  sqs_fails : nat -> bool;
  s3_fails : nat -> bool;
  redis_fails : nat -> bool;
  os_fails : nat -> bool;
  uuid_New : nat -> string;
  (** the receipt handle the broker gives the message sent at a tick *)
  receipt_handle : nat -> string;
  time_Now : nat -> time.Time;
  (** [t.Format(layout)] *)
  time_Format : string -> time.Time -> string;
  (** [time.Parse(layout, value)] *)
  time_Parse : string -> string -> option time.Time;
  (** [strconv.Atoi] and [strconv.Itoa] *)
  strconv_Atoi : string -> option Z;
  strconv_Itoa : Z -> string;
  (** the search engine's full-text [match] of a query against a text field *)
  text_match : string -> string -> bool
}.

Record World := mkWorld {
  (** number of outside calls made so far *)
  tick : nat;
  (** number of identifiers drawn so far *)
  drawn : nat;
  (** primary store: the rows of table [audit_logs] *)
  audit_logs : list domain.AuditLog.t;
  (** search engine: index name to (document id to document) *)
  indices : gmap string (gmap string domain.AuditLog.t);
  (** object archive: key to object *)
  bucket : gmap string ArchiveData.t;
  index_queue : list queue.ReceivedMessage.t;
  archive_queue : list queue.ReceivedMessage.t;
  cleanup_queue : list queue.ReceivedMessage.t;
  (** rate-limit substrate: the value stored under each key *)
  redis_keys : gmap string string;
  trace : list Call
}.

Definition set_audit_logs (v : list domain.AuditLog.t) (w : World) : World :=
  mkWorld (tick w) (drawn w) v (indices w) (bucket w)
          (index_queue w) (archive_queue w) (cleanup_queue w) (redis_keys w) (trace w).

Definition set_indices (v : gmap string (gmap string domain.AuditLog.t))
    (w : World) : World :=
  mkWorld (tick w) (drawn w) (audit_logs w) v (bucket w)
          (index_queue w) (archive_queue w) (cleanup_queue w) (redis_keys w) (trace w).

Definition set_bucket (v : gmap string ArchiveData.t) (w : World) : World :=
  mkWorld (tick w) (drawn w) (audit_logs w) (indices w) v
          (index_queue w) (archive_queue w) (cleanup_queue w) (redis_keys w) (trace w).

Definition get_queue (q : queue.Queue) (w : World) : list queue.ReceivedMessage.t :=
  match q with
  | queue.IndexQueue => index_queue w
  | queue.ArchiveQueue => archive_queue w
  | queue.CleanupQueue => cleanup_queue w
  end.

Definition set_queue (q : queue.Queue) (v : list queue.ReceivedMessage.t)
    (w : World) : World :=
  match q with
  | queue.IndexQueue =>
      mkWorld (tick w) (drawn w) (audit_logs w) (indices w) (bucket w)
              v (archive_queue w) (cleanup_queue w) (redis_keys w) (trace w)
  | queue.ArchiveQueue =>
      mkWorld (tick w) (drawn w) (audit_logs w) (indices w) (bucket w)
              (index_queue w) v (cleanup_queue w) (redis_keys w) (trace w)
  | queue.CleanupQueue =>
      mkWorld (tick w) (drawn w) (audit_logs w) (indices w) (bucket w)
              (index_queue w) (archive_queue w) v (redis_keys w) (trace w)
  end.

Definition set_redis_keys (v : gmap string string) (w : World) : World :=
  mkWorld (tick w) (drawn w) (audit_logs w) (indices w) (bucket w)
          (index_queue w) (archive_queue w) (cleanup_queue w) v (trace w).

(** Record an outside call: one more tick, one more entry of the trace. *)
Definition call (c : Call) (w : World) : World :=
  mkWorld (S (tick w)) (drawn w) (audit_logs w) (indices w) (bucket w)
          (index_queue w) (archive_queue w) (cleanup_queue w) (redis_keys w) (trace w ++ [c]).

(** Draw a fresh identifier ([uuid.New().String()]). *)
Definition draw (env : Env) (w : World) : string * World :=
  (uuid_New env (drawn w),
   mkWorld (tick w) (S (drawn w)) (audit_logs w) (indices w) (bucket w)
           (index_queue w) (archive_queue w) (cleanup_queue w) (redis_keys w) (trace w)).

(** ** The ORM's query builder, as far as the repositories use it *)
Module gorm.
Import domain.

Definition ErrRecordNotFound : error := New "record not found".

(** A statement under construction on table [audit_logs]: the conjunction
    of its [Where] clauses, and its LIMIT, OFFSET and ORDER BY. *)
Record DB := mk {
  conds : list (AuditLog.t -> bool);
  limit : option Z;
  offset : option Z;
  order_timestamp_desc : bool
}.

(** [db.WithContext(ctx)]: a statement with no clause yet. *)
Definition WithContext : DB := mk [] None None false.

Definition Where (c : AuditLog.t -> bool) (db : DB) : DB :=
  mk (conds db ++ [c]) (limit db) (offset db) (order_timestamp_desc db).

Definition Limit (n : Z) (db : DB) : DB :=
  mk (conds db) (Some n) (offset db) (order_timestamp_desc db).

Definition Offset (n : Z) (db : DB) : DB :=
  mk (conds db) (limit db) (Some n) (order_timestamp_desc db).

(** [db.Order("timestamp DESC")] *)
Definition Order (db : DB) : DB :=
  mk (conds db) (limit db) (offset db) true.

(** ["col = ?"] on a text column *)
Definition col_eq (col : AuditLog.t -> string) (v : string) (r : AuditLog.t) : bool :=
  String.eqb (col r) v.

Definition matches (db : DB) (r : AuditLog.t) : bool :=
  forallb (fun c => c r) (conds db).

Fixpoint insert_desc (x : AuditLog.t) (l : list AuditLog.t) : list AuditLog.t :=
  match l with
  | [] => [x]
  | y :: l' =>
      if (AuditLog.Timestamp y <? AuditLog.Timestamp x)
      then x :: y :: l'
      else y :: insert_desc x l'
  end.

(** ORDER BY timestamp DESC (rows of equal timestamp keep their order). *)
Definition sort_desc (l : list AuditLog.t) : list AuditLog.t :=
  foldr insert_desc [] l.

(** The rows a SELECT of the statement returns from a table: WHERE, then
    ORDER BY, then OFFSET, then LIMIT. *)
Definition select (db : DB) (table : list AuditLog.t) : list AuditLog.t :=
  let matched := List.filter (matches db) table in
  let ordered := if order_timestamp_desc db then sort_desc matched else matched in
  let skipped :=
    match offset db with
    | Some n => drop (Z.to_nat n) ordered
    | None => ordered
    end in
  match limit db with
  | Some n => take (Z.to_nat n) skipped
  | None => skipped
  end.

(** [db.Find(&logs)] *)
Definition Find (env : Env) (db : DB) (w : World)
    : result (list AuditLog.t) * World :=
  if pg_fails env (tick w)
  then (Err (New "primary store: query failed"), call (PgSelect false 0) w)
  else
    let logs := select db (audit_logs w) in
    (Ok logs, call (PgSelect true (length logs)) w).

(** [db.First(&log, "id = ?", id)]: the first matching row, or
    [ErrRecordNotFound]. *)
Definition First (env : Env) (db : DB) (id : string) (w : World)
    : result AuditLog.t * World :=
  if pg_fails env (tick w)
  then (Err (New "primary store: query failed"), call (PgSelect false 0) w)
  else
    match select (Where (col_eq AuditLog.ID id) db) (audit_logs w) with
    | [] => (Err ErrRecordNotFound, call (PgSelect true 0) w)
    | log :: _ => (Ok log, call (PgSelect true 1) w)
    end.

(** The row an INSERT stores for a struct: a column whose field carries a
    [default:] tag and holds the zero value takes the column default
    ([severity] 'INFO', the time columns CURRENT_TIMESTAMP). *)
Definition stored_row (now : time.Time) (log : AuditLog.t) : AuditLog.t :=
  let dflt t := if time.IsZero t then now else t in
  AuditLog.set_times
    (dflt (AuditLog.Timestamp log))
    (dflt (AuditLog.CreatedAt log))
    (dflt (AuditLog.UpdatedAt log))
    (if nonempty (AuditLog.Severity log) then log
     else AuditLog.set_Severity SeverityInfo log).

(** PRIMARY KEY (id, timestamp) *)
Definition same_key (a b : AuditLog.t) : bool :=
  String.eqb (AuditLog.ID a) (AuditLog.ID b)
  && (AuditLog.Timestamp a =? AuditLog.Timestamp b).

Fixpoint keys_free (table rows : list AuditLog.t) : bool :=
  match rows with
  | [] => true
  | r :: rows' =>
      negb (existsb (same_key r) table) && keys_free (r :: table) rows'
  end.

(** [db.Create(logs)] / [db.CreateInBatches(logs, n)]: one transaction; it
    fails when the store fails or a key is taken, and then stores nothing.
    The structs are given back as stored. *)
Definition Create (env : Env) (logs : list AuditLog.t) (w : World)
    : result unit * list AuditLog.t * World :=
  let rows := map (stored_row (time_Now env (tick w))) logs in
  if pg_fails env (tick w)
  then (Err (New "primary store: insert failed"), logs,
        call (PgInsert rows false) w)
  else if keys_free (audit_logs w) rows
  then (Ok tt, rows,
        call (PgInsert rows true) (set_audit_logs (audit_logs w ++ rows) w))
  else (Err (New "duplicate key value violates unique constraint"), logs,
        call (PgInsert rows false) w).

(** [db.Delete(&AuditLog{})]: the rows affected. *)
Definition Delete (env : Env) (db : DB) (tenantID : string)
    (beforeDate : time.Time) (w : World) : result Z * World :=
  if pg_fails env (tick w)
  then (Err (New "primary store: delete failed"),
        call (PgDelete tenantID beforeDate false) w)
  else
    let kept := List.filter (fun r => negb (matches db r)) (audit_logs w) in
    let gone := List.filter (matches db) (audit_logs w) in
    (Ok (Z.of_nat (length gone)),
     call (PgDelete tenantID beforeDate true) (set_audit_logs kept w)).

End gorm.

(** ** package postgres: the primary-store repository *)
Module postgres.
Import domain.

(** [getTenantScope]: a statement scoped to the tenant of the context. *)
Definition getTenantScope (ctx : utils.Context) : result gorm.DB :=
  match utils.GetTenantIDFromContext ctx with
  | Err err => Err err
  | Ok tenantID =>
      Ok (gorm.Where (gorm.col_eq AuditLog.TenantID tenantID) gorm.WithContext)
  end.

(** [if log.ID == "" { log.ID = uuid.New().String() }] *)
Definition ensureID (env : Env) (log : AuditLog.t) (w : World)
    : AuditLog.t * World :=
  if nonempty (AuditLog.ID log) then (log, w)
  else let '(id, w') := draw env w in (AuditLog.set_ID id log, w').

(** [Create]: the struct behind the pointer is given back as the call
    leaves it. *)
Definition Create (env : Env) (ctx : utils.Context) (log : AuditLog.t)
    (w : World) : result unit * AuditLog.t * World :=
  let '(log, w) := ensureID env log w in
  let '(r, logs, w) := gorm.Create env [log] w in
  (r, hd log logs, w).

Definition GetByID (env : Env) (ctx : utils.Context) (id : string)
    (w : World) : result AuditLog.t * World :=
  match getTenantScope ctx with
  | Err err => (Err err, w)
  | Ok db => gorm.First env db id w
  end.

Definition List (env : Env) (ctx : utils.Context) (filter : AuditLogFilter.t)
    (w : World) : result (list AuditLog.t) * World :=
  let db := gorm.WithContext in
  if negb (nonempty (AuditLogFilter.TenantID filter))
  then (Err (New "tenant_id is required"), w)
  else
    let db := gorm.Where (gorm.col_eq AuditLog.TenantID (AuditLogFilter.TenantID filter)) db in
    (* Apply additional filters *)
    let db := if nonempty (AuditLogFilter.UserID filter)
              then gorm.Where (gorm.col_eq AuditLog.UserID (AuditLogFilter.UserID filter)) db
              else db in
    let db := if nonempty (AuditLogFilter.Action filter)
              then gorm.Where (gorm.col_eq AuditLog.Action (AuditLogFilter.Action filter)) db
              else db in
    let db := if nonempty (AuditLogFilter.ResourceType filter)
              then gorm.Where (gorm.col_eq AuditLog.ResourceType (AuditLogFilter.ResourceType filter)) db
              else db in
    let db := if nonempty (AuditLogFilter.ResourceID filter)
              then gorm.Where (gorm.col_eq AuditLog.ResourceID (AuditLogFilter.ResourceID filter)) db
              else db in
    let db := if nonempty (AuditLogFilter.Severity filter)
              then gorm.Where (gorm.col_eq AuditLog.Severity (AuditLogFilter.Severity filter)) db
              else db in
    let db := if negb (time.IsZero (AuditLogFilter.StartTime filter))
              then gorm.Where (fun r => AuditLogFilter.StartTime filter <=? AuditLog.Timestamp r) db
              else db in
    let db := if negb (time.IsZero (AuditLogFilter.EndTime filter))
              then gorm.Where (fun r => AuditLog.Timestamp r <=? AuditLogFilter.EndTime filter) db
              else db in
    (* Apply pagination *)
    let db := if 0 <? AuditLogFilter.Limit filter
              then gorm.Limit (AuditLogFilter.Limit filter) db
              else db in
    let db := if 0 <? AuditLogFilter.Offset filter
              then gorm.Offset (AuditLogFilter.Offset filter) db
              else db in
    (* Apply sorting *)
    let db := gorm.Order db in
    gorm.Find env db w.

Definition DeleteBeforeDate (env : Env) (ctx : utils.Context)
    (tenantID : string) (beforeDate : time.Time) (w : World)
    : result Z * World :=
  let db := gorm.WithContext in
  let db := gorm.Where
              (fun r => String.eqb (AuditLog.TenantID r) tenantID
                        && (AuditLog.Timestamp r <? beforeDate)) db in
  gorm.Delete env db tenantID beforeDate w.

(** The loop of [BulkCreate] over the slice: an identifier where there is
    none, and the tenant of the context in every element. *)
Fixpoint stamp (env : Env) (tenantID : string) (logs : list AuditLog.t)
    (w : World) : list AuditLog.t * World :=
  match logs with
  | [] => ([], w)
  | log :: rest =>
      let '(log, w) := ensureID env log w in
      let log := AuditLog.set_TenantID tenantID log in
      let '(rest, w) := stamp env tenantID rest w in
      (log :: rest, w)
  end.

(** [BulkCreate]: the slice is shared with the caller and is given back as
    the call leaves it. *)
Definition BulkCreate (env : Env) (ctx : utils.Context)
    (logs : list AuditLog.t) (w : World)
    : result unit * list AuditLog.t * World :=
  match utils.GetTenantIDFromContext ctx with
  | Err err => (Err err, logs, w)
  | Ok tenantID =>
      let '(logs, w) := stamp env tenantID logs w in
      gorm.Create env logs w
  end.

(** *** Statistics *)

Section grouping.
Context {K : Type} `{EqDecision K}.

Definition occurrences (k : K) (l : list K) : Z :=
  Z.of_nat (length (List.filter (fun x => bool_decide (x = k)) l)).

(** [SELECT k, COUNT( * ) ... GROUP BY k] *)
Definition group_count (l : list K) : list (K * Z) :=
  map (fun k => (k, occurrences k l)) (remove_dups l).

Definition total (k : K) (rows : list (K * Z)) : Z :=
  foldr Z.add 0 (map snd (List.filter (fun r => bool_decide (r.1 = k)) rows)).

(** [SELECT k, SUM(count) ... GROUP BY k] *)
Definition group_sum (rows : list (K * Z)) : list (K * Z) :=
  map (fun k => (k, total k rows)) (remove_dups (map fst rows)).
End grouping.

(** [time_bucket(width, ts)]: the start of the bucket of [ts]. *)
Definition time_bucket (width : time.Duration) (ts : time.Time) : time.Time :=
  width * (ts / width).

Module HourlyStat.
Record t := mk {
  bucket : time.Time;
  tenant_id : string;
  action : string;
  severity : string;
  resource_type : string;
  count : Z
}.
End HourlyStat.

(** The continuous aggregate of the schema:
    [SELECT time_bucket('1 hour', timestamp) AS bucket, tenant_id, action,
     severity, resource_type, COUNT( * ) FROM audit_logs GROUP BY bucket,
     tenant_id, action, severity, resource_type]. *)
Definition audit_logs_hourly_stats (table : list AuditLog.t)
    : list HourlyStat.t :=
  map (fun '(b, t, a, s, r, n) => HourlyStat.mk b t a s r n)
      (group_count
         (map (fun l => (time_bucket time.Hour (AuditLog.Timestamp l),
                         AuditLog.TenantID l, AuditLog.Action l,
                         AuditLog.Severity l, AuditLog.ResourceType l))
              table)).

Module countResult.
Record t := mk {
  Category : string;
  Key : string;
  Count : Z
}.
End countResult.

(** [WHERE tenant_id = ? AND bucket >= ? AND bucket < ?] *)
Definition bucket_in (tenantID : string) (startTime endTime : time.Time)
    (h : HourlyStat.t) : bool :=
  String.eqb (HourlyStat.tenant_id h) tenantID
  && (startTime <=? HourlyStat.bucket h)
  && (HourlyStat.bucket h <? endTime).

(** [WHERE tenant_id = ? AND timestamp >= ? AND timestamp < ?] *)
Definition timestamp_in (tenantID : string) (startTime endTime : time.Time)
    (l : AuditLog.t) : bool :=
  String.eqb (AuditLog.TenantID l) tenantID
  && (startTime <=? AuditLog.Timestamp l)
  && (AuditLog.Timestamp l <? endTime).

(** The query on the hourly statistics. *)
Definition hourly_query (table : list AuditLog.t) (tenantID : string)
    (startTime endTime : time.Time) : list countResult.t :=
  let sel := List.filter (bucket_in tenantID startTime endTime)
                         (audit_logs_hourly_stats table) in
  let t :=
    map (fun h => ("action", HourlyStat.action h, HourlyStat.count h)) sel
    ++ map (fun h => ("severity", HourlyStat.severity h, HourlyStat.count h)) sel
    ++ map (fun h => ("resource_type", HourlyStat.resource_type h, HourlyStat.count h))
           (List.filter (fun h => nonempty (HourlyStat.resource_type h)) sel) in
  map (fun '(c, k, n) => countResult.mk c k n) (group_sum t).

(** The query on the base table. *)
Definition base_query (table : list AuditLog.t) (tenantID : string)
    (startTime endTime : time.Time) : list countResult.t :=
  let time_filtered_logs :=
    List.filter (timestamp_in tenantID startTime endTime) table in
  map (fun '(k, n) => countResult.mk "severity" k n)
      (group_count (map AuditLog.Severity time_filtered_logs))
  ++ map (fun '(k, n) => countResult.mk "action" k n)
         (group_count (map AuditLog.Action time_filtered_logs))
  ++ map (fun '(k, n) => countResult.mk "resource_type" k n)
         (group_count
            (map AuditLog.ResourceType
                 (List.filter (fun l => nonempty (AuditLog.ResourceType l))
                              time_filtered_logs))).

(** [SELECT COUNT( * ) FROM audit_logs_hourly_stats WHERE ...] *)
Definition hourly_total (table : list AuditLog.t) (tenantID : string)
    (startTime endTime : time.Time) : Z :=
  Z.of_nat (length (List.filter (bucket_in tenantID startTime endTime)
                                (audit_logs_hourly_stats table))).

(** [SELECT COUNT( * ) FROM audit_logs WHERE ...] *)
Definition base_total (table : list AuditLog.t) (tenantID : string)
    (startTime endTime : time.Time) : Z :=
  Z.of_nat (length (List.filter (timestamp_in tenantID startTime endTime) table)).

(** One turn of the loop that files the result rows into the maps. *)
Definition file_result (stats : AuditLogStats.t) (r : countResult.t)
    : AuditLogStats.t :=
  if String.eqb (countResult.Category r) "severity" then
    AuditLogStats.mk (AuditLogStats.TotalLogs stats)
      (AuditLogStats.ActionCounts stats)
      (<[countResult.Key r := countResult.Count r]> (AuditLogStats.SeverityCounts stats))
      (AuditLogStats.ResourceCounts stats)
  else if String.eqb (countResult.Category r) "action" then
    AuditLogStats.mk (AuditLogStats.TotalLogs stats)
      (<[countResult.Key r := countResult.Count r]> (AuditLogStats.ActionCounts stats))
      (AuditLogStats.SeverityCounts stats)
      (AuditLogStats.ResourceCounts stats)
  else if String.eqb (countResult.Category r) "resource_type" then
    AuditLogStats.mk (AuditLogStats.TotalLogs stats)
      (AuditLogStats.ActionCounts stats)
      (AuditLogStats.SeverityCounts stats)
      (<[countResult.Key r := countResult.Count r]> (AuditLogStats.ResourceCounts stats))
  else stats.

Definition set_TotalLogs (n : Z) (stats : AuditLogStats.t) : AuditLogStats.t :=
  AuditLogStats.mk n (AuditLogStats.ActionCounts stats)
    (AuditLogStats.SeverityCounts stats) (AuditLogStats.ResourceCounts stats).

(** [db.Raw(query, ...).Scan(&dest)]: the rows of a raw query. *)
Definition Raw {A} (env : Env) (rows : list A) (w : World)
    : result (list A) * World :=
  if pg_fails env (tick w)
  then (Err (New "primary store: query failed"), call (PgSelect false 0) w)
  else (Ok rows, call (PgSelect true (length rows)) w).

(** [db.Raw(query, ...).Count(&n)] for a [SELECT COUNT( * )]. *)
Definition RawCount (env : Env) (n : Z) (w : World) : result Z * World :=
  if pg_fails env (tick w)
  then (Err (New "primary store: query failed"), call (PgSelect false 0) w)
  else (Ok n, call (PgSelect true 1) w).

Definition GetStats (env : Env) (ctx : utils.Context)
    (filter : AuditLogFilter.t) (w : World)
    : result AuditLogStats.t * World :=
  if time.IsZero (AuditLogFilter.StartTime filter)
     || time.IsZero (AuditLogFilter.EndTime filter)
  then (Err (New "start time and end time are required"), w)
  else
    let tenant :=
      if nonempty (AuditLogFilter.TenantID filter)
      then Ok (AuditLogFilter.TenantID filter)
      else utils.GetTenantIDFromContext ctx in
    match tenant with
    | Err err => (Err err, w)
    | Ok tenantID =>
        match getTenantScope ctx with
        | Err err => (Err err, w)
        | Ok db =>
            let stats := AuditLogStats.mk 0 ∅ ∅ ∅ in
            let startTime := AuditLogFilter.StartTime filter in
            let endTime := AuditLogFilter.EndTime filter in
            (* Calculate time range duration *)
            let duration := time.Sub endTime startTime in
            (* Choose the appropriate source based on time range *)
            let '(scanned, w) :=
              if duration <=? 24 * time.Hour
              then
                match Raw env (hourly_query (audit_logs w) tenantID startTime endTime) w with
                | (Err err, w) => (Err (Errorf "failed to get hourly stats" err), w)
                | (Ok results, w) => (Ok results, w)
                end
              else
                match Raw env (base_query (audit_logs w) tenantID startTime endTime) w with
                | (Err err, w) => (Err (Errorf "failed to get counts" err), w)
                | (Ok results, w) => (Ok results, w)
                end in
            match scanned with
            | Err err => (Err err, w)
            | Ok results =>
                (* Process results into appropriate maps *)
                let stats := foldl file_result stats results in
                (* Get total count using the same strategy *)
                let '(counted, w) :=
                  if duration <=? 24 * time.Hour
                  then RawCount env (hourly_total (audit_logs w) tenantID startTime endTime) w
                  else RawCount env (base_total (audit_logs w) tenantID startTime endTime) w in
                match counted with
                | Err err => (Err (Errorf "failed to get total count" err), w)
                | Ok n => (Ok (set_TotalLogs n stats), w)
                end
            end
        end
    end.

(** [GetRecentLogs]: the latest rows of a tenant since an instant. *)
Definition GetRecentLogs (env : Env) (ctx : utils.Context) (tenantID : string)
    (since : time.Time) (w : World) : result (list AuditLog.t) * World :=
  let db := gorm.WithContext in
  let db := gorm.Where
              (fun r => String.eqb (AuditLog.TenantID r) tenantID
                        && (since <=? AuditLog.Timestamp r)) db in
  let db := gorm.Order db in
  (* Limit to prevent too many logs from being sent *)
  let db := gorm.Limit 100 db in
  match gorm.Find env db w with
  | (Err err, w) => (Err (Errorf "failed to get recent logs" err), w)
  | (Ok logs, w) => (Ok logs, w)
  end.

End postgres.

(** ** package config: names of the search indices *)
Module config.

(** Format: [audit_logs_<tenant_id>_YYYY_MM_DD] *)
Definition GetIndexName (env : Env) (tenantID : string) (t : time.Time) : string :=
  ("audit_logs_" ++ tenantID ++ "_" ++ time_Format env "2006_01_02" t)%string.

(** Format: [audit_logs_<tenant_id>_*] *)
Definition GetIndexPattern (tenantID : string) : string :=
  ("audit_logs_" ++ tenantID ++ "_*")%string.

End config.

(** ** package opensearch: the search-index repository *)
Module opensearch.
Import domain.

(** One request to the search engine. *)
Definition request {A} (env : Env) (a : A) (w : World) : result A * World :=
  if os_fails env (tick w)
  then (Err (New "search engine: request failed"), call (OsRequest false) w)
  else (Ok a, call (OsRequest true) w).

Definition CreateIndex (env : Env) (tenantID : string) (t : time.Time)
    (w : World) : result unit * World :=
  let indexName := config.GetIndexName env tenantID t in
  (* Check if index exists *)
  match request env tt w with
  | (Err err, w) => (Err (Errorf "failed to check index existence" err), w)
  | (Ok _, w) =>
      match indices w !! indexName with
      | Some _ => (Ok tt, w)
      | None =>
          (* Create index with mapping and settings *)
          match request env tt w with
          | (Err err, w) => (Err (Errorf "failed to create index" err), w)
          | (Ok _, w) => (Ok tt, set_indices (<[indexName := ∅]> (indices w)) w)
          end
      end
  end.

(** Write document [log] under its id into index [indexName]. *)
Definition put_doc (indexName : string) (log : AuditLog.t)
    (ix : gmap string (gmap string AuditLog.t))
    : gmap string (gmap string AuditLog.t) :=
  <[indexName := <[AuditLog.ID log := log]> (default ∅ (ix !! indexName))]> ix.

Definition indexTime (env : Env) (log : AuditLog.t) (w : World) : time.Time :=
  if negb (time.IsZero (AuditLog.Timestamp log))
  then AuditLog.Timestamp log
  else time_Now env (tick w).

Definition Index (env : Env) (log : AuditLog.t) (w : World)
    : result unit * World :=
  let indexTime := indexTime env log w in
  let indexName := config.GetIndexName env (AuditLog.TenantID log) indexTime in
  (* Ensure index exists *)
  match CreateIndex env (AuditLog.TenantID log) indexTime w with
  | (Err err, w) => (Err (Errorf "failed to ensure index exists" err), w)
  | (Ok _, w) =>
      match request env tt w with
      | (Err err, w) => (Err (Errorf "failed to index document" err), w)
      | (Ok _, w) => (Ok tt, set_indices (put_doc indexName log (indices w)) w)
      end
  end.

Definition bulkIndexGroup (env : Env) (indexName : string)
    (logs : list AuditLog.t) (w : World) : result unit * World :=
  (* Ensure index exists (using first log's tenant and timestamp) *)
  let '(ensured, w) :=
    match logs with
    | [] => (Ok tt, w)
    | log0 :: _ =>
        match CreateIndex env (AuditLog.TenantID log0) (indexTime env log0 w) w with
        | (Err err, w) => (Err (Errorf "failed to ensure index exists" err), w)
        | (Ok _, w) => (Ok tt, w)
        end
    end in
  match ensured with
  | Err err => (Err err, w)
  | Ok _ =>
      (* Send bulk request *)
      match request env tt w with
      | (Err err, w) => (Err (Errorf "failed to execute bulk request" err), w)
      | (Ok _, w) =>
          (Ok tt, set_indices (foldl (fun ix log => put_doc indexName log ix)
                                     (indices w) logs) w)
      end
  end.

(** The loop of [BulkIndex] over the groups; it stops at the first group
    that fails. *)
Fixpoint bulkIndexGroups (env : Env)
    (groups : list (string * list AuditLog.t)) (w : World)
    : result unit * World :=
  match groups with
  | [] => (Ok tt, w)
  | (indexName, groupLogs) :: rest =>
      match bulkIndexGroup env indexName groupLogs w with
      | (Err err, w) => (Err (Errorf "failed to bulk index group" err), w)
      | (Ok _, w) => bulkIndexGroups env rest w
      end
  end.

(** [BulkIndex]: the logs are grouped by index name (the order in which the
    groups are visited is not fixed by the language; they are taken in
    order of first occurrence). *)
Definition BulkIndex (env : Env) (logs : list AuditLog.t) (w : World)
    : result unit * World :=
  match logs with
  | [] => (Ok tt, w)
  | _ =>
      let name log :=
        config.GetIndexName env (AuditLog.TenantID log) (indexTime env log w) in
      let logGroups :=
        map (fun n => (n, List.filter (fun log => String.eqb (name log) n) logs))
            (remove_dups (map name logs)) in
      bulkIndexGroups env logGroups w
  end.

(** The query sent to the search engine. *)
Inductive clause :=
| term (field value : string)
| match_ (field value : string)
| range_timestamp (gte lte : option time.Time).

Record query := mkQuery {
  must : list clause;
  from : option Z;
  size : option Z
}.

Definition createTermQuery (field value : string) : clause := term field value.
Definition createMatchQuery (field value : string) : clause := match_ field value.

Definition createTimeRangeQuery (startTime endTime : time.Time) : clause :=
  range_timestamp
    (if negb (time.IsZero startTime) then Some startTime else None)
    (if negb (time.IsZero endTime) then Some endTime else None).

Definition buildSearchQuery (filter : AuditLogFilter.t) : query :=
  let nonempty_clauses (mk : string -> string -> clause)
        (fields : list (string * string)) :=
    map (fun '(field, value) => mk field value)
        (List.filter (fun '(_, value) => nonempty value) fields) in
  (* Add exact match filters (keyword fields) *)
  let exactMatches :=
    [("user_id", AuditLogFilter.UserID filter);
     ("action", AuditLogFilter.Action filter);
     ("resource_type", AuditLogFilter.ResourceType filter);
     ("severity", AuditLogFilter.Severity filter);
     ("session_id", AuditLogFilter.SessionID filter)] in
  let must := nonempty_clauses createTermQuery exactMatches in
  (* Add full-text search filters (text fields) *)
  let textMatches :=
    [("user_agent", AuditLogFilter.UserAgent filter);
     ("message", AuditLogFilter.Message filter)] in
  let must := must ++ nonempty_clauses createMatchQuery textMatches in
  (* Add IP address filter *)
  let must :=
    if nonempty (AuditLogFilter.IPAddress filter)
    then must ++ [createTermQuery "ip_address" (AuditLogFilter.IPAddress filter)]
    else must in
  (* Add time range filter *)
  let must :=
    if negb (time.IsZero (AuditLogFilter.StartTime filter))
       || negb (time.IsZero (AuditLogFilter.EndTime filter))
    then must ++ [createTimeRangeQuery (AuditLogFilter.StartTime filter)
                                       (AuditLogFilter.EndTime filter)]
    else must in
  (* Add pagination *)
  if (0 <? AuditLogFilter.Page filter) && (0 <? AuditLogFilter.PageSize filter)
  then mkQuery must
         (Some (wrap_int ((AuditLogFilter.Page filter - 1) * AuditLogFilter.PageSize filter)))
         (Some (AuditLogFilter.PageSize filter))
  else mkQuery must None None.

(** The value of a document's field, by its JSON name. *)
Definition field (name : string) (doc : AuditLog.t) : string :=
  if String.eqb name "id" then AuditLog.ID doc
  else if String.eqb name "tenant_id" then AuditLog.TenantID doc
  else if String.eqb name "user_id" then AuditLog.UserID doc
  else if String.eqb name "session_id" then AuditLog.SessionID doc
  else if String.eqb name "ip_address" then AuditLog.IPAddress doc
  else if String.eqb name "user_agent" then AuditLog.UserAgent doc
  else if String.eqb name "action" then AuditLog.Action doc
  else if String.eqb name "resource_type" then AuditLog.ResourceType doc
  else if String.eqb name "resource_id" then AuditLog.ResourceID doc
  else if String.eqb name "message" then AuditLog.Message doc
  else if String.eqb name "severity" then AuditLog.Severity doc
  else "".

Definition satisfies (env : Env) (doc : AuditLog.t) (c : clause) : bool :=
  match c with
  | term f v => String.eqb (field f doc) v
  | match_ f v => text_match env v (field f doc)
  | range_timestamp gte lte =>
      match gte with Some t => t <=? AuditLog.Timestamp doc | None => true end
      && match lte with Some t => AuditLog.Timestamp doc <=? t | None => true end
  end.

(** An index pattern against an index name: [*] stands for any run of
    characters. *)
Fixpoint wildcard (pattern name : string) : bool :=
  match pattern with
  | EmptyString => match name with EmptyString => true | _ => false end
  | String c pattern' =>
      if Ascii.eqb c "*"%char
      then (fix skip (name : string) : bool :=
              wildcard pattern' name
              || match name with
                 | EmptyString => false
                 | String _ name' => skip name'
                 end) name
      else match name with
           | EmptyString => false
           | String d name' => Ascii.eqb c d && wildcard pattern' name'
           end
  end.

(** The documents of the indices whose name matches the pattern. *)
Definition docs_of (pattern : string)
    (ix : gmap string (gmap string AuditLog.t)) : list AuditLog.t :=
  concat (map (fun '(name, docs) =>
                 if wildcard pattern name then map snd (map_to_list docs) else [])
              (map_to_list ix)).

(** The hits of a query: the matching documents, most recent first, the
    page asked for (ten hits when none is asked for). *)
Definition hits (env : Env) (q : query) (docs : list AuditLog.t)
    : list AuditLog.t :=
  let matched :=
    List.filter (fun doc => forallb (satisfies env doc) (must q)) docs in
  let ordered := gorm.sort_desc matched in
  take (Z.to_nat (default 10 (size q)))
       (drop (Z.to_nat (default 0 (from q))) ordered).

Definition Search (env : Env) (ctx : utils.Context)
    (filter : AuditLogFilter.t) (w : World)
    : result (list AuditLog.t) * World :=
  (* Get tenant ID from context *)
  match utils.GetTenantIDFromContext ctx with
  | Err err => (Err (Errorf "failed to get tenant ID from context" err), w)
  | Ok tenantID =>
      (* Build search query *)
      let query := buildSearchQuery filter in
      (* Create search request using tenant's index pattern *)
      match request env tt w with
      | (Err err, w) => (Err (Errorf "failed to execute search" err), w)
      | (Ok _, w) =>
          (Ok (hits env query (docs_of (config.GetIndexPattern tenantID) (indices w))), w)
      end
  end.

(** [DeleteIndex]: the index named after the tenant and the current day.
    The engine answers a name it does not hold with 404, which the code
    turns into an error. *)
Definition DeleteIndex (env : Env) (tenantID : string) (w : World)
    : result unit * World :=
  (* Assuming current time for deletion *)
  let indexName := config.GetIndexName env tenantID (time_Now env (tick w)) in
  match request env tt w with
  | (Err err, w) => (Err (Errorf "failed to delete index" err), w)
  | (Ok _, w) =>
      match indices w !! indexName with
      | None => (Err (New "error deleting index"), w)
      | Some _ => (Ok tt, set_indices (delete indexName (indices w)) w)
      end
  end.

(** [Delete]: the document [logID] of the index named after the tenant and
    the current day. *)
Definition Delete (env : Env) (tenantID logID : string) (w : World)
    : result unit * World :=
  (* Assuming current time for deletion *)
  let indexName := config.GetIndexName env tenantID (time_Now env (tick w)) in
  match request env tt w with
  | (Err err, w) => (Err (Errorf "failed to delete document" err), w)
  | (Ok _, w) =>
      match indices w !! indexName with
      | None => (Err (New "error deleting document"), w)
      | Some docs =>
          match docs !! logID with
          | None => (Err (New "error deleting document"), w)
          | Some _ =>
              (Ok tt, set_indices (<[indexName := delete logID docs]> (indices w)) w)
          end
      end
  end.

End opensearch.

(** ** package queue: the broker service *)
Module SQSService.
Import domain queue.

Definition sendMessage (env : Env) (msg : Message.t) (q : Queue) (w : World)
    : result unit * World :=
  if sqs_fails env (tick w)
  then (Err (Errorf "failed to send message" (New "broker: request failed")),
        call (SqsSend q msg false) w)
  else
    let received := ReceivedMessage.mk msg (receipt_handle env (tick w)) in
    (Ok tt, call (SqsSend q msg true) (set_queue q (get_queue q w ++ [received]) w)).

Definition SendIndexMessage (env : Env) (log : AuditLog.t) (w : World)
    : result unit * World :=
  let msg := Message.mk MessageTypeIndex (AuditLog.TenantID log) [log]
                        (AuditLog.Timestamp log) 0 in
  sendMessage env msg IndexQueue w.

Definition SendBulkIndexMessage (env : Env) (logs : list AuditLog.t)
    (w : World) : result unit * World :=
  match logs with
  | [] => (Ok tt, w)
  | log0 :: _ =>
      let msg := Message.mk MessageTypeBulkIndex (AuditLog.TenantID log0) logs
                            (AuditLog.Timestamp log0) 0 in
      sendMessage env msg IndexQueue w
  end.

Definition SendArchiveMessage (env : Env) (tenantID : string)
    (beforeDate : time.Time) (w : World) : result unit * World :=
  let msg := Message.mk MessageTypeArchive tenantID []
                        (time_Now env (tick w)) beforeDate in
  sendMessage env msg ArchiveQueue w.

Definition SendCleanupMessage (env : Env) (tenantID : string)
    (beforeDate : time.Time) (w : World) : result unit * World :=
  let msg := Message.mk MessageTypeCleanup tenantID []
                        (time_Now env (tick w)) beforeDate in
  sendMessage env msg CleanupQueue w.

(** [ReceiveMessages]: up to [maxMessages] messages of the queue; they stay
    in the queue until they are deleted. *)
Definition ReceiveMessages (env : Env) (q : Queue) (maxMessages : Z)
    (w : World) : result (list ReceivedMessage.t) * World :=
  if sqs_fails env (tick w)
  then (Err (Errorf "failed to receive messages" (New "broker: request failed")),
        call (SqsReceive q false) w)
  else (Ok (take (Z.to_nat maxMessages) (get_queue q w)), call (SqsReceive q true) w).

Definition DeleteMessage (env : Env) (q : Queue) (receiptHandle : string)
    (w : World) : result unit * World :=
  if sqs_fails env (tick w)
  then (Err (Errorf "failed to delete message" (New "broker: request failed")),
        call (SqsDelete q receiptHandle false) w)
  else
    let rest :=
      List.filter
        (fun m => negb (String.eqb (ReceivedMessage.ReceiptHandle m) receiptHandle))
        (get_queue q w) in
    (Ok tt, call (SqsDelete q receiptHandle true) (set_queue q rest w)).

End SQSService.

(** ** package pubsub *)
Module pubsub.

Definition channelPrefix : string := "audit_logs:".

Definition getChannelName (tenantID : string) : string :=
  (channelPrefix ++ tenantID)%string.

(** [Publish]: publishes an audit log to the tenant's channel. *)
Definition Publish (env : Env) (log : dto.AuditLogResponse.t) (w : World)
    : result unit * World :=
  let channel := getChannelName (dto.AuditLogResponse.TenantID log) in
  if redis_fails env (tick w)
  then (Err (Errorf "failed to publish to Redis channel" (New "pub/sub: request failed")),
        call (RedisPublish channel log false) w)
  else (Ok tt, call (RedisPublish channel log true) w).

End pubsub.

(** ** package service: the ingestion and query service *)
Module service.
Import domain.

(** Interface [WebSocketBroadcaster]: its one method. *)
Definition WebSocketBroadcaster := dto.AuditLogResponse.t -> World -> World.

Module AuditLogService.
Record t := mk {
  (** nil until [SetWebSocketBroadcaster] is called *)
  broadcaster : option WebSocketBroadcaster
}.
End AuditLogService.

Definition NewAuditLogService : AuditLogService.t := AuditLogService.mk None.

Definition SetWebSocketBroadcaster (b : WebSocketBroadcaster)
    (s : AuditLogService.t) : AuditLogService.t :=
  AuditLogService.mk (Some b).

Definition Create (env : Env) (s : AuditLogService.t) (ctx : utils.Context)
    (req : dto.CreateAuditLogRequest.t) (w : World) : result unit * World :=
  let auditLog := dto.ToAuditLog req in
  (* Store in PostgreSQL *)
  match postgres.Create env ctx auditLog w with
  | (Err err, _, w) => (Err (Errorf "failed to store log in PostgreSQL" err), w)
  | (Ok _, auditLog, w) =>
      (* Send message to SQS for asynchronous indexing; a failure is only
         printed *)
      let '(_, w) := SQSService.SendIndexMessage env auditLog w in
      (* Broadcast to WebSocket clients if broadcaster is available *)
      let w :=
        match AuditLogService.broadcaster s with
        | Some BroadcastLog => BroadcastLog (dto.FromAuditLog auditLog) w
        | None => w
        end in
      (Ok tt, w)
  end.

Definition BulkCreate (env : Env) (s : AuditLogService.t) (ctx : utils.Context)
    (req : list dto.CreateAuditLogRequest.t) (w : World)
    : result unit * World :=
  let auditLogs := map dto.ToAuditLog req in
  (* Store in PostgreSQL *)
  match postgres.BulkCreate env ctx auditLogs w with
  | (Err err, _, w) => (Err (Errorf "failed to bulk store logs in PostgreSQL" err), w)
  | (Ok _, auditLogs, w) =>
      (* Send message to SQS for asynchronous bulk indexing *)
      let '(_, w) := SQSService.SendBulkIndexMessage env auditLogs w in
      (* Broadcast each log to WebSocket clients if broadcaster is available *)
      let w :=
        match AuditLogService.broadcaster s with
        | Some BroadcastLog =>
            foldl (fun w log => BroadcastLog (dto.FromAuditLog log) w) w auditLogs
        | None => w
        end in
      (Ok tt, w)
  end.

(** [GetByID]: the pointer it returns is never nil when the error is. *)
Definition GetByID (env : Env) (ctx : utils.Context) (id : string) (w : World)
    : result (option dto.AuditLogResponse.t) * World :=
  match postgres.GetByID env ctx id w with
  | (Err err, w) => (Err err, w)
  | (Ok log, w) => (Ok (Some (dto.FromAuditLog log)), w)
  end.

(** [hasSearchCriteria]: the filter contains search criteria that would
    benefit from the search index. *)
Definition hasSearchCriteria (filter : AuditLogFilter.t) : bool :=
  nonempty (AuditLogFilter.UserID filter)
  || nonempty (AuditLogFilter.Action filter)
  || nonempty (AuditLogFilter.ResourceType filter)
  || nonempty (AuditLogFilter.Severity filter)
  || nonempty (AuditLogFilter.IPAddress filter)
  || nonempty (AuditLogFilter.UserAgent filter)
  || nonempty (AuditLogFilter.Message filter)
  || nonempty (AuditLogFilter.SessionID filter).

(** The first lines of [List]: defaults of the page, then limit and
    offset.  The filter is behind a pointer; it is given back to the
    caller as changed. *)
Definition paginate (filter : AuditLogFilter.t) : AuditLogFilter.t :=
  let filter := if AuditLogFilter.Page filter <? 1
                then AuditLogFilter.set_Page 1 filter else filter in
  let filter := if AuditLogFilter.PageSize filter <? 1
                then AuditLogFilter.set_PageSize 10 filter else filter in
  let filter := AuditLogFilter.set_Limit (AuditLogFilter.PageSize filter) filter in
  AuditLogFilter.set_Offset
    (wrap_int ((AuditLogFilter.Page filter - 1) * AuditLogFilter.PageSize filter))
    filter.

(** The backend that served a list query. *)
Inductive backend := SearchIndex | PrimaryStore.

(** [List], with the backend it chose. *)
Definition List_routed (env : Env) (ctx : utils.Context)
    (filter : AuditLogFilter.t) (usePagination : bool) (w : World)
    : backend * result (list dto.AuditLogResponse.t) * World :=
  let filter := paginate filter in
  if hasSearchCriteria filter
  then
    match opensearch.Search env ctx filter w with
    | (Err err, w) => (SearchIndex, Err err, w)
    | (Ok logs, w) => (SearchIndex, Ok (dto.FromAuditLogs logs), w)
    end
  else
    match postgres.List env ctx filter w with
    | (Err err, w) => (PrimaryStore, Err err, w)
    | (Ok logs, w) => (PrimaryStore, Ok (dto.FromAuditLogs logs), w)
    end.

Definition List (env : Env) (ctx : utils.Context)
    (filter : AuditLogFilter.t) (usePagination : bool) (w : World)
    : result (list dto.AuditLogResponse.t) * World :=
  let '(_, r, w) := List_routed env ctx filter usePagination w in (r, w).

Definition GetStatsV2 (env : Env) (ctx : utils.Context)
    (filter : AuditLogFilter.t) (w : World)
    : result dto.GetAuditLogStatsResponse.t * World :=
  match postgres.GetStats env ctx filter w with
  | (Err err, w) => (Err (Errorf "failed to get audit log stats" err), w)
  | (Ok stats, w) =>
      (* Convert domain stats to DTO: the keys are converted to strings,
         the counts are copied *)
      (Ok (dto.GetAuditLogStatsResponse.mk
             (AuditLogStats.TotalLogs stats)
             (AuditLogStats.ActionCounts stats)
             (AuditLogStats.SeverityCounts stats)
             (AuditLogStats.ResourceCounts stats)), w)
  end.

Definition ScheduleArchive (env : Env) (tenantID : string)
    (beforeDate : time.Time) (w : World) : result unit * World :=
  SQSService.SendArchiveMessage env tenantID beforeDate w.

(** [m[key]++] on a map of counts (a count of elements of a slice stays
    within the range of an int64). *)
Definition increment (key : string) (m : gmap string Z) : gmap string Z :=
  <[key := default 0 (m !! key) + 1]> m.

(** One turn of the loop of [GetStats] over the logs. *)
Definition count_log (stats : dto.GetAuditLogStatsResponse.t)
    (log : dto.AuditLogResponse.t) : dto.GetAuditLogStatsResponse.t :=
  dto.GetAuditLogStatsResponse.mk
    (dto.GetAuditLogStatsResponse.TotalLogs stats)
    (increment (dto.AuditLogResponse.Action log)
               (dto.GetAuditLogStatsResponse.ActionCounts stats))
    (increment (dto.AuditLogResponse.Severity log)
               (dto.GetAuditLogStatsResponse.SeverityCounts stats))
    (if nonempty (dto.AuditLogResponse.ResourceType log)
     then increment (dto.AuditLogResponse.ResourceType log)
                    (dto.GetAuditLogStatsResponse.ResourceCounts stats)
     else dto.GetAuditLogStatsResponse.ResourceCounts stats).

(** [GetStats]: the statistics of the logs that [List] returns. *)
Definition GetStats (env : Env) (ctx : utils.Context)
    (filter : AuditLogFilter.t) (w : World)
    : result dto.GetAuditLogStatsResponse.t * World :=
  match List env ctx filter false w with
  | (Err err, w) => (Err err, w)
  | (Ok logs, w) =>
      let stats :=
        dto.GetAuditLogStatsResponse.mk (Z.of_nat (length logs)) ∅ ∅ ∅ in
      (Ok (foldl count_log stats logs), w)
  end.

End service.

(** ** The HTTP framework, as far as handlers and middleware use it *)
Module gin.

(** A decoded JSON request body: fields absent from the JSON text hold the
    zero value of their type. *)
Inductive JSONBody :=
| Malformed
| Object (r : dto.CreateAuditLogRequest.t)
| Array (rs : list dto.CreateAuditLogRequest.t).

Module Context.
Record t := mk {
  (** [c.Request.Context()] *)
  Request_Context : utils.Context;
  (** [c.Keys]: what [c.Set] stored *)
  Keys : gmap string utils.value;
  (** path parameters *)
  Params : gmap string string;
  (** query parameters *)
  Query : gmap string string;
  ClientIP : string;
  Body : JSONBody
}.
End Context.

(** [c.GetString(key)] *)
Definition GetString (c : Context.t) (key : string) : string :=
  match Context.Keys c !! key with
  | Some (utils.Plain (utils.AnyString s)) => s
  | _ => ""
  end.

(** [c.Query(key)] and [c.Param(key)] *)
Definition Query (c : Context.t) (key : string) : string :=
  default "" (Context.Query c !! key).

Definition Param (c : Context.t) (key : string) : string :=
  default "" (Context.Params c !! key).

(** What a handler writes with [c.JSON(status, ...)]. *)
Inductive body :=
| JSONError (err : error)
| JSONMessage (msg : string)
| JSONLog (log : dto.AuditLogResponse.t)
| JSONLogs (logs : list dto.AuditLogResponse.t)
| JSONStats (stats : dto.GetAuditLogStatsResponse.t)
| JSONRateLimit (msg : string) (limit reset : Z).

Module Response.
Record t := mk {
  status : Z;
  content : body
}.
End Response.

Definition JSON (status : Z) (content : body) : Response.t :=
  Response.mk status content.

End gin.

Module http.
Definition StatusOK : Z := 200.
Definition StatusCreated : Z := 201.
Definition StatusAccepted : Z := 202.
Definition StatusBadRequest : Z := 400.
Definition StatusUnauthorized : Z := 401.
Definition StatusNotFound : Z := 404.
Definition StatusTooManyRequests : Z := 429.
Definition StatusInternalServerError : Z := 500.
End http.

(** ** package middleware: authentication, as far as it binds the tenant *)
Module AuthMiddleware.

(** The end of [JWTAuth] for a token whose signature and expiry were
    accepted: the claims are set in the request's key map. *)
Definition set_claims (claims : gmap string utils.any) (c : gin.Context.t)
    : gin.Context.t :=
  let tenant := utils.Plain (default utils.AnyNil (claims !! utils.TenantIDKey)) in
  gin.Context.mk
    (gin.Context.Request_Context c)
    (<[utils.ClaimsKey := utils.MapClaims claims]>
       (<[utils.TenantIDKey := tenant]> (gin.Context.Keys c)))
    (gin.Context.Params c) (gin.Context.Query c)
    (gin.Context.ClientIP c) (gin.Context.Body c).

End AuthMiddleware.

(** ** package api: the HTTP handlers *)
Module api.
Import domain.

(** [RequestCtx]: the request context extended with every key of the
    request's key map. *)
Definition RequestCtx (c : gin.Context.t) : utils.Context :=
  gin.Context.Keys c ∪ gin.Context.Request_Context c.

(** [ShouldBindJSON(&log)] for one request object. *)
Definition ShouldBindJSON (c : gin.Context.t) : result dto.CreateAuditLogRequest.t :=
  match gin.Context.Body c with
  | gin.Object r =>
      if dto.binding_required r then Ok r
      else Err (New "Field validation failed on the 'required' tag")
  | _ => Err (New "invalid request body")
  end.

(** [ShouldBindJSON(&logs)] for a slice of request objects: every element
    is validated. *)
Definition ShouldBindJSON_slice (c : gin.Context.t)
    : result (list dto.CreateAuditLogRequest.t) :=
  match gin.Context.Body c with
  | gin.Array rs =>
      if forallb dto.binding_required rs then Ok rs
      else Err (New "Field validation failed on the 'required' tag")
  | _ => Err (New "invalid request body")
  end.

Definition CreateLog (env : Env) (s : service.AuditLogService.t)
    (c : gin.Context.t) (w : World) : gin.Response.t * World :=
  match ShouldBindJSON c with
  | Err err => (gin.JSON http.StatusBadRequest (gin.JSONError err), w)
  | Ok log =>
      match service.Create env s (RequestCtx c) log w with
      | (Err err, w) => (gin.JSON http.StatusInternalServerError (gin.JSONError err), w)
      | (Ok _, w) =>
          (gin.JSON http.StatusCreated (gin.JSONMessage "Log created successfully"), w)
      end
  end.

Definition BulkCreateLogs (env : Env) (s : service.AuditLogService.t)
    (c : gin.Context.t) (w : World) : gin.Response.t * World :=
  match ShouldBindJSON_slice c with
  | Err err => (gin.JSON http.StatusBadRequest (gin.JSONError err), w)
  | Ok logs =>
      match service.BulkCreate env s (RequestCtx c) logs w with
      | (Err err, w) => (gin.JSON http.StatusInternalServerError (gin.JSONError err), w)
      | (Ok _, w) =>
          (gin.JSON http.StatusCreated (gin.JSONMessage "Logs created successfully"), w)
      end
  end.

Definition GetLog (env : Env) (c : gin.Context.t) (w : World)
    : gin.Response.t * World :=
  let id := gin.Param c "id" in
  match service.GetByID env (RequestCtx c) id w with
  | (Err err, w) => (gin.JSON http.StatusInternalServerError (gin.JSONError err), w)
  | (Ok None, w) =>
      (gin.JSON http.StatusNotFound (gin.JSONError (New "Log not found")), w)
  | (Ok (Some log), w) => (gin.JSON http.StatusOK (gin.JSONLog log), w)
  end.

(** [ParseUserTime]: RFC 3339 first, then a plain date (for an end time
    moved to the last second of its day). *)
Definition ParseUserTime (env : Env) (timeStr : string) (isEndTime : bool)
    : result time.Time :=
  match time_Parse env "2006-01-02T15:04:05Z07:00" timeStr with
  | Some t => Ok t
  | None =>
      match time_Parse env "2006-01-02" timeStr with
      | None => Err (New "invalid time format, expected RFC3339 or YYYY-MM-DD")
      | Some t =>
          if isEndTime then Ok (t + (24 * time.Hour - time.Second)) else Ok t
      end
  end.

Definition getFilterFromQuery (env : Env) (c : gin.Context.t)
    : result AuditLogFilter.t :=
  let tenantID := gin.GetString c utils.TenantIDKey in
  if negb (nonempty tenantID) then Err (New "tenant_id is required")
  else
    let page :=
      if nonempty (gin.Query c "page")
      then default 0 (strconv_Atoi env (gin.Query c "page")) else 0 in
    let pageSize :=
      if nonempty (gin.Query c "page_size")
      then default 0 (strconv_Atoi env (gin.Query c "page_size")) else 0 in
    let filter startTime endTime :=
      AuditLogFilter.mk tenantID
        (gin.Query c "user_id") (gin.Query c "session_id")
        (gin.Query c "ip_address") (gin.Query c "user_agent")
        (gin.Query c "action") (gin.Query c "resource_type") ""
        (gin.Query c "message") (gin.Query c "severity")
        startTime endTime page pageSize 0 0 in
    (* Parse time filters *)
    if negb (nonempty (gin.Query c "start_time"))
    then Err (New "start_time is required")
    else
      match ParseUserTime env (gin.Query c "start_time") false with
      | Err err => Err err
      | Ok startTime =>
          if negb (nonempty (gin.Query c "end_time"))
          then Err (New "end_time is required")
          else
            match ParseUserTime env (gin.Query c "end_time") true with
            | Err err => Err err
            | Ok endTime =>
                if time.After startTime endTime
                then Err (New "start_time must be before end_time")
                else Ok (filter startTime endTime)
            end
      end.

Definition ListLogs (env : Env) (c : gin.Context.t) (w : World)
    : gin.Response.t * World :=
  match getFilterFromQuery env c with
  | Err err => (gin.JSON http.StatusBadRequest (gin.JSONError err), w)
  | Ok filter =>
      match service.List env (RequestCtx c) filter true w with
      | (Err err, w) => (gin.JSON http.StatusInternalServerError (gin.JSONError err), w)
      | (Ok logs, w) => (gin.JSON http.StatusOK (gin.JSONLogs logs), w)
      end
  end.

(** [ExportLogs]: the records exported, in either format. *)
Definition ExportLogs (env : Env) (c : gin.Context.t) (w : World)
    : gin.Response.t * World :=
  let format := default "json" (gin.Context.Query c !! "format") in
  if negb (String.eqb format "json") && negb (String.eqb format "csv")
  then (gin.JSON http.StatusBadRequest
          (gin.JSONError (New "Invalid format. Must be 'json' or 'csv'")), w)
  else
    match getFilterFromQuery env c with
    | Err err => (gin.JSON http.StatusBadRequest (gin.JSONError err), w)
    | Ok filter =>
        match service.List env (RequestCtx c) filter false w with
        | (Err err, w) => (gin.JSON http.StatusInternalServerError (gin.JSONError err), w)
        | (Ok logs, w) => (gin.JSON http.StatusOK (gin.JSONLogs logs), w)
        end
    end.

Definition GetStats (env : Env) (c : gin.Context.t) (w : World)
    : gin.Response.t * World :=
  match getFilterFromQuery env c with
  | Err err => (gin.JSON http.StatusBadRequest (gin.JSONError err), w)
  | Ok filter =>
      match service.GetStatsV2 env (RequestCtx c) filter w with
      | (Err err, w) => (gin.JSON http.StatusInternalServerError (gin.JSONError err), w)
      | (Ok stats, w) => (gin.JSON http.StatusOK (gin.JSONStats stats), w)
      end
  end.

(** The [gin.H] that [Cleanup] answers an accepted request with. *)
Module CleanupScheduled.
Record t := mk {
  message : string;
  tenant_id : string;
  before_date : string
}.
End CleanupScheduled.

(** What [Cleanup] writes: an error, or the acceptance. *)
Inductive cleanup_written :=
| CleanupRefused (response : gin.Response.t)
| CleanupAccepted (status : Z) (h : CleanupScheduled.t).

(** [Cleanup]: schedule the archival and deletion of the tenant's logs
    before a date. *)
Definition Cleanup (env : Env) (c : gin.Context.t) (w : World)
    : cleanup_written * World :=
  let tenantID := gin.GetString c utils.TenantIDKey in
  if negb (nonempty tenantID)
  then (CleanupRefused (gin.JSON http.StatusUnauthorized
                          (gin.JSONError (New "No tenant ID found"))), w)
  else
    (* Parse before_date from query parameter *)
    let beforeDateStr := gin.Query c "before_date" in
    if negb (nonempty beforeDateStr)
    then (CleanupRefused (gin.JSON http.StatusBadRequest
                            (gin.JSONError (New "before_date parameter is required"))), w)
    else
      match ParseUserTime env beforeDateStr true with
      | Err err =>
          (CleanupRefused (gin.JSON http.StatusBadRequest
                             (gin.JSONError (Errorf "Invalid before_date format" err))), w)
      | Ok beforeDate =>
          (* Validate that the date is not in the future *)
          if time.After beforeDate (time_Now env (tick w))
          then (CleanupRefused
                  (gin.JSON http.StatusBadRequest
                     (gin.JSONError (New "before_date cannot be in the future"))), w)
          else
            (* Enqueue archive message to SQS *)
            match service.ScheduleArchive env tenantID beforeDate w with
            | (Err err, w) =>
                (CleanupRefused
                   (gin.JSON http.StatusInternalServerError
                      (gin.JSONError (Errorf "Failed to schedule cleanup" err))), w)
            | (Ok _, w) =>
                (CleanupAccepted http.StatusAccepted
                   (CleanupScheduled.mk
                      "Cleanup operation scheduled successfully" tenantID
                      (time_Format env "2006-01-02T15:04:05Z07:00" beforeDate)), w)
            end
      end.

End api.

(** ** package api: the live fan-out hub *)
Module WebSocketHandler.

Definition websocketSendChannelBufferSize : Z := 256.

Module Client.
Record t := mk {
  tenantID : string;
  (** the messages waiting in the buffered channel [send] *)
  send : list dto.AuditLogResponse.t
}.
End Client.

(** The hub.  [clients] is keyed by the address of the client; a client
    leaves the map at the moment its channel is closed, so the channels of
    the clients in the map are open. *)
Record t := mk {
  clients : gmap nat Client.t;
  (** count of clients per tenant *)
  tenantClients : gmap string Z;
  (** the tenants the pub/sub layer is subscribed to *)
  subscribers : gset string
}.

Definition NewWebSocketHandler : t := mk ∅ ∅ ∅.

(** The outcome of [HandleWebSocket] before the upgrade: the client that
    is registered, a refusal, or a failed type assertion. *)
Inductive accepted :=
| Registers (client : Client.t)
| Refuses (response : gin.Response.t)
| Panics.

Definition HandleWebSocket (c : gin.Context.t) : accepted :=
  match gin.Context.Keys c !! utils.TenantIDKey with
  | None =>
      Refuses (gin.JSON http.StatusUnauthorized (gin.JSONError (New "No tenant ID found")))
  | Some (utils.Plain (utils.AnyString tenantID)) => Registers (Client.mk tenantID [])
  | Some _ => Panics
  end.

(** [h.tenantClients[tenantID]--] and what follows it. *)
Definition release (tenantID : string) (h : t) : t :=
  let n := default 0 (tenantClients h !! tenantID) - 1 in
  (* Unsubscribe if no more clients for this tenant *)
  if n =? 0
  then mk (clients h) (delete tenantID (tenantClients h))
          (subscribers h ∖ {[tenantID]})
  else mk (clients h) (<[tenantID := n]> (tenantClients h)) (subscribers h).

(** [case client := <-h.register] *)
Definition register (addr : nat) (client : Client.t) (h : t) : t :=
  let n := default 0 (tenantClients h !! Client.tenantID client) + 1 in
  mk (<[addr := client]> (clients h))
     (<[Client.tenantID client := n]> (tenantClients h))
     (* Subscribe to tenant's channel if this is the first client *)
     (if n =? 1 then subscribers h ∪ {[Client.tenantID client]} else subscribers h).

(** [case client := <-h.unregister] *)
Definition unregister (addr : nat) (h : t) : t :=
  match clients h !! addr with
  | Some client =>
      release (Client.tenantID client)
              (mk (delete addr (clients h)) (tenantClients h) (subscribers h))
  | None => h
  end.

(** One turn of the loop of [handlePubSubMessage] over the clients. *)
Definition deliver (log : dto.AuditLogResponse.t) (h : t) (addr : nat) : t :=
  match clients h !! addr with
  | None => h
  | Some client =>
      if String.eqb (Client.tenantID client) (dto.AuditLogResponse.TenantID log)
      then
        if Z.of_nat (length (Client.send client)) <? websocketSendChannelBufferSize
        then (* case client.send <- message *)
          mk (<[addr := Client.mk (Client.tenantID client) (Client.send client ++ [log])]>
                (clients h))
             (tenantClients h) (subscribers h)
        else (* the channel is full: close it and remove the client *)
          release (Client.tenantID client)
                  (mk (delete addr (clients h)) (tenantClients h) (subscribers h))
      else h
  end.

(** [handlePubSubMessage]: the message is the JSON text of [log]. *)
Definition handlePubSubMessage (log : dto.AuditLogResponse.t) (h : t) : t :=
  foldl (deliver log) h (map fst (map_to_list (clients h))).

(** [BroadcastLog]: a failure to publish is only logged. *)
Definition BroadcastLog (env : Env) : service.WebSocketBroadcaster :=
  fun log w => snd (pubsub.Publish env log w).

End WebSocketHandler.

(** ** package worker *)
Module ArchiveWorker.
Import domain queue.

Definition maxMessages : Z := 10.

Definition s3Key (env : Env) (tenantID : string) (beforeDate : time.Time) : string :=
  ("audit-logs/" ++ tenantID ++ "/audit_logs_" ++ tenantID ++ "_before_"
     ++ time_Format env "2006-01-02_15-04-05" beforeDate ++ ".json")%string.

Definition archiveLogsToS3 (env : Env) (tenantID : string)
    (logs : list AuditLog.t) (beforeDate : time.Time) (w : World)
    : result unit * World :=
  (* Create S3 key with timestamp and tenant *)
  let key := s3Key env tenantID beforeDate in
  (* Prepare archive data *)
  let archiveData :=
    ArchiveData.mk tenantID beforeDate (time_Now env (tick w))
                   (Z.of_nat (length logs)) logs in
  (* Upload to S3 *)
  if s3_fails env (tick w)
  then (Err (Errorf "failed to upload archive to S3" (New "object store: request failed")),
        call (S3Put key false) w)
  else (Ok tt, call (S3Put key true) (set_bucket (<[key := archiveData]> (bucket w)) w)).

Definition enqueueCleanupMessage (env : Env) (tenantID : string)
    (beforeDate : time.Time) (w : World) : result unit * World :=
  match SQSService.SendCleanupMessage env tenantID beforeDate w with
  | (Err err, w) => (Err (Errorf "failed to enqueue cleanup message" err), w)
  | (Ok _, w) => (Ok tt, w)
  end.

Definition archiveFilter (msg : Message.t) : AuditLogFilter.t :=
  AuditLogFilter.set_EndTime (Message.BeforeDate msg)
    (AuditLogFilter.set_TenantID (Message.TenantID msg) AuditLogFilter.zero).

Definition processArchiveMessage (env : Env) (ctx : utils.Context)
    (msg : Message.t) (w : World) : result unit * World :=
  let filter := archiveFilter msg in
  match postgres.List env ctx filter w with
  | (Err err, w) => (Err (Errorf "failed to fetch logs for archival" err), w)
  | (Ok [], w) =>
      (* Still enqueue cleanup message even if no logs found *)
      enqueueCleanupMessage env (Message.TenantID msg) (Message.BeforeDate msg) w
  | (Ok logs, w) =>
      (* Archive the logs to S3 *)
      match archiveLogsToS3 env (Message.TenantID msg) logs (Message.BeforeDate msg) w with
      | (Err err, w) => (Err (Errorf "failed to archive logs" err), w)
      | (Ok _, w) =>
          (* Enqueue cleanup message after successful archival *)
          enqueueCleanupMessage env (Message.TenantID msg) (Message.BeforeDate msg) w
      end
  end.

(** The body of the loop of [processMessages] for one received message. *)
Definition processOne (env : Env) (msg : ReceivedMessage.t) (w : World) : World :=
  if String.eqb (Message.Type_ (ReceivedMessage.Message msg)) MessageTypeArchive
  then
    match processArchiveMessage env ∅ (ReceivedMessage.Message msg) w with
    | (Err _, w) => w
    | (Ok _, w) =>
        (* Only delete the message if processing was successful *)
        snd (SQSService.DeleteMessage env ArchiveQueue (ReceivedMessage.ReceiptHandle msg) w)
    end
  else w.

Definition processMessages (env : Env) (w : World) : result unit * World :=
  match SQSService.ReceiveMessages env ArchiveQueue maxMessages w with
  | (Err err, w) => (Err (Errorf "failed to receive messages" err), w)
  | (Ok messages, w) => (Ok tt, foldl (fun w msg => processOne env msg w) w messages)
  end.

End ArchiveWorker.

Module CleanupWorker.
Import domain queue.

Definition maxMessages : Z := 10.

Definition processCleanupMessage (env : Env) (ctx : utils.Context)
    (msg : Message.t) (w : World) : result unit * World :=
  (* Delete logs before the specified date for the tenant *)
  match postgres.DeleteBeforeDate env ctx (Message.TenantID msg) (Message.BeforeDate msg) w with
  | (Err err, w) => (Err (Errorf "failed to delete logs" err), w)
  | (Ok deletedCount, w) => (Ok tt, w)
  end.

Definition processOne (env : Env) (msg : ReceivedMessage.t) (w : World) : World :=
  if String.eqb (Message.Type_ (ReceivedMessage.Message msg)) MessageTypeCleanup
  then
    match processCleanupMessage env ∅ (ReceivedMessage.Message msg) w with
    | (Err _, w) => w
    | (Ok _, w) =>
        snd (SQSService.DeleteMessage env CleanupQueue (ReceivedMessage.ReceiptHandle msg) w)
    end
  else w.

Definition processMessages (env : Env) (w : World) : result unit * World :=
  match SQSService.ReceiveMessages env CleanupQueue maxMessages w with
  | (Err err, w) => (Err (Errorf "failed to receive messages" err), w)
  | (Ok messages, w) => (Ok tt, foldl (fun w msg => processOne env msg w) w messages)
  end.

End CleanupWorker.

Module SQSWorker.
Import domain queue.

Definition maxMessages : Z := 10.

Definition processMessage (env : Env) (msg : Message.t) (w : World)
    : result unit * World :=
  if String.eqb (Message.Type_ msg) MessageTypeIndex then
    match Message.Logs msg with
    | [log] => opensearch.Index env log w
    | _ => (Err (New "invalid number of logs for INDEX message"), w)
    end
  else if String.eqb (Message.Type_ msg) MessageTypeBulkIndex then
    match Message.Logs msg with
    | [] => (Err (New "empty logs array for BULK_INDEX message"), w)
    | logs => opensearch.BulkIndex env logs w
    end
  else (Err (New "unknown message type"), w).

Definition processOne (env : Env) (msg : ReceivedMessage.t) (w : World) : World :=
  match processMessage env (ReceivedMessage.Message msg) w with
  | (Err _, w) => w
  | (Ok _, w) =>
      snd (SQSService.DeleteMessage env IndexQueue (ReceivedMessage.ReceiptHandle msg) w)
  end.

Definition processMessages (env : Env) (w : World) : result unit * World :=
  match SQSService.ReceiveMessages env IndexQueue maxMessages w with
  | (Err err, w) => (Err (Errorf "failed to receive messages" err), w)
  | (Ok messages, w) => (Ok tt, foldl (fun w msg => processOne env msg w) w messages)
  end.

End SQSWorker.

(** ** package middleware: rate limiting *)
Module RateLimitMiddleware.

Module Config.
Record t := mk { DefaultRateLimit : Z }.
End Config.

(** [redis.Nil]: the key does not exist. *)
Definition redis_Nil : error := New "redis: nil".

(** What a middleware did with a request. *)
Module Outcome.
Record t := mk {
  (** [c.Next()] was called: the request proceeds to the next stage *)
  next : bool;
  (** the response written, if any *)
  response : option gin.Response.t;
  (** the rate-limit headers set (limit, remaining, reset) *)
  headers : list (string * Z)
}.
End Outcome.

(** [m.redis.Get(ctx, key).Int()] *)
Definition Get_Int (env : Env) (key : string) (w : World)
    : Z * option error * World :=
  if redis_fails env (tick w)
  then (0, Some (New "rate-limit substrate: request failed"), call (RedisGet key false) w)
  else
    match redis_keys w !! key with
    | None => (0, Some redis_Nil, call (RedisGet key true) w)
    | Some v =>
        match strconv_Atoi env v with
        | Some n => (n, None, call (RedisGet key true) w)
        | None => (0, Some (New "strconv.Atoi: invalid syntax"), call (RedisGet key true) w)
        end
    end.

(** The pipeline [Incr key; Expire key 1m]; an error is only logged. *)
Definition Incr_Expire (env : Env) (key : string) (w : World) : World :=
  if redis_fails env (tick w)
  then call (RedisPipeline key false) w
  else
    match redis_keys w !! key with
    | None =>
        call (RedisPipeline key true)
             (set_redis_keys (<[key := strconv_Itoa env 1]> (redis_keys w)) w)
    | Some v =>
        match strconv_Atoi env v with
        | Some n =>
            call (RedisPipeline key true)
                 (set_redis_keys (<[key := strconv_Itoa env (wrap_int (n + 1))]> (redis_keys w)) w)
        | None => call (RedisPipeline key false) w
        end
    end.

(** Seconds since the Unix epoch. *)
Definition Unix (t : time.Time) : Z := t / time.Second - 62135596800.

(** [err != nil && err != redis.Nil] *)
Definition hard_error (err : option error) : bool :=
  match err with
  | Some e => negb (bool_decide (e = redis_Nil))
  | None => false
  end.

(** The response headers of a limited request. *)
Definition rate_headers (limit remaining reset : Z) : list (string * Z) :=
  [("X-RateLimit-Limit", limit); ("X-RateLimit-Remaining", remaining);
   ("X-RateLimit-Reset", reset)].

(** [getTenantRateLimit] *)
Definition getTenantRateLimit (config : Config.t) (tenantID : string) : Z :=
  if 0 <? Config.DefaultRateLimit config
  then Config.DefaultRateLimit config
  else 1000.

(** [TenantRateLimit]: per-tenant rate limiting. *)
Definition TenantRateLimit (env : Env) (config : Config.t) (c : gin.Context.t)
    (w : World) : Outcome.t * World :=
  match utils.GetTenantIDFromContext (gin.Context.Request_Context c) with
  | Err err =>
      (Outcome.mk false
         (Some (gin.JSON http.StatusUnauthorized
                  (gin.JSONError (New "Tenant ID required for rate limiting"))))
         [], w)
  | Ok tenantID =>
      (* Get tenant-specific rate limit *)
      let limit := getTenantRateLimit config tenantID in
      (* Create Redis key for this tenant *)
      let key := ("rate_limit:tenant:" ++ tenantID)%string in
      (* Check current request count *)
      let '(current, err, w) := Get_Int env key w in
      if hard_error err
      then
        (* Allow request to continue on Redis error (fail open) *)
        (Outcome.mk true None [], w)
      else if limit <=? current
      then
        let reset := Unix (time_Now env (tick w) + time.Minute) in
        (Outcome.mk false
           (Some (gin.JSON http.StatusTooManyRequests
                    (gin.JSONRateLimit "Rate limit exceeded" limit reset)))
           (rate_headers limit 0 reset), w)
      else
        (* Increment counter *)
        let w := Incr_Expire env key w in
        (* Add rate limit headers *)
        let remaining := limit - (current + 1) in
        let remaining := if remaining <? 0 then 0 else remaining in
        (Outcome.mk true None
           (rate_headers limit remaining (Unix (time_Now env (tick w) + time.Minute))), w)
  end.

(** [GlobalRateLimit]: global rate limiting based on IP. *)
Definition GlobalRateLimit (env : Env) (limit : Z) (c : gin.Context.t)
    (w : World) : Outcome.t * World :=
  let clientIP := gin.Context.ClientIP c in
  let key := ("rate_limit:global:" ++ clientIP)%string in
  (* Check current request count *)
  let '(current, err, w) := Get_Int env key w in
  if hard_error err
  then (Outcome.mk true None [], w)
  else if limit <=? current
  then
    let reset := Unix (time_Now env (tick w) + time.Minute) in
    (Outcome.mk false
       (Some (gin.JSON http.StatusTooManyRequests
                (gin.JSONRateLimit "Global rate limit exceeded" limit reset)))
       (rate_headers limit 0 reset), w)
  else
    (* Increment counter *)
    let w := Incr_Expire env key w in
    (* Add rate limit headers *)
    let remaining := limit - (current + 1) in
    let remaining := if remaining <? 0 then 0 else remaining in
    (Outcome.mk true None
       (rate_headers limit remaining (Unix (time_Now env (tick w) + time.Minute))), w).

End RateLimitMiddleware.

(** * Vocabulary of the properties *)

Import domain.

(** The filter carries at least one content predicate. *)
Definition content_predicate (filter : AuditLogFilter.t) : Prop :=
  AuditLogFilter.UserID filter <> ""
  \/ AuditLogFilter.Action filter <> ""
  \/ AuditLogFilter.ResourceType filter <> ""
  \/ AuditLogFilter.Severity filter <> ""
  \/ AuditLogFilter.SessionID filter <> ""
  \/ AuditLogFilter.IPAddress filter <> ""
  \/ AuditLogFilter.UserAgent filter <> ""
  \/ AuditLogFilter.Message filter <> "".

(** What [service.List] returns when the search index serves the query: the
    answer of [opensearch.Search] to the (paginated) filter, converted. *)
Definition served_by_search_index (env : Env) (ctx : utils.Context)
    (filter : AuditLogFilter.t) (w : World)
    : result (list dto.AuditLogResponse.t) * World :=
  match opensearch.Search env ctx (service.paginate filter) w with
  | (Err err, w') => (Err err, w')
  | (Ok logs, w') => (Ok (dto.FromAuditLogs logs), w')
  end.

(** What [service.List] returns when the primary store serves the query: the
    answer of [postgres.List] to the (paginated) filter, converted. *)
Definition served_by_primary_store (env : Env) (ctx : utils.Context)
    (filter : AuditLogFilter.t) (w : World)
    : result (list dto.AuditLogResponse.t) * World :=
  match postgres.List env ctx (service.paginate filter) w with
  | (Err err, w') => (Err err, w')
  | (Ok logs, w') => (Ok (dto.FromAuditLogs logs), w')
  end.

(** The number of records of an answer. *)
Definition records {A} (r : result (list A)) : nat :=
  match r with
  | Ok logs => length logs
  | Err _ => 0%nat
  end.

(** The insert that [Create] issues into the primary store succeeds. *)
Definition insert_succeeds (env : Env) (ctx : utils.Context)
    (req : dto.CreateAuditLogRequest.t) (w : World) : bool :=
  is_ok (postgres.Create env ctx (dto.ToAuditLog req) w).1.1.

(** The ingestion service as the entry binary wires it: with the hub as
    broadcaster, or (before the wiring) with none. *)
Definition wired_service (env : Env) (wired : bool) : service.AuditLogService.t :=
  if wired
  then service.SetWebSocketBroadcaster (WebSocketHandler.BroadcastLog env)
         service.NewAuditLogService
  else service.NewAuditLogService.

(** ** Concrete inputs *)

(** An environment in which no outside call fails. *)
Definition quiet : Env :=
  mkEnv (fun _ => false) (fun _ => false) (fun _ => false) (fun _ => false)
        (fun _ => false)
        (fun n => ("log-" ++ pretty n)%string)
        (fun n => ("receipt-" ++ pretty n)%string)
        (fun n => 1000 + Z.of_nat n)
        (fun _ t => pretty t)
        (fun _ _ => None)
        (fun _ => None)
        pretty
        String.eqb.

(** The same environment with the rate-limit substrate down. *)
Definition redis_down : Env :=
  mkEnv (fun _ => false) (fun _ => false) (fun _ => false) (fun _ => true)
        (fun _ => false)
        (uuid_New quiet) (receipt_handle quiet) (time_Now quiet)
        (time_Format quiet) (time_Parse quiet) (strconv_Atoi quiet)
        (strconv_Itoa quiet) (text_match quiet).


Definition empty_world : World := mkWorld 0 0 [] ∅ ∅ [] [] [] ∅ [].

Definition tenant_a : string := "0b9e1c52-3a44-4c8e-9d0a-5f1e2a7b6c01".
Definition tenant_b : string := "6f2d8a10-77c3-4e19-8b5d-0c4a9e3f2b77".

(** A request that passed authentication with a token of the tenant. *)
Definition request_of (tenantID : string) (params query : gmap string string)
    (body : gin.JSONBody) : gin.Context.t :=
  AuthMiddleware.set_claims {[ utils.TenantIDKey := utils.AnyString tenantID ]}
    (gin.Context.mk ∅ ∅ params query "10.0.0.1" body).

(** An event of a tenant at an instant. *)
Definition event (id tenantID : string) (ts : time.Time) : AuditLog.t :=
  AuditLog.mk id tenantID "u1" "" "" "" "CREATE" "user" "r1" "hi" "INFO"
              "" "" "" ts ts ts.

(** A create request with another severity. *)
Definition with_severity (v : string) (r : dto.CreateAuditLogRequest.t)
    : dto.CreateAuditLogRequest.t :=
  dto.CreateAuditLogRequest.mk
    (dto.CreateAuditLogRequest.TenantID r) (dto.CreateAuditLogRequest.UserID r)
    (dto.CreateAuditLogRequest.SessionID r) (dto.CreateAuditLogRequest.IPAddress r)
    (dto.CreateAuditLogRequest.UserAgent r) (dto.CreateAuditLogRequest.Action r)
    (dto.CreateAuditLogRequest.ResourceType r) (dto.CreateAuditLogRequest.ResourceID r)
    v (dto.CreateAuditLogRequest.Message r)
    (dto.CreateAuditLogRequest.BeforeState r) (dto.CreateAuditLogRequest.AfterState r)
    (dto.CreateAuditLogRequest.Metadata r) (dto.CreateAuditLogRequest.Timestamp r).

(** The sentence of the specification on the default severity, read on the
    create endpoint: a request without severity that is otherwise complete,
    and whose row the primary store takes, is accepted and stored with
    severity INFO. *)
Definition severity_defaults_on_create : Prop :=
  forall env s c w r,
    gin.Context.Body c = gin.Object r ->
    dto.CreateAuditLogRequest.Severity r = "" ->
    dto.binding_required (with_severity SeverityInfo r) = true ->
    insert_succeeds env (api.RequestCtx c) r w = true ->
    gin.Response.status (api.CreateLog env s c w).1 = http.StatusCreated
    /\ exists row,
         In row (audit_logs (api.CreateLog env s c w).2)
         /\ AuditLog.Severity row = SeverityInfo.

(** A complete create request but for its severity, which is absent. *)
Definition request_without_severity : dto.CreateAuditLogRequest.t :=
  dto.CreateAuditLogRequest.mk tenant_a "u1" "" "" "" "CREATE" "user" "u1" ""
    "hi" "" "" "" 1735787045000000000.

(** The read of the rate-limit counter under [key] fails with an error other
    than "no such key". *)
Definition counter_read_fails (env : Env) (key : string) (w : World) : Prop :=
  RateLimitMiddleware.hard_error (RateLimitMiddleware.Get_Int env key w).1.2 = true.

(** The request context of a call that reaches the tenant middleware with
    the claims of the tenant in its request context. *)
Definition limited_request (tenantID : string) : gin.Context.t :=
  gin.Context.mk
    {[ utils.ClaimsKey :=
         utils.MapClaims {[ utils.TenantIDKey := utils.AnyString tenantID ]} ]}
    ∅ ∅ ∅ "10.0.0.1" gin.Malformed.

(** The events the archive worker reads for a message, in the order it reads
    them: the events of the tenant whose timestamp is at most the
    before-date (all its events when the before-date is the zero instant),
    latest first. *)
Definition archive_selection (msg : queue.Message.t) (table : list AuditLog.t)
    : list AuditLog.t :=
  gorm.sort_desc
    (List.filter
       (fun r => String.eqb (AuditLog.TenantID r) (queue.Message.TenantID msg)
                 && (time.IsZero (queue.Message.BeforeDate msg)
                     || (AuditLog.Timestamp r <=? queue.Message.BeforeDate msg)))
       table).

(** The events the cleanup worker deletes for a message: the events of the
    tenant whose timestamp is before the before-date. *)
Definition cleanup_selection (msg : queue.Message.t) (table : list AuditLog.t)
    : list AuditLog.t :=
  List.filter
    (fun r => String.eqb (AuditLog.TenantID r) (queue.Message.TenantID msg)
              && (AuditLog.Timestamp r <? queue.Message.BeforeDate msg))
    table.

(** The CLEANUP message the archive worker sends for an ARCHIVE message. *)
Definition cleanup_of (msg : queue.Message.t) (now : time.Time) : queue.Message.t :=
  queue.Message.mk queue.MessageTypeCleanup (queue.Message.TenantID msg) []
                   now (queue.Message.BeforeDate msg).

(** An ARCHIVE message of a tenant, as received from the broker. *)
Definition archive_message (tenantID : string) (beforeDate : time.Time)
    : queue.ReceivedMessage.t :=
  queue.ReceivedMessage.mk
    (queue.Message.mk queue.MessageTypeArchive tenantID [] 1000 beforeDate)
    "receipt-a".


(** The sentence of the specification on archive-before-delete, read on the
    two workers: an archive turn for a task succeeds; the ingestion path then
    keeps adding events while the archive is left alone; the cleanup turn for
    the same task succeeds.  Then every event the cleanup turn deleted is in
    the object the archive turn wrote for the task. *)
Definition archive_before_delete : Prop :=
  forall env env' msg now w0 w1 added w2 w3,
    ArchiveWorker.processArchiveMessage env ∅ msg w0 = (Ok tt, w1) ->
    audit_logs w2 = audit_logs w1 ++ added ->
    bucket w2 = bucket w1 ->
    CleanupWorker.processCleanupMessage env' ∅ (cleanup_of msg now) w2 = (Ok tt, w3) ->
    forall e,
      In e (audit_logs w2) -> ~ In e (audit_logs w3) ->
      exists obj,
        bucket w2 !! ArchiveWorker.s3Key env (queue.Message.TenantID msg)
                                          (queue.Message.BeforeDate msg)
        = Some obj
        /\ In e (ArchiveData.logs obj).

(** The event is in the range a cleanup of the task deletes. *)
Definition in_cleanup_range (msg : queue.Message.t) (e : AuditLog.t) : Prop :=
  AuditLog.TenantID e = queue.Message.TenantID msg
  /\ AuditLog.Timestamp e < queue.Message.BeforeDate msg.

(** A create request of [tenant_a] for an event at a given instant. *)
Definition late_request (ts : time.Time) : dto.CreateAuditLogRequest.t :=
  dto.CreateAuditLogRequest.mk tenant_a "u1" "" "" "" "CREATE" "user" "u1" "INFO"
    "hi" "" "" "" ts.

(** *** Tenant identifiers *)

Definition is_hex (c : ascii) : bool :=
  let n := nat_of_ascii c in
  ((48 <=? n) && (n <=? 57) || (97 <=? n) && (n <=? 102)
   || (65 <=? n) && (n <=? 70))%nat.

Fixpoint uuid_from (i : nat) (s : string) : bool :=
  match s with
  | EmptyString => (i =? 36)%nat
  | String c s' =>
      (if ((i =? 8) || (i =? 13) || (i =? 18) || (i =? 23))%nat
       then Ascii.eqb c "-"%char else is_hex c)
      && uuid_from (S i) s'
  end.

(** The text of a UUID, as the data model types tenant identifiers:
    8-4-4-4-12 hexadecimal digits. *)
Definition is_uuid (s : string) : bool := uuid_from 0 s.

(** The character does not occur in the string. *)
Fixpoint free_of (c : ascii) (s : string) : bool :=
  match s with
  | EmptyString => true
  | String d s' => negb (Ascii.eqb c d) && free_of c s'
  end.

(** Every document of the search engine sits in an index named after its own
    tenant, and tenants are UUIDs.  The index worker keeps it so. *)
Definition indexed_by_tenant (env : Env)
    (ix : gmap string (gmap string AuditLog.t)) : Prop :=
  forall name docs id doc,
    ix !! name = Some docs -> docs !! id = Some doc ->
    is_uuid (AuditLog.TenantID doc) = true
    /\ exists t, name = config.GetIndexName env (AuditLog.TenantID doc) t.

(** The table without the rows of other tenants. *)
Definition rows_of_tenant (tenantID : string) (table : list AuditLog.t)
    : list AuditLog.t :=
  List.filter (fun r => String.eqb (AuditLog.TenantID r) tenantID) table.

(** The sum of the counts of the groups whose key satisfies [Q]. *)
Definition sum_where {K : Type} (Q : K -> bool) (rows : list (K * Z)) : Z :=
  foldr Z.add 0 (map snd (List.filter (fun r => Q r.1) rows)).

(** The result rows of one category, as (key, count) pairs. *)
Definition rows_in (c : string) (results : list postgres.countResult.t)
    : list (string * Z) :=
  map (fun r => (postgres.countResult.Key r, postgres.countResult.Count r))
      (List.filter (fun r => String.eqb (postgres.countResult.Category r) c) results).

(** [m[key] = count] for every pair, in order. *)
Definition file_rows (m : gmap string Z) (rows : list (string * Z)) : gmap string Z :=
  foldl (fun m r => <[r.1 := r.2]> m) m rows.

(** What a statistics map should hold under a key: the number of the events
    that satisfy [p] and carry the key in their field [f], and no entry when
    there is no such event. *)
Definition tally (p : AuditLog.t -> bool) (f : AuditLog.t -> string)
    (table : list AuditLog.t) (k : string) : option Z :=
  let n := Z.of_nat (length (List.filter (fun l => p l && String.eqb (f l) k) table)) in
  if 0 <? n then Some n else None.

(** The statistics either strategy of [GetStats] computes from a table. *)
Definition stats_by (hourly : bool) (table : list AuditLog.t) (tenantID : string)
    (startTime endTime : time.Time) : AuditLogStats.t :=
  postgres.set_TotalLogs
    (if hourly then postgres.hourly_total table tenantID startTime endTime
     else postgres.base_total table tenantID startTime endTime)
    (foldl postgres.file_result (AuditLogStats.mk 0 ∅ ∅ ∅)
       (if hourly then postgres.hourly_query table tenantID startTime endTime
        else postgres.base_query table tenantID startTime endTime)).

(** The key of the hourly group an event falls into. *)
Definition event_key (l : AuditLog.t) : time.Time * string * string * string * string :=
  (postgres.time_bucket time.Hour (AuditLog.Timestamp l), AuditLog.TenantID l,
   AuditLog.Action l, AuditLog.Severity l, AuditLog.ResourceType l).

Definition stat_key (h : postgres.HourlyStat.t)
    : time.Time * string * string * string * string :=
  (postgres.HourlyStat.bucket h, postgres.HourlyStat.tenant_id h,
   postgres.HourlyStat.action h, postgres.HourlyStat.severity h,
   postgres.HourlyStat.resource_type h).

(** The event's hourly bucket starts in the window. *)
Definition bucket_window (tenantID : string) (startTime endTime : time.Time)
    (l : AuditLog.t) : bool :=
  String.eqb (AuditLog.TenantID l) tenantID
  && (startTime <=? postgres.time_bucket time.Hour (AuditLog.Timestamp l))
  && (postgres.time_bucket time.Hour (AuditLog.Timestamp l) <? endTime).

(** The instant is the start of an hour. *)
Definition hour_aligned (t : time.Time) : Prop := t mod time.Hour = 0.

(** The row of the hourly statistics for a group and its count. *)
Definition stat_of (g : time.Time * string * string * string * string * Z)
    : postgres.HourlyStat.t :=
  let '(b, t, a, s, r, n) := g in postgres.HourlyStat.mk b t a s r n.

(** The sentence of the specification on the two strategies of [GetStats]:
    on one table and one window they return the same statistics, total and
    counts. *)
Definition stats_strategies_agree : Prop :=
  forall table tenantID startTime endTime,
    stats_by true table tenantID startTime endTime
    = stats_by false table tenantID startTime endTime.

(** An instant given in hours and minutes. *)
Definition at_hm (h m : Z) : time.Time := h * time.Hour + m * time.Minute.

(** A statistics filter of a tenant for a window. *)
Definition stats_filter (tenantID : string) (startTime endTime : time.Time)
    : AuditLogFilter.t :=
  AuditLogFilter.mk tenantID "" "" "" "" "" "" "" "" "" startTime endTime 0 0 0 0.

(** Every record a response carries belongs to the tenant. *)
Definition records_of_tenant (tenantID : string) (r : gin.Response.t) : Prop :=
  match gin.Response.content r with
  | gin.JSONLog log => dto.AuditLogResponse.TenantID log = tenantID
  | gin.JSONLogs logs =>
      Forall (fun log => dto.AuditLogResponse.TenantID log = tenantID) logs
  | _ => True
  end.

(** The world whose primary store holds the rows of one tenant only. *)
Definition world_of_tenant (tenantID : string) (w : World) : World :=
  set_audit_logs (rows_of_tenant tenantID (audit_logs w)) w.

(** ** Vocabulary of the further properties *)

(** The row satisfies the predicates of a list filter: the tenant, every
    field the filter sets, and the bounds of the window that are set. *)
Definition passes (filter : AuditLogFilter.t) (r : AuditLog.t) : Prop :=
  AuditLog.TenantID r = AuditLogFilter.TenantID filter
  /\ (AuditLogFilter.UserID filter <> "" ->
      AuditLog.UserID r = AuditLogFilter.UserID filter)
  /\ (AuditLogFilter.Action filter <> "" ->
      AuditLog.Action r = AuditLogFilter.Action filter)
  /\ (AuditLogFilter.ResourceType filter <> "" ->
      AuditLog.ResourceType r = AuditLogFilter.ResourceType filter)
  /\ (AuditLogFilter.ResourceID filter <> "" ->
      AuditLog.ResourceID r = AuditLogFilter.ResourceID filter)
  /\ (AuditLogFilter.Severity filter <> "" ->
      AuditLog.Severity r = AuditLogFilter.Severity filter)
  /\ (AuditLogFilter.StartTime filter <> 0 ->
      AuditLogFilter.StartTime filter <= AuditLog.Timestamp r)
  /\ (AuditLogFilter.EndTime filter <> 0 ->
      AuditLog.Timestamp r <= AuditLogFilter.EndTime filter).

(** The rows are in the order of [ORDER BY timestamp DESC]: no row is later
    than a row before it. *)
Fixpoint latest_first (l : list AuditLog.t) : Prop :=
  match l with
  | [] => True
  | x :: l' =>
      Forall (fun y => AuditLog.Timestamp y <= AuditLog.Timestamp x) l'
      /\ latest_first l'
  end.

(** The page number and the page size that [service.List] works with. *)
Definition page_number (filter : AuditLogFilter.t) : Z :=
  if AuditLogFilter.Page filter <? 1 then 1 else AuditLogFilter.Page filter.

Definition page_size (filter : AuditLogFilter.t) : Z :=
  if AuditLogFilter.PageSize filter <? 1 then 10 else AuditLogFilter.PageSize filter.


(** An environment whose outside calls never fail. *)
Definition never_fails (env : Env) : Prop :=
  forall n,
    pg_fails env n = false /\ sqs_fails env n = false /\ s3_fails env n = false
    /\ redis_fails env n = false /\ os_fails env n = false.

(** ** Further concrete inputs *)

(** 2024-03-20T00:00:00Z, in nanoseconds since the zero instant. *)
Definition march_20 : time.Time := 738964 * 24 * time.Hour.

(** The texts of a few dates and instants, and of a few numbers. *)
Definition read_text {A} (texts : list (string * A)) (s : string) : option A :=
  match List.find (fun kv => String.eqb kv.1 s) texts with
  | Some kv => Some kv.2
  | None => None
  end.

Definition dates : list (string * time.Time) :=
  [("2024-03-20", march_20); ("2024-03-21", march_20 + 24 * time.Hour)].

Definition instants : list (string * time.Time) :=
  [("2024-03-20T00:00:00Z", march_20);
   ("2024-03-20T10:00:00Z", march_20 + 10 * time.Hour);
   ("2024-03-21T00:00:00Z", march_20 + 24 * time.Hour);
   ("2024-03-25T00:00:00Z", march_20 + 120 * time.Hour)].

Definition numbers : list (string * Z) :=
  [("0", 0); ("1", 1); ("2", 2); ("3", 3); ("10", 10); ("100", 100)].

(** An environment in which no outside call fails, the clock stands in
    April 2024 and the texts above are read as dates, instants and
    numbers. *)
Definition literate : Env :=
  mkEnv (fun _ => false) (fun _ => false) (fun _ => false) (fun _ => false)
        (fun _ => false)
        (uuid_New quiet) (receipt_handle quiet)
        (fun n => march_20 + 720 * time.Hour + Z.of_nat n)
        (time_Format quiet)
        (fun layout value =>
           if String.eqb layout "2006-01-02" then read_text dates value
           else read_text instants value)
        (fun s => read_text numbers s)
        pretty
        String.eqb.

(** A complete create request that names [tenant_b]. *)
Definition request_for_tenant_b : dto.CreateAuditLogRequest.t :=
  dto.CreateAuditLogRequest.mk tenant_b "u1" "" "" "" "CREATE" "user" "u1" "INFO"
    "hi" "" "" "" 20.

(** What a map of counts should hold under a key after counting a list: the
    number of the elements that satisfy [p] and carry the key in their field
    [f], and no entry when there is none. *)
Definition counted {A} (p : A -> bool) (f : A -> string) (l : list A) (k : string)
    : option Z :=
  let n := Z.of_nat (length (List.filter (fun x => p x && String.eqb (f x) k) l)) in
  if 0 <? n then Some n else None.


(** An event of a tenant with a given action. *)
Definition event_of_action (id tenantID action : string) (ts : time.Time)
    : AuditLog.t :=
  AuditLog.mk id tenantID "u1" "" "" "" action "user" "r1" "hi" "INFO"
              "" "" "" ts ts ts.

(** A filter of a tenant on an action. *)
Definition action_filter (tenantID action : string) : AuditLogFilter.t :=
  AuditLogFilter.mk tenantID "" "" "" "" action "" "" "" "" 0 0 0 0 0 0.

(** An INDEX message for an event, and a message of a type no worker knows,
    as received from the broker. *)
Definition index_message (log : AuditLog.t) (handle : string)
    : queue.ReceivedMessage.t :=
  queue.ReceivedMessage.mk
    (queue.Message.mk queue.MessageTypeIndex (AuditLog.TenantID log) [log]
                      (AuditLog.Timestamp log) 0)
    handle.

Definition unknown_message (handle : string) : queue.ReceivedMessage.t :=
  queue.ReceivedMessage.mk (queue.Message.mk "REINDEX" tenant_a [] 1000 0) handle.

(** The rate-limit substrate never fails, and the texts of the counters it
    holds are read back as the numbers they were written from. *)
Definition counter_substrate_sound (env : Env) : Prop :=
  (forall n, redis_fails env n = false)
  /\ (forall z, 0 <= z -> strconv_Atoi env (strconv_Itoa env z) = Some z).

(** The world after [n] requests of one client passed through the global
    limiter, one after the other. *)
Fixpoint after_requests (env : Env) (limit : Z) (c : gin.Context.t) (n : nat)
    (w : World) : World :=
  match n with
  | O => w
  | S n' =>
      (RateLimitMiddleware.GlobalRateLimit env limit c
         (after_requests env limit c n' w)).2
  end.

(** The counter stored under a key: absent for zero. *)
Definition stored_counter (env : Env) (n : Z) : option string :=
  if n =? 0 then None else Some (strconv_Itoa env n).

(** An environment in which no outside call fails and numbers are written
    and read in decimal. *)
Definition decimal : Env :=
  mkEnv (fun _ => false) (fun _ => false) (fun _ => false) (fun _ => false)
        (fun _ => false)
        (uuid_New quiet) (receipt_handle quiet) (time_Now quiet)
        (time_Format quiet) (time_Parse quiet)
        (fun s => option_map Z.of_int (DecimalString.NilZero.int_of_string s))
        (fun z => DecimalString.NilZero.string_of_int (Z.to_int z))
        String.eqb.

(** The number of the connected clients of a tenant. *)
Definition clients_of (tenantID : string) (clients : gmap nat WebSocketHandler.Client.t)
    : Z :=
  Z.of_nat (size (filter (fun kv => WebSocketHandler.Client.tenantID kv.2 = tenantID)
                         clients)).

(** The books of the hub agree with its clients: for every tenant the count
    kept is the number of its connected clients (and there is no entry for a
    tenant without client), and the hub is subscribed to the channel of
    exactly the tenants that have a client. *)
Definition hub_consistent (h : WebSocketHandler.t) : Prop :=
  forall tenantID,
    let n := clients_of tenantID (WebSocketHandler.clients h) in
    WebSocketHandler.tenantClients h !! tenantID = (if n =? 0 then None else Some n)
    /\ (tenantID ∈ WebSocketHandler.subscribers h <-> 0 < n).

(** What one turn of the loop does to the client it visits. *)
Definition delivered_to (log : dto.AuditLogResponse.t)
    (client : WebSocketHandler.Client.t) : option WebSocketHandler.Client.t :=
  if String.eqb (WebSocketHandler.Client.tenantID client)
                (dto.AuditLogResponse.TenantID log)
  then if Z.of_nat (length (WebSocketHandler.Client.send client))
          <? WebSocketHandler.websocketSendChannelBufferSize
       then Some (WebSocketHandler.Client.mk
                    (WebSocketHandler.Client.tenantID client)
                    (WebSocketHandler.Client.send client ++ [log]))
       else None
  else Some client.

(** * Properties *)

(** ** Basic facts about the embedding *)

Lemma nonempty_true (s : string) : nonempty s = true <-> s <> "".
Proof.
  unfold nonempty. rewrite negb_true_iff. split.
  - intros H ->. discriminate.
  - intros H. destruct (String.eqb_spec s ""); [contradiction | reflexivity].
Qed.

Lemma nonempty_false (s : string) : nonempty s = false <-> s = "".
Proof.
  unfold nonempty. rewrite negb_false_iff. apply String.eqb_eq.
Qed.

Lemma trace_call c w : trace (call c w) = trace w ++ [c].
Proof. reflexivity. Qed.

Lemma tick_call c w : tick (call c w) = S (tick w).
Proof. reflexivity. Qed.

(** ** List routing *)

Lemma hasSearchCriteria_spec filter :
  service.hasSearchCriteria filter = true <-> content_predicate filter.
Proof.
  unfold service.hasSearchCriteria, content_predicate.
  rewrite !orb_true_iff, !nonempty_true. tauto.
Qed.

Lemma hasSearchCriteria_paginate filter :
  service.hasSearchCriteria (service.paginate filter)
  = service.hasSearchCriteria filter.
Proof.
  unfold service.paginate.
  destruct (AuditLogFilter.Page filter <? 1);
    destruct (AuditLogFilter.PageSize _ <? 1); reflexivity.
Qed.

Lemma paginate_TenantID filter :
  AuditLogFilter.TenantID (service.paginate filter) = AuditLogFilter.TenantID filter.
Proof.
  unfold service.paginate.
  destruct (AuditLogFilter.Page filter <? 1);
    destruct (AuditLogFilter.PageSize _ <? 1); reflexivity.
Qed.

Lemma List_routed_backend env ctx filter usePagination w :
  (service.List_routed env ctx filter usePagination w).1.1
  = if service.hasSearchCriteria filter
    then service.SearchIndex else service.PrimaryStore.
Proof.
  unfold service.List_routed. rewrite hasSearchCriteria_paginate.
  destruct (service.hasSearchCriteria filter).
  - destruct (opensearch.Search _ _ _ _) as [[?|?] ?]; reflexivity.
  - destruct (postgres.List _ _ _ _) as [[?|?] ?]; reflexivity.
Qed.

(** C6. A list query is served by the search index exactly when its filter
    holds a non-empty user_id, action, resource_type, severity, session_id,
    ip_address, user_agent or message; every other filter (a time range, a
    page, a resource_id) is served by the primary store.  Served by the
    search index: [service.List] returns what [opensearch.Search] answers to
    the filter, and the one call it makes is the request to the search
    engine (none when the context carries no tenant).  Served by the
    primary store: it returns what [postgres.List] answers, and the one call
    it makes is the SELECT on the primary store (none when the filter names
    no tenant). *)
Theorem list_routing env ctx filter usePagination w :
  let r := service.List env ctx filter usePagination w in
  (content_predicate filter ->
   r = served_by_search_index env ctx filter w
   /\ trace r.2
      = trace w
        ++ (if is_ok (utils.GetTenantIDFromContext ctx)
            then [OsRequest (negb (os_fails env (tick w)))] else []))
  /\ (~ content_predicate filter ->
      r = served_by_primary_store env ctx filter w
      /\ trace r.2
         = trace w
           ++ (if nonempty (AuditLogFilter.TenantID filter)
               then [PgSelect (negb (pg_fails env (tick w))) (records r.1)] else []))
  /\ ((service.List_routed env ctx filter usePagination w).1.1 = service.SearchIndex
      <-> content_predicate filter)
  /\ ((service.List_routed env ctx filter usePagination w).1.1 = service.PrimaryStore
      <-> ~ content_predicate filter).
Proof.
  cbv zeta. split; [| split].
  - intros Hc. apply hasSearchCriteria_spec in Hc.
    unfold service.List, service.List_routed, served_by_search_index.
    rewrite hasSearchCriteria_paginate, Hc.
    unfold opensearch.Search.
    destruct (utils.GetTenantIDFromContext ctx) as [tenantID | err]; cbn [is_ok].
    + unfold opensearch.request. destruct (os_fails env (tick w)); split; reflexivity.
    + split; [reflexivity |]. cbn [snd]. rewrite app_nil_r. reflexivity.
  - intros Hc. rewrite <- hasSearchCriteria_spec in Hc.
    apply not_true_is_false in Hc.
    unfold service.List, service.List_routed, served_by_primary_store.
    rewrite hasSearchCriteria_paginate, Hc.
    unfold postgres.List. rewrite paginate_TenantID.
    destruct (nonempty (AuditLogFilter.TenantID filter)); cbn [negb].
    + unfold gorm.Find. destruct (pg_fails env (tick w)); split; try reflexivity.
      cbn [fst snd trace call records negb]. unfold dto.FromAuditLogs.
      rewrite length_map. reflexivity.
    + split; [reflexivity |]. cbn [snd]. rewrite app_nil_r. reflexivity.
  - rewrite List_routed_backend, <- hasSearchCriteria_spec.
    destruct (service.hasSearchCriteria filter); split; split;
      congruence || (intros H; exfalso; apply H; reflexivity) || discriminate.
Qed.

Lemma list_routing_witness :
  let w0 := set_audit_logs [event_of_action "log-1" tenant_a "CREATE" 5;
                            event_of_action "log-2" tenant_a "DELETE" 6]
                           empty_world in
  let w := (opensearch.Index quiet (event_of_action "log-2" tenant_a "DELETE" 6) w0).2 in
  let ctx := api.RequestCtx (request_of tenant_a ∅ ∅ gin.Malformed) in
  let searched := service.List quiet ctx (action_filter tenant_a "DELETE") true w in
  let listed := service.List quiet ctx (action_filter tenant_a "") true w in
  (searched.1 = Ok (dto.FromAuditLogs [event_of_action "log-2" tenant_a "DELETE" 6])
   /\ trace searched.2 = trace w ++ [OsRequest true])
  /\ (listed.1 = Ok (dto.FromAuditLogs [event_of_action "log-2" tenant_a "DELETE" 6;
                                        event_of_action "log-1" tenant_a "CREATE" 5])
      /\ trace listed.2 = trace w ++ [PgSelect true 2]).
Proof.
  intros w0 w ctx searched listed.
  destruct (list_routing quiet ctx (action_filter tenant_a "DELETE") true w)
    as (Hsearch & _).
  destruct (list_routing quiet ctx (action_filter tenant_a "") true w)
    as (_ & Hstore & _).
  cbv zeta in Hsearch, Hstore.
  destruct Hsearch as [Hs Hst].
  { right. left. discriminate. }
  destruct Hstore as [Hl Hlt].
  { intros H. repeat (destruct H as [H | H]; [apply H; reflexivity |]).
    apply H. reflexivity. }
  fold searched in Hs, Hst. fold listed in Hl, Hlt.
  split; split.
  - rewrite Hs. vm_compute. reflexivity.
  - exact Hst.
  - rewrite Hl. vm_compute. reflexivity.
  - rewrite Hlt. vm_compute. reflexivity.
Defined.

(** ** Create *)

Lemma ensureID_world env log w :
  tick (postgres.ensureID env log w).2 = tick w
  /\ trace (postgres.ensureID env log w).2 = trace w
  /\ audit_logs (postgres.ensureID env log w).2 = audit_logs w
  /\ index_queue (postgres.ensureID env log w).2 = index_queue w.
Proof.
  unfold postgres.ensureID. destruct (nonempty (AuditLog.ID log)); repeat split.
Qed.

(** The three ways [Create] of the repository can end. *)
Lemma postgres_Create_cases env ctx log w :
  exists row,
    (postgres.Create env ctx log w).2
      = call (PgInsert [row] (is_ok (postgres.Create env ctx log w).1.1))
          (if is_ok (postgres.Create env ctx log w).1.1
           then set_audit_logs (audit_logs w ++ [row]) (postgres.ensureID env log w).2
           else (postgres.ensureID env log w).2)
    /\ (is_ok (postgres.Create env ctx log w).1.1 = true ->
        (postgres.Create env ctx log w).1 = (Ok tt, row)).
Proof.
  unfold postgres.Create.
  destruct (postgres.ensureID env log w) as [log1 w1] eqn:E.
  pose proof (ensureID_world env log w) as (Ht & _ & Ha & _).
  rewrite E in Ht, Ha. cbn [snd] in Ht, Ha.
  unfold gorm.Create. rewrite Ht, Ha. cbn [map].
  exists (gorm.stored_row (time_Now env (tick w)) log1).
  destruct (pg_fails env (tick w)); cbn; [split; [reflexivity | discriminate] |].
  destruct (negb _ && true); cbn; split; reflexivity || discriminate || auto.
Qed.

(** C3. [Create] succeeds exactly when the insert into the primary store
    succeeds.  When the insert fails, the failed insert is the only call the
    service makes: nothing is enqueued, nothing is published, nothing is
    stored.  When the insert succeeds the call returns success whatever the
    outcome of the enqueue (recorded in the trace with the broker's verdict)
    and of the broadcast, which runs after it. *)
Theorem create_succeeds_iff_insert env s ctx req w :
  let r := service.Create env s ctx req w in
  is_ok r.1 = insert_succeeds env ctx req w
  /\ if insert_succeeds env ctx req w
     then
       exists row w2,
         r.1 = Ok tt
         /\ trace w2
            = trace w
              ++ [PgInsert [row] true;
                  SqsSend queue.IndexQueue
                    (queue.Message.mk queue.MessageTypeIndex (AuditLog.TenantID row)
                       [row] (AuditLog.Timestamp row) 0)
                    (negb (sqs_fails env (S (tick w))))]
         /\ In row (audit_logs w2)
         /\ r.2 = match service.AuditLogService.broadcaster s with
                  | Some BroadcastLog => BroadcastLog (dto.FromAuditLog row) w2
                  | None => w2
                  end
     else
       exists row,
         trace r.2 = trace w ++ [PgInsert [row] false]
         /\ index_queue r.2 = index_queue w
         /\ audit_logs r.2 = audit_logs w.
Proof.
  cbv zeta. unfold insert_succeeds, service.Create.
  destruct (postgres_Create_cases env ctx (dto.ToAuditLog req) w) as (row & Hw & Hok).
  pose proof (ensureID_world env (dto.ToAuditLog req) w) as (Ht & Htr & Ha & Hq).
  destruct (postgres.Create env ctx (dto.ToAuditLog req) w) as [[r log] w1].
  cbn [fst snd] in *.
  destruct r as [[]|err]; cbn [is_ok] in *.
  - specialize (Hok eq_refl). injection Hok as <-.
    split.
    { destruct (SQSService.SendIndexMessage env log w1); reflexivity. }
    unfold SQSService.SendIndexMessage, SQSService.sendMessage.
    assert (Htick : tick w1 = S (tick w)) by (rewrite Hw; cbn [tick call set_audit_logs]; rewrite Ht; reflexivity).
    assert (Htrace : trace w1 = trace w ++ [PgInsert [log] true])
      by (rewrite Hw; cbn [trace call set_audit_logs]; rewrite Htr; reflexivity).
    assert (Hin : In log (audit_logs w1)).
    { rewrite Hw. cbn [audit_logs call set_audit_logs]. apply in_or_app. right. left. reflexivity. }
    rewrite Htick.
    destruct (sqs_fails env (S (tick w))); cbn [negb].
    + eexists log, _. split; [reflexivity |]. split; [| split; [| reflexivity]].
      * rewrite trace_call, Htrace, <- app_assoc. reflexivity.
      * exact Hin.
    + eexists log, _. split; [reflexivity |]. split; [| split; [| reflexivity]].
      * rewrite trace_call. cbn -[app]. rewrite Htrace, <- app_assoc. reflexivity.
      * destruct w1; cbn in *. exact Hin.
  - split; [reflexivity |]. exists row. rewrite Hw. cbn [trace audit_logs index_queue call]. repeat split; congruence.
Qed.

(** ** BulkCreate *)

Lemma stamp_facts env tenantID logs : forall w,
  length (postgres.stamp env tenantID logs w).1 = length logs
  /\ Forall (fun log => AuditLog.TenantID log = tenantID)
            (postgres.stamp env tenantID logs w).1
  /\ tick (postgres.stamp env tenantID logs w).2 = tick w
  /\ trace (postgres.stamp env tenantID logs w).2 = trace w
  /\ audit_logs (postgres.stamp env tenantID logs w).2 = audit_logs w.
Proof.
  induction logs as [| log rest IH]; intros w; cbn [postgres.stamp].
  - repeat split. constructor.
  - pose proof (ensureID_world env log w) as (Ht & Htr & Ha & _).
    destruct (postgres.ensureID env log w) as [log1 w1]. cbn [snd] in *.
    specialize (IH w1).
    destruct (postgres.stamp env tenantID rest w1) as [rest' w2].
    cbn [fst snd length] in *. destruct IH as (Hl & Hf & Ht2 & Htr2 & Ha2).
    repeat split; try congruence.
    constructor; [reflexivity | exact Hf].
Qed.

Lemma stored_row_TenantID now log :
  AuditLog.TenantID (gorm.stored_row now log) = AuditLog.TenantID log.
Proof.
  unfold gorm.stored_row. destruct (nonempty (AuditLog.Severity log)); reflexivity.
Qed.

(** What [Create] of the ORM does with the rows it is given. *)
Lemma gorm_Create_cases env logs w :
  let rows := map (gorm.stored_row (time_Now env (tick w))) logs in
  let r := gorm.Create env logs w in
  r.2 = call (PgInsert rows (is_ok r.1.1))
             (if is_ok r.1.1 then set_audit_logs (audit_logs w ++ rows) w else w)
  /\ (is_ok r.1.1 = true -> r.1 = (Ok tt, rows)).
Proof.
  unfold gorm.Create. cbv zeta.
  destruct (pg_fails env (tick w)); [split; [reflexivity | discriminate] |].
  destruct (gorm.keys_free _ _); split; reflexivity || discriminate.
Qed.

Lemma BroadcastLog_audit_logs env log w :
  audit_logs (WebSocketHandler.BroadcastLog env log w) = audit_logs w.
Proof.
  unfold WebSocketHandler.BroadcastLog, pubsub.Publish.
  destruct (redis_fails env (tick w)); reflexivity.
Qed.

Lemma BroadcastLog_trace env log w :
  exists ok,
    trace (WebSocketHandler.BroadcastLog env log w)
    = trace w ++ [RedisPublish (pubsub.getChannelName (dto.AuditLogResponse.TenantID log))
                               log ok].
Proof.
  unfold WebSocketHandler.BroadcastLog, pubsub.Publish.
  destruct (redis_fails env (tick w)); eexists; reflexivity.
Qed.

Lemma broadcast_all_audit_logs env logs : forall w,
  audit_logs (foldl (fun w log => WebSocketHandler.BroadcastLog env (dto.FromAuditLog log) w)
                    w logs)
  = audit_logs w.
Proof.
  induction logs as [| log rest IH]; intros w; cbn [foldl]; [reflexivity |].
  rewrite IH. apply BroadcastLog_audit_logs.
Qed.

Lemma broadcast_all_trace env logs : forall w,
  exists rest,
    trace (foldl (fun w log => WebSocketHandler.BroadcastLog env (dto.FromAuditLog log) w)
                 w logs)
    = trace w ++ rest.
Proof.
  induction logs as [| log rest IH]; intros w; cbn [foldl].
  - exists []. symmetry. apply app_nil_r.
  - destruct (IH (WebSocketHandler.BroadcastLog env (dto.FromAuditLog log) w)) as [tl Htl].
    destruct (BroadcastLog_trace env (dto.FromAuditLog log) w) as [ok Hok].
    rewrite Htl, Hok, <- app_assoc. eexists. reflexivity.
Qed.

Lemma SendBulkIndexMessage_world env logs w :
  audit_logs (SQSService.SendBulkIndexMessage env logs w).2 = audit_logs w
  /\ exists rest, trace (SQSService.SendBulkIndexMessage env logs w).2 = trace w ++ rest.
Proof.
  unfold SQSService.SendBulkIndexMessage, SQSService.sendMessage.
  destruct logs as [| log0 rest].
  - split; [reflexivity |]. exists []. symmetry. apply app_nil_r.
  - destruct (sqs_fails env (tick w)); split; try reflexivity; eexists; reflexivity.
Qed.

(** C10. [BulkCreate] fails, and does nothing, when the context carries no
    tenant.  Otherwise the one insert it issues carries as many rows as the
    request has events, every row with the tenant of the context whatever
    tenant the request named, and when it succeeds exactly these rows are
    added to the primary store. *)
Theorem bulk_create_binds_tenant env wired ctx reqs w :
  let r := service.BulkCreate env (wired_service env wired) ctx reqs w in
  match utils.GetTenantIDFromContext ctx with
  | Err err =>
      r = (Err (Errorf "failed to bulk store logs in PostgreSQL" err), w)
  | Ok tenantID =>
      exists rows rest,
        length rows = length reqs
        /\ Forall (fun row => AuditLog.TenantID row = tenantID) rows
        /\ trace r.2 = trace w ++ PgInsert rows (is_ok r.1) :: rest
        /\ audit_logs r.2 = if is_ok r.1 then audit_logs w ++ rows else audit_logs w
  end.
Proof.
  cbv zeta. unfold service.BulkCreate, postgres.BulkCreate.
  destruct (utils.GetTenantIDFromContext ctx) as [tenantID | err]; [| reflexivity].
  pose proof (stamp_facts env tenantID (map dto.ToAuditLog reqs) w)
    as (Hlen & Hall & Ht & Htr & Ha).
  destruct (postgres.stamp env tenantID (map dto.ToAuditLog reqs) w) as [logs w1].
  cbn [fst snd] in *.
  pose proof (gorm_Create_cases env logs w1) as [Hw Hok]. cbv zeta in Hw, Hok.
  set (rows := map (gorm.stored_row (time_Now env (tick w1))) logs) in *.
  assert (Hrows : length rows = length reqs).
  { unfold rows. rewrite length_map, Hlen, length_map. reflexivity. }
  assert (Hten : Forall (fun row => AuditLog.TenantID row = tenantID) rows).
  { unfold rows. rewrite Forall_map. eapply Forall_impl; [exact Hall |].
    intros log Hlog. cbv beta. rewrite stored_row_TenantID. exact Hlog. }
  destruct (gorm.Create env logs w1) as [[r logs'] w2]. cbn [fst snd] in *.
  destruct r as [[] | err]; cbn [is_ok] in *.
  - specialize (Hok eq_refl). injection Hok as ->.
    pose proof (SendBulkIndexMessage_world env rows w2) as [Hsa [tl Hst]].
    destruct (SQSService.SendBulkIndexMessage env rows w2) as [sent w3].
    cbn [fst snd] in *.
    assert (Htr2 : trace w2 = trace w ++ [PgInsert rows true])
      by (rewrite Hw; cbn [trace call set_audit_logs]; congruence).
    assert (Ha2 : audit_logs w2 = audit_logs w ++ rows)
      by (rewrite Hw; cbn [audit_logs call set_audit_logs]; congruence).
    destruct wired; cbn [wired_service service.SetWebSocketBroadcaster
                           service.NewAuditLogService
                           service.AuditLogService.broadcaster].
    + destruct (broadcast_all_trace env rows w3) as [tl2 Htl2].
      exists rows, (tl ++ tl2). repeat split; try assumption.
      * rewrite Htl2, Hst, Htr2, <- !app_assoc. reflexivity.
      * cbn [fst snd is_ok]. rewrite broadcast_all_audit_logs. congruence.
    + exists rows, tl. repeat split; try assumption.
      * rewrite Hst, Htr2, <- !app_assoc. reflexivity.
      * cbn [fst snd is_ok]. congruence.
  - exists rows, []. repeat split; try assumption.
    + rewrite Hw. cbn [trace call fst snd is_ok]. rewrite Htr. reflexivity.
    + rewrite Hw. cbn [audit_logs call fst snd is_ok]. exact Ha.
Qed.

(** ** GetByID *)

Lemma select_plain db table :
  gorm.limit db = None -> gorm.offset db = None ->
  gorm.order_timestamp_desc db = false ->
  gorm.select db table = List.filter (gorm.matches db) table.
Proof.
  intros Hl Ho Hs. unfold gorm.select. rewrite Hl, Ho, Hs. reflexivity.
Qed.

Lemma filter_nil_iff {A} (f : A -> bool) (l : list A) :
  List.filter f l = [] <-> forall x, In x l -> f x = false.
Proof.
  induction l as [| a l IH]; cbn.
  - split; [intros _ x [] | reflexivity].
  - destruct (f a) eqn:Hfa.
    + split; [discriminate |]. intros H. specialize (H a (or_introl eq_refl)). congruence.
    + rewrite IH. split.
      * intros H x [<- | Hx]; auto.
      * intros H x Hx. apply H. right. exact Hx.
Qed.

(** The rows [GetByID] chooses from: those of the tenant with the id. *)
Lemma GetByID_scope tenantID id row :
  gorm.matches
    (gorm.Where (gorm.col_eq AuditLog.ID id)
       (gorm.Where (gorm.col_eq AuditLog.TenantID tenantID) gorm.WithContext)) row
  = true
  <-> AuditLog.TenantID row = tenantID /\ AuditLog.ID row = id.
Proof.
  unfold gorm.matches, gorm.Where, gorm.WithContext, gorm.col_eq. cbn.
  rewrite andb_true_r, andb_true_iff, !String.eqb_eq. reflexivity.
Qed.

(** C5 (as the code behaves).  For an id that names no event of the caller's
    tenant the repository fails with the ORM's not-found error, and the
    handler answers that error with status 500; no run of the handler ends
    with status 404. *)
Theorem get_log_absent_is_500 env c w tenantID :
  utils.GetTenantIDFromContext (api.RequestCtx c) = Ok tenantID ->
  pg_fails env (tick w) = false ->
  (forall row, In row (audit_logs w) ->
     ~ (AuditLog.TenantID row = tenantID /\ AuditLog.ID row = gin.Param c "id")) ->
  (postgres.GetByID env (api.RequestCtx c) (gin.Param c "id") w).1
    = Err gorm.ErrRecordNotFound
  /\ (api.GetLog env c w).1
     = gin.JSON http.StatusInternalServerError (gin.JSONError gorm.ErrRecordNotFound)
  /\ forall env' c' w',
       gin.Response.status (api.GetLog env' c' w').1 <> http.StatusNotFound.
Proof.
  intros Hten Hpg Habsent.
  assert (Hrepo :
    (postgres.GetByID env (api.RequestCtx c) (gin.Param c "id") w).1
    = Err gorm.ErrRecordNotFound).
  { unfold postgres.GetByID, postgres.getTenantScope. rewrite Hten.
    unfold gorm.First. rewrite Hpg.
    rewrite select_plain by reflexivity.
    replace (List.filter _ (audit_logs w)) with (@nil AuditLog.t); [reflexivity |].
    symmetry. apply filter_nil_iff. intros row Hrow.
    apply not_true_is_false. rewrite GetByID_scope. apply Habsent, Hrow. }
  split; [exact Hrepo |]. split.
  - unfold api.GetLog, service.GetByID.
    destruct (postgres.GetByID env (api.RequestCtx c) (gin.Param c "id") w) as [r w1].
    cbn [fst] in Hrepo. rewrite Hrepo. reflexivity.
  - intros env' c' w'. unfold api.GetLog, service.GetByID.
    destruct (postgres.GetByID env' _ _ w') as [[log | err] w1]; cbn; discriminate.
Qed.

Lemma get_log_absent_is_500_witness :
  (api.GetLog quiet
     (request_of tenant_a {[ "id" := "log-7" ]} ∅ gin.Malformed)
     (set_audit_logs [event "log-7" tenant_b 5; event "log-8" tenant_a 6] empty_world)).1
  = gin.JSON 500 (gin.JSONError (New "record not found")).
Proof.
  eapply (get_log_absent_is_500 quiet
            (request_of tenant_a {[ "id" := "log-7" ]} ∅ gin.Malformed)
            (set_audit_logs [event "log-7" tenant_b 5; event "log-8" tenant_a 6] empty_world)
            tenant_a).
  - vm_compute. reflexivity.
  - reflexivity.
  - intros row [<- | [<- | []]]; vm_compute; intros [H1 H2]; discriminate.
Defined.

(** ** The default severity *)

Lemma binding_requires_severity r :
  dto.CreateAuditLogRequest.Severity r = "" -> dto.binding_required r = false.
Proof.
  intros H. unfold dto.binding_required. rewrite H. cbn.
  rewrite !andb_false_r. reflexivity.
Qed.

Lemma stored_row_Severity now log :
  AuditLog.Severity log = "" ->
  AuditLog.Severity (gorm.stored_row now log) = SeverityInfo.
Proof.
  intros H. unfold gorm.stored_row. rewrite H. reflexivity.
Qed.

Lemma ensureID_Severity env log w :
  AuditLog.Severity (postgres.ensureID env log w).1 = AuditLog.Severity log.
Proof.
  unfold postgres.ensureID. destruct (nonempty (AuditLog.ID log)); reflexivity.
Qed.

(** C9, counterexample: a create request that lacks only its severity is
    answered with status 400 and nothing is stored. *)
Lemma severity_defaults_on_create_fails : ~ severity_defaults_on_create.
Proof.
  intros H.
  destruct (H quiet (wired_service quiet true)
              (request_of tenant_a ∅ ∅ (gin.Object request_without_severity))
              empty_world request_without_severity)
    as [Hstatus _]; try reflexivity.
  vm_compute in Hstatus. discriminate.
Qed.

(** C9, amended.  A create request whose severity is absent is rejected by the
    binding of the request with status 400 and changes nothing; the default
    INFO is what the primary store gives a row inserted with an empty
    severity. *)
Theorem severity_required_and_store_default :
  (forall env s c w r,
     gin.Context.Body c = gin.Object r ->
     dto.CreateAuditLogRequest.Severity r = "" ->
     gin.Response.status (api.CreateLog env s c w).1 = http.StatusBadRequest
     /\ (api.CreateLog env s c w).2 = w)
  /\ (forall env ctx log w,
        AuditLog.Severity log = "" ->
        is_ok (postgres.Create env ctx log w).1.1 = true ->
        exists row,
          audit_logs (postgres.Create env ctx log w).2 = audit_logs w ++ [row]
          /\ AuditLog.Severity row = SeverityInfo).
Proof.
  split.
  - intros env s c w r Hbody Hsev.
    unfold api.CreateLog, api.ShouldBindJSON.
    rewrite Hbody, (binding_requires_severity r Hsev). split; reflexivity.
  - intros env ctx log w Hsev Hok.
    unfold postgres.Create in *.
    pose proof (ensureID_world env log w) as (Ht & _ & Ha & _).
    pose proof (ensureID_Severity env log w) as Hs.
    destruct (postgres.ensureID env log w) as [log1 w1]. cbn [fst snd] in *.
    pose proof (gorm_Create_cases env [log1] w1) as [Hw _]. cbv zeta in Hw.
    destruct (gorm.Create env [log1] w1) as [[r logs] w2]. cbn [fst snd] in *.
    rewrite Hok in Hw.
    exists (gorm.stored_row (time_Now env (tick w1)) log1). split.
    + rewrite Hw. cbn [audit_logs call set_audit_logs map]. rewrite Ha. reflexivity.
    + apply stored_row_Severity. congruence.
Qed.

Lemma severity_required_and_store_default_witness :
  gin.Response.status
    (api.CreateLog quiet (wired_service quiet true)
       (request_of tenant_a ∅ ∅ (gin.Object request_without_severity))
       empty_world).1 = 400
  /\ exists row,
       audit_logs (postgres.Create quiet ∅ (dto.ToAuditLog request_without_severity)
                                   empty_world).2 = [row]
       /\ AuditLog.Severity row = "INFO".
Proof.
  split.
  - apply (proj1 severity_required_and_store_default quiet (wired_service quiet true)
             (request_of tenant_a ∅ ∅ (gin.Object request_without_severity))
             empty_world request_without_severity); reflexivity.
  - apply (proj2 severity_required_and_store_default quiet ∅
             (dto.ToAuditLog request_without_severity) empty_world); reflexivity.
Defined.

(** ** Rate limiting *)

Lemma substrate_down_read_fails env key w :
  redis_fails env (tick w) = true -> counter_read_fails env key w.
Proof.
  intros H. unfold counter_read_fails, RateLimitMiddleware.Get_Int. rewrite H.
  reflexivity.
Qed.

(** C8. Whenever the read of the counter fails (the substrate is unavailable,
    or answers with anything but a number or "no such key"), the global and
    the tenant middleware call the next stage and write no response, so no
    429; an unavailable substrate makes every read of a counter fail. *)
Theorem rate_limit_fails_open env config limit c w :
  (counter_read_fails env ("rate_limit:global:" ++ gin.Context.ClientIP c) w ->
   (RateLimitMiddleware.GlobalRateLimit env limit c w).1
   = RateLimitMiddleware.Outcome.mk true None [])
  /\ (forall tenantID,
        utils.GetTenantIDFromContext (gin.Context.Request_Context c) = Ok tenantID ->
        counter_read_fails env ("rate_limit:tenant:" ++ tenantID) w ->
        (RateLimitMiddleware.TenantRateLimit env config c w).1
        = RateLimitMiddleware.Outcome.mk true None [])
  /\ (redis_fails env (tick w) = true -> forall key, counter_read_fails env key w).
Proof.
  unfold counter_read_fails. split; [| split].
  - intros H. unfold RateLimitMiddleware.GlobalRateLimit.
    destruct (RateLimitMiddleware.Get_Int env _ w) as [[current err] w1].
    cbn [fst snd] in H. rewrite H. reflexivity.
  - intros tenantID Hten H. unfold RateLimitMiddleware.TenantRateLimit.
    rewrite Hten.
    destruct (RateLimitMiddleware.Get_Int env _ w) as [[current err] w1].
    cbn [fst snd] in H. rewrite H. reflexivity.
  - intros H key. apply substrate_down_read_fails, H.
Qed.

Lemma rate_limit_fails_open_witness :
  (RateLimitMiddleware.GlobalRateLimit redis_down 10000
     (limited_request tenant_a) empty_world).1
  = RateLimitMiddleware.Outcome.mk true None []
  /\ (RateLimitMiddleware.TenantRateLimit redis_down
        (RateLimitMiddleware.Config.mk 1000) (limited_request tenant_a) empty_world).1
     = RateLimitMiddleware.Outcome.mk true None [].
Proof.
  pose proof (rate_limit_fails_open redis_down (RateLimitMiddleware.Config.mk 1000)
                10000 (limited_request tenant_a) empty_world) as (Hg & Ht & Hd).
  split.
  - apply Hg, Hd. reflexivity.
  - apply (Ht tenant_a); [reflexivity | apply Hd; reflexivity].
Defined.

(** ** The archive worker *)

Lemma filter_ext_in {A} (f g : A -> bool) (l : list A) :
  (forall x, f x = g x) -> List.filter f l = List.filter g l.
Proof.
  intros H. induction l as [| a l IH]; cbn; [reflexivity |].
  rewrite H, IH. reflexivity.
Qed.

(** What [List] returns for the filter of the archive worker. *)
Lemma List_archive_filter env ctx msg w :
  queue.Message.TenantID msg <> "" ->
  pg_fails env (tick w) = false ->
  postgres.List env ctx (ArchiveWorker.archiveFilter msg) w
  = (Ok (archive_selection msg (audit_logs w)),
     call (PgSelect true (length (archive_selection msg (audit_logs w)))) w).
Proof.
  intros Hten Hpg. unfold postgres.List, ArchiveWorker.archiveFilter.
  cbn [AuditLogFilter.set_EndTime AuditLogFilter.set_TenantID AuditLogFilter.zero
       AuditLogFilter.TenantID AuditLogFilter.UserID AuditLogFilter.Action
       AuditLogFilter.ResourceType AuditLogFilter.ResourceID AuditLogFilter.Severity
       AuditLogFilter.StartTime AuditLogFilter.EndTime AuditLogFilter.Limit
       AuditLogFilter.Offset].
  apply nonempty_true in Hten. rewrite Hten.
  cbn [negb nonempty String.eqb time.IsZero Z.eqb Z.ltb Z.compare].
  unfold gorm.Find. rewrite Hpg.
  assert (Hsel : forall db,
    gorm.select (gorm.Order db) (audit_logs w)
    = match gorm.limit db with
      | Some n => take (Z.to_nat n)
      | None => fun l => l
      end
        (match gorm.offset db with
         | Some n => drop (Z.to_nat n)
         | None => fun l => l
         end (gorm.sort_desc (List.filter (gorm.matches db) (audit_logs w))))).
  { intros db. unfold gorm.select, gorm.Order. cbn.
    destruct (gorm.offset db), (gorm.limit db); reflexivity. }
  rewrite Hsel. unfold archive_selection, time.IsZero.
  destruct (queue.Message.BeforeDate msg =? 0) eqn:Hz; cbn [negb gorm.limit gorm.offset
    gorm.Where gorm.WithContext];
    (erewrite filter_ext_in; [reflexivity |]); intros r;
    unfold gorm.matches, gorm.col_eq; cbn; rewrite ?andb_true_r; reflexivity.
Qed.



(** ** Archive before delete *)

Lemma In_insert_desc x y l : In x (gorm.insert_desc y l) <-> x = y \/ In x l.
Proof.
  induction l as [| z l IH]; cbn.
  - intuition congruence.
  - destruct (AuditLog.Timestamp z <? AuditLog.Timestamp y); cbn.
    + intuition congruence.
    + rewrite IH. intuition congruence.
Qed.

Lemma In_sort_desc x l : In x (gorm.sort_desc l) <-> In x l.
Proof.
  unfold gorm.sort_desc. induction l as [| y l IH]; cbn; [reflexivity |].
  rewrite In_insert_desc, IH. intuition congruence.
Qed.

Lemma In_archive_selection msg table e :
  In e (archive_selection msg table)
  <-> In e table
      /\ AuditLog.TenantID e = queue.Message.TenantID msg
      /\ (queue.Message.BeforeDate msg = 0
          \/ AuditLog.Timestamp e <= queue.Message.BeforeDate msg).
Proof.
  unfold archive_selection. rewrite In_sort_desc, filter_In, andb_true_iff,
    orb_true_iff, String.eqb_eq. unfold time.IsZero.
  rewrite Z.eqb_eq, Z.leb_le. reflexivity.
Qed.

Lemma In_cleanup_selection msg table e :
  In e (cleanup_selection msg table) <-> In e table /\ in_cleanup_range msg e.
Proof.
  unfold cleanup_selection, in_cleanup_range.
  rewrite filter_In, andb_true_iff, String.eqb_eq, Z.ltb_lt. reflexivity.
Qed.

(** The deletion set is within the archive selection, on one table. *)
Lemma cleanup_within_archive msg table e :
  In e (cleanup_selection msg table) -> In e (archive_selection msg table).
Proof.
  rewrite In_cleanup_selection, In_archive_selection. unfold in_cleanup_range.
  intros (Hin & Hten & Hlt). repeat split; [assumption | assumption |]. right. lia.
Qed.

(** What a successful archive turn leaves behind. *)
Lemma archive_turn_success env ctx msg w0 w1 :
  ArchiveWorker.processArchiveMessage env ctx msg w0 = (Ok tt, w1) ->
  audit_logs w1 = audit_logs w0
  /\ (archive_selection msg (audit_logs w0) <> [] ->
      exists archived_at,
        bucket w1 !! ArchiveWorker.s3Key env (queue.Message.TenantID msg)
                                          (queue.Message.BeforeDate msg)
        = Some (ArchiveData.mk (queue.Message.TenantID msg)
                  (queue.Message.BeforeDate msg) archived_at
                  (Z.of_nat (length (archive_selection msg (audit_logs w0))))
                  (archive_selection msg (audit_logs w0)))).
Proof.
  unfold ArchiveWorker.processArchiveMessage.
  destruct (String.eqb_spec (queue.Message.TenantID msg) "") as [Hten | Hten].
  { unfold postgres.List, ArchiveWorker.archiveFilter. cbn. rewrite Hten. cbn.
    discriminate. }
  destruct (pg_fails env (tick w0)) eqn:Hpg.
  { unfold postgres.List, ArchiveWorker.archiveFilter, gorm.Find.
    cbn [AuditLogFilter.set_EndTime AuditLogFilter.set_TenantID AuditLogFilter.zero
         AuditLogFilter.TenantID].
    apply nonempty_true in Hten. rewrite Hten, Hpg. cbn [negb]. discriminate. }
  rewrite (List_archive_filter env ctx msg w0 Hten Hpg).
  unfold ArchiveWorker.archiveLogsToS3, ArchiveWorker.enqueueCleanupMessage,
    SQSService.SendCleanupMessage, SQSService.sendMessage.
  destruct (archive_selection msg (audit_logs w0)) as [| log0 logs] eqn:Hsel.
  - destruct (sqs_fails env _); [discriminate |].
    intros [= <-]. split; [reflexivity | congruence].
  - rewrite tick_call. destruct (s3_fails env _); [discriminate |].
    destruct (sqs_fails env _); [discriminate |].
    intros [= <-]. split; [reflexivity |]. intros _. eexists. cbn.
    apply lookup_insert_eq.
Qed.

(** What a successful cleanup turn deletes. *)
Lemma cleanup_turn_success env ctx msg w2 w3 :
  CleanupWorker.processCleanupMessage env ctx msg w2 = (Ok tt, w3) ->
  forall e, In e (audit_logs w2) -> ~ In e (audit_logs w3) ->
            In e (cleanup_selection msg (audit_logs w2)).
Proof.
  unfold CleanupWorker.processCleanupMessage, postgres.DeleteBeforeDate, gorm.Delete.
  destruct (pg_fails env (tick w2)); [discriminate |].
  intros [= <-] e Hin Hout. cbn [audit_logs call set_audit_logs] in Hout.
  rewrite filter_In in Hout. unfold cleanup_selection. apply filter_In.
  split; [exact Hin |].
  destruct (gorm.matches _ e) eqn:Hm.
  - unfold gorm.matches, gorm.Where, gorm.WithContext in Hm. cbn in Hm.
    rewrite andb_true_r in Hm. exact Hm.
  - exfalso. apply Hout. split; [exact Hin | reflexivity].
Qed.

(** C2, counterexample: an event stamped before the before-date that is
    created after the archive turn is deleted by the cleanup turn and is in
    no archive object. *)
Lemma archive_before_delete_fails : ~ archive_before_delete.
Proof.
  intros H.
  pose (msg := queue.ReceivedMessage.Message (archive_message tenant_a 10)).
  pose (w0 := set_audit_logs [event "log-1" tenant_a 5] empty_world).
  pose (w1 := (ArchiveWorker.processArchiveMessage quiet ∅ msg w0).2).
  pose (w2 := (service.Create quiet (wired_service quiet true) ∅ (late_request 7) w1).2).
  pose (w3 := (CleanupWorker.processCleanupMessage quiet ∅ (cleanup_of msg 1002) w2).2).
  destruct (H quiet quiet msg 1002 w0 w1 (skipn 1 (audit_logs w2)) w2 w3
              eq_refl eq_refl eq_refl eq_refl
              (nth 1 (audit_logs w2) (event "" "" 0)))
    as (obj & Hobj & Hin).
  - vm_compute. right. left. reflexivity.
  - vm_compute. intros [].
  - vm_compute in Hobj. injection Hobj as <-.
    vm_compute in Hin. destruct Hin as [Hin | []]. discriminate.
Qed.

(** C2, amended.  After a successful archive turn for a task, and provided
    that no event in the deletion range of the task (same tenant, timestamp
    before the before-date) is added to the primary store and the object is
    not replaced before the cleanup turn, every event the cleanup turn
    deletes is in the object the archive turn wrote for the task: on one
    table the deletion set (timestamp < before_date) is within the archive
    selection (timestamp <= before_date). *)
Theorem archive_covers_cleanup env env' msg now w0 w1 added w2 w3 :
  ArchiveWorker.processArchiveMessage env ∅ msg w0 = (Ok tt, w1) ->
  audit_logs w2 = audit_logs w1 ++ added ->
  Forall (fun e => ~ in_cleanup_range msg e) added ->
  bucket w2 = bucket w1 ->
  CleanupWorker.processCleanupMessage env' ∅ (cleanup_of msg now) w2 = (Ok tt, w3) ->
  forall e,
    In e (audit_logs w2) -> ~ In e (audit_logs w3) ->
    exists obj,
      bucket w2 !! ArchiveWorker.s3Key env (queue.Message.TenantID msg)
                                        (queue.Message.BeforeDate msg)
      = Some obj
      /\ ArchiveData.logs obj = archive_selection msg (audit_logs w0)
      /\ In e (ArchiveData.logs obj).
Proof.
  intros Harch Hadded Hfresh Hbucket Hclean e Hin Hout.
  destruct (archive_turn_success _ _ _ _ _ Harch) as [Hlogs Hobj].
  pose proof (cleanup_turn_success _ _ _ _ _ Hclean e Hin Hout) as Hdel.
  apply In_cleanup_selection in Hdel. destruct Hdel as [_ Hrange].
  assert (Hrange' : in_cleanup_range msg e) by exact Hrange.
  assert (Hold : In e (audit_logs w0)).
  { rewrite Hadded, Hlogs in Hin. apply in_app_or in Hin.
    destruct Hin as [Hin | Hin]; [exact Hin |].
    rewrite Forall_forall in Hfresh. exfalso.
    apply (Hfresh e); [apply list_elem_of_In; exact Hin | exact Hrange']. }
  assert (Hsel : In e (archive_selection msg (audit_logs w0))).
  { apply cleanup_within_archive, In_cleanup_selection. split; assumption. }
  destruct Hobj as [archived_at Hobj].
  { intros Hnil. rewrite Hnil in Hsel. destruct Hsel. }
  eexists. rewrite Hbucket. split; [exact Hobj |]. split; [reflexivity | exact Hsel].
Qed.

Lemma archive_covers_cleanup_witness :
  let msg := queue.ReceivedMessage.Message (archive_message tenant_a 10) in
  let w0 := set_audit_logs [event "log-1" tenant_a 5] empty_world in
  let w1 := (ArchiveWorker.processArchiveMessage quiet ∅ msg w0).2 in
  let w2 := (service.Create quiet (wired_service quiet true) ∅ (late_request 20) w1).2 in
  let w3 := (CleanupWorker.processCleanupMessage quiet ∅ (cleanup_of msg 1002) w2).2 in
  length (audit_logs w2) = 2%nat
  /\ length (audit_logs w3) = 1%nat
  /\ exists obj,
       bucket w2 !! ArchiveWorker.s3Key quiet tenant_a 10 = Some obj
       /\ ArchiveData.logs obj = archive_selection msg (audit_logs w0)
       /\ In (event "log-1" tenant_a 5) (ArchiveData.logs obj).
Proof.
  intros msg w0 w1 w2 w3.
  split; [reflexivity |]. split; [reflexivity |].
  apply (archive_covers_cleanup quiet quiet msg 1002 w0 w1
           (skipn 1 (audit_logs w2)) w2 w3); try reflexivity.
  - repeat constructor. vm_compute. intros [_ H]. discriminate.
  - vm_compute. left. reflexivity.
  - vm_compute. intros [H | []]. discriminate.
Defined.

(** ** Tenant isolation *)

(** *** The tenant of the token reaches the filter and the context *)

Lemma set_claims_GetString claims tenantID c :
  claims !! utils.TenantIDKey = Some (utils.AnyString tenantID) ->
  gin.GetString (AuthMiddleware.set_claims claims c) utils.TenantIDKey = tenantID.
Proof.
  intros H. unfold gin.GetString, AuthMiddleware.set_claims.
  cbn [gin.Context.Keys].
  rewrite lookup_insert_ne by discriminate. rewrite lookup_insert_eq, H.
  reflexivity.
Qed.

Lemma set_claims_RequestCtx claims tenantID c :
  claims !! utils.TenantIDKey = Some (utils.AnyString tenantID) ->
  utils.GetTenantIDFromContext (api.RequestCtx (AuthMiddleware.set_claims claims c))
  = Ok tenantID.
Proof.
  intros H. unfold utils.GetTenantIDFromContext, api.RequestCtx,
    AuthMiddleware.set_claims.
  cbn [gin.Context.Keys gin.Context.Request_Context].
  erewrite lookup_union_Some_l; [| apply lookup_insert_eq].
  cbv beta iota. rewrite H. reflexivity.
Qed.

Lemma getFilterFromQuery_TenantID env c filter :
  api.getFilterFromQuery env c = Ok filter ->
  AuditLogFilter.TenantID filter = gin.GetString c utils.TenantIDKey.
Proof.
  unfold api.getFilterFromQuery.
  destruct (negb (nonempty (gin.GetString c utils.TenantIDKey))); [discriminate |].
  destruct (negb (nonempty (gin.Query c "start_time"))); [discriminate |].
  destruct (api.ParseUserTime env (gin.Query c "start_time") false); [| discriminate].
  destruct (negb (nonempty (gin.Query c "end_time"))); [discriminate |].
  destruct (api.ParseUserTime env (gin.Query c "end_time") true); [| discriminate].
  destruct (time.After _ _); [discriminate |].
  intros [= <-]. reflexivity.
Qed.

(** *** Reads of the primary store *)

Lemma In_take {A} n (l : list A) x : In x (take n l) -> In x l.
Proof.
  revert l. induction n as [| n IH]; intros [| a l]; cbn; try tauto.
  intros [-> | H]; [left; reflexivity | right; apply IH, H].
Qed.

Lemma In_drop {A} n (l : list A) x : In x (drop n l) -> In x l.
Proof.
  revert l. induction n as [| n IH]; intros [| a l]; cbn; try tauto.
  intros H. right. apply IH, H.
Qed.

(** A SELECT returns rows of the table that satisfy the WHERE clauses. *)
Lemma In_select db table x :
  In x (gorm.select db table) -> In x table /\ gorm.matches db x = true.
Proof.
  unfold gorm.select. intros H.
  apply filter_In.
  destruct (gorm.limit db); [apply In_take in H |];
    (destruct (gorm.offset db); [apply In_drop in H |]);
    (destruct (gorm.order_timestamp_desc db); [apply (proj1 (In_sort_desc _ _)) in H |]);
    exact H.
Qed.

Lemma matches_Where c db r :
  gorm.matches (gorm.Where c db) r = gorm.matches db r && c r.
Proof.
  unfold gorm.matches, gorm.Where. cbn. rewrite forallb_app. cbn.
  rewrite andb_true_r. reflexivity.
Qed.

Lemma matches_if_Where (b : bool) c db r :
  gorm.matches (if b then gorm.Where c db else db) r = true ->
  gorm.matches db r = true.
Proof.
  destruct b; [| tauto]. rewrite matches_Where, andb_true_iff. tauto.
Qed.

Lemma matches_if_Limit (b : bool) n db r :
  gorm.matches (if b then gorm.Limit n db else db) r = gorm.matches db r.
Proof. destruct b; reflexivity. Qed.

Lemma matches_if_Offset (b : bool) n db r :
  gorm.matches (if b then gorm.Offset n db else db) r = gorm.matches db r.
Proof. destruct b; reflexivity. Qed.

(** Every row [GetByID] returns is a row of the tenant of the context. *)
Lemma GetByID_tenant env ctx id w log w' :
  postgres.GetByID env ctx id w = (Ok log, w') ->
  utils.GetTenantIDFromContext ctx = Ok (AuditLog.TenantID log)
  /\ In log (audit_logs w).
Proof.
  unfold postgres.GetByID, postgres.getTenantScope.
  destruct (utils.GetTenantIDFromContext ctx) as [tenantID | err]; [| discriminate].
  unfold gorm.First. destruct (pg_fails env (tick w)); [discriminate |].
  destruct (gorm.select _ (audit_logs w)) as [| row rows] eqn:Hsel; [discriminate |].
  intros [= <- <-].
  assert (Hin : In row (gorm.select
                   (gorm.Where (gorm.col_eq AuditLog.ID id)
                      (gorm.Where (gorm.col_eq AuditLog.TenantID tenantID)
                         gorm.WithContext)) (audit_logs w)))
    by (rewrite Hsel; left; reflexivity).
  apply In_select in Hin. destruct Hin as [Hin Hm].
  apply GetByID_scope in Hm. destruct Hm as [-> _]. split; [reflexivity | exact Hin].
Qed.

(** Every row [List] returns is a row of the tenant of the filter. *)
Lemma List_tenant env ctx filter w logs w' :
  postgres.List env ctx filter w = (Ok logs, w') ->
  forall log, In log logs ->
    AuditLog.TenantID log = AuditLogFilter.TenantID filter /\ In log (audit_logs w).
Proof.
  unfold postgres.List.
  destruct (negb (nonempty (AuditLogFilter.TenantID filter))); [discriminate |].
  unfold gorm.Find. destruct (pg_fails env (tick w)); [discriminate |].
  intros [= <- <-] log Hin.
  apply In_select in Hin. destruct Hin as [Hin Hm]. split; [| exact Hin].
  unfold gorm.Order in Hm.
  change (gorm.matches (gorm.mk (gorm.conds ?d) _ _ _) log)
    with (gorm.matches d log) in Hm.
  rewrite matches_if_Offset, matches_if_Limit in Hm.
  do 7 apply matches_if_Where in Hm.
  rewrite matches_Where in Hm. apply andb_true_iff in Hm. destruct Hm as [_ Hm].
  apply String.eqb_eq in Hm. exact Hm.
Qed.

(** *** Reads of the search index *)

Lemma is_hex_plain c :
  is_hex c = true -> Ascii.eqb "_" c = false /\ Ascii.eqb "*" c = false.
Proof.
  intros H. split; apply not_true_is_false; intros Heq; apply Ascii.eqb_eq in Heq;
    subst c; vm_compute in H; discriminate.
Qed.

Lemma uuid_from_plain s : forall i,
  uuid_from i s = true -> free_of "_" s = true /\ free_of "*" s = true.
Proof.
  induction s as [| c s IH]; intros i H; cbn [uuid_from free_of] in *;
    [split; reflexivity |].
  apply andb_true_iff in H. destruct H as [Hc Hs].
  destruct (IH _ Hs) as [IH1 IH2]. rewrite IH1, IH2, !andb_true_r.
  destruct ((i =? 8) || (i =? 13) || (i =? 18) || (i =? 23))%nat.
  - apply Ascii.eqb_eq in Hc. subst c. split; reflexivity.
  - destruct (is_hex_plain c Hc) as [-> ->]. split; reflexivity.
Qed.

Lemma is_uuid_plain s :
  is_uuid s = true -> free_of "_" s = true /\ free_of "*" s = true.
Proof. apply uuid_from_plain. Qed.

Lemma append_nil (s : string) : String.append "" s = s.
Proof. reflexivity. Qed.

Lemma append_cons c (s1 s2 : string) :
  String.append (String c s1) s2 = String c (String.append s1 s2).
Proof. reflexivity. Qed.

Lemma wildcard_cons c pattern d name :
  Ascii.eqb c "*" = false ->
  opensearch.wildcard (String c pattern) (String d name)
  = Ascii.eqb c d && opensearch.wildcard pattern name.
Proof. intros H. cbn. rewrite H. reflexivity. Qed.

(** A tenant's pattern matches the index names of that tenant only. *)
Lemma wildcard_one_tenant t : forall t' d,
  free_of "_" t = true -> free_of "*" t = true -> free_of "_" t' = true ->
  opensearch.wildcard (t ++ "_*") (t' ++ "_" ++ d) = true -> t = t'.
Proof.
  induction t as [| a t IH]; intros t' d Hu Hs Hu' Hw.
  - destruct t' as [| a' t']; [reflexivity |].
    cbn [free_of] in Hu'. apply andb_true_iff in Hu'. destruct Hu' as [Ha' _].
    apply negb_true_iff in Ha'.
    rewrite ?append_nil, ?append_cons in Hw. rewrite wildcard_cons in Hw by reflexivity.
    apply andb_true_iff in Hw. destruct Hw as [Hw _]. rewrite Hw in Ha'. discriminate.
  - cbn [free_of] in Hu, Hs. apply andb_true_iff in Hu, Hs.
    destruct Hu as [Ha Hu], Hs as [Has Hs].
    apply negb_true_iff in Ha, Has.
    assert (Hstar : Ascii.eqb a "*" = false) by (rewrite Ascii.eqb_sym; exact Has).
    destruct t' as [| a' t'].
    + rewrite ?append_nil, ?append_cons in Hw. rewrite wildcard_cons in Hw by exact Hstar.
      apply andb_true_iff in Hw. destruct Hw as [Hw _].
      rewrite Ascii.eqb_sym, Ha in Hw. discriminate.
    + rewrite ?append_nil, ?append_cons in Hw. rewrite wildcard_cons in Hw by exact Hstar.
      apply andb_true_iff in Hw. destruct Hw as [Haa Hw].
      apply Ascii.eqb_eq in Haa. subst a'.
      cbn [free_of] in Hu'. apply andb_true_iff in Hu'. destruct Hu' as [_ Hu'].
      f_equal. exact (IH t' d Hu Hs Hu' Hw).
Qed.

Lemma pattern_one_tenant env t t' time :
  is_uuid t = true -> is_uuid t' = true ->
  opensearch.wildcard (config.GetIndexPattern t) (config.GetIndexName env t' time) = true ->
  t = t'.
Proof.
  intros Ht Ht'. unfold config.GetIndexPattern, config.GetIndexName.
  destruct (is_uuid_plain _ Ht) as [Hu Hs].
  destruct (is_uuid_plain _ Ht') as [Hu' _].
  rewrite ?append_nil, ?append_cons. rewrite !wildcard_cons by reflexivity.
  cbn [Ascii.eqb Bool.eqb andb]. apply wildcard_one_tenant; assumption.
Qed.

Lemma In_docs_of pattern (ix : gmap string (gmap string AuditLog.t)) doc :
  In doc (opensearch.docs_of pattern ix) ->
  exists name docs id,
    ix !! name = Some docs /\ docs !! id = Some doc
    /\ opensearch.wildcard pattern name = true.
Proof.
  unfold opensearch.docs_of. rewrite in_concat.
  intros (l & Hl & Hdoc). apply in_map_iff in Hl.
  destruct Hl as ([name docs] & <- & Hin).
  apply list_elem_of_In, elem_of_map_to_list in Hin.
  destruct (opensearch.wildcard pattern name) eqn:Hw; [| destruct Hdoc].
  apply in_map_iff in Hdoc. destruct Hdoc as ([id doc'] & Heq & Hin').
  cbn in Heq. subst doc'.
  apply list_elem_of_In, elem_of_map_to_list in Hin'.
  exists name, docs, id. auto.
Qed.

Lemma In_hits env q docs doc : In doc (opensearch.hits env q docs) -> In doc docs.
Proof.
  unfold opensearch.hits. intros H.
  apply In_take, In_drop in H. apply (proj1 (In_sort_desc _ _)) in H.
  apply filter_In in H. tauto.
Qed.

(** Every document [Search] returns is a document of the tenant of the
    context. *)
Lemma Search_tenant env ctx filter w logs w' tenantID :
  indexed_by_tenant env (indices w) ->
  is_uuid tenantID = true ->
  utils.GetTenantIDFromContext ctx = Ok tenantID ->
  opensearch.Search env ctx filter w = (Ok logs, w') ->
  forall log, In log logs -> AuditLog.TenantID log = tenantID.
Proof.
  intros Hix Huuid Hctx. unfold opensearch.Search. rewrite Hctx.
  unfold opensearch.request. destruct (os_fails env (tick w)); [discriminate |].
  intros [= <- <-] log Hin.
  apply In_hits, In_docs_of in Hin.
  destruct Hin as (name & docs & id & Hname & Hdoc & Hw).
  cbn [indices call] in Hname.
  destruct (Hix name docs id log Hname Hdoc) as [Hu [t ->]].
  symmetry. exact (pattern_one_tenant env _ _ t Huuid Hu Hw).
Qed.

(** *** The index worker keeps every document under its tenant *)

Lemma indexed_by_tenant_empty env : indexed_by_tenant env ∅.
Proof. intros name docs id doc H. rewrite lookup_empty in H. discriminate. Qed.

Lemma indexed_by_tenant_put env ix log t :
  is_uuid (AuditLog.TenantID log) = true ->
  indexed_by_tenant env ix ->
  indexed_by_tenant env
    (opensearch.put_doc (config.GetIndexName env (AuditLog.TenantID log) t) log ix).
Proof.
  intros Hu Hix name docs id doc. unfold opensearch.put_doc.
  destruct (decide (config.GetIndexName env (AuditLog.TenantID log) t = name)) as [<- | Hne].
  - rewrite lookup_insert_eq. intros [= <-].
    destruct (decide (AuditLog.ID log = id)) as [<- | Hid].
    + rewrite lookup_insert_eq. intros [= <-]. split; [exact Hu | eauto].
    + rewrite lookup_insert_ne by exact Hid.
      destruct (ix !! config.GetIndexName env (AuditLog.TenantID log) t) as [docs |] eqn:E;
        cbn.
      * intros Hdoc. exact (Hix _ _ _ _ E Hdoc).
      * rewrite lookup_empty. discriminate.
  - rewrite lookup_insert_ne by exact Hne. apply Hix.
Qed.

Lemma indexed_by_tenant_new_index env ix name :
  ix !! name = None ->
  indexed_by_tenant env ix -> indexed_by_tenant env (<[name := ∅]> ix).
Proof.
  intros Hnone Hix n docs id doc.
  destruct (decide (name = n)) as [<- | Hne].
  - rewrite lookup_insert_eq. intros [= <-]. rewrite lookup_empty. discriminate.
  - rewrite lookup_insert_ne by exact Hne. apply Hix.
Qed.

Lemma CreateIndex_keeps env tenantID t w :
  indexed_by_tenant env (indices w) ->
  indexed_by_tenant env (indices (opensearch.CreateIndex env tenantID t w).2).
Proof.
  intros Hix. unfold opensearch.CreateIndex, opensearch.request.
  destruct (os_fails env (tick w)); [exact Hix |].
  cbn [indices call]. destruct (indices w !! _) eqn:E; [exact Hix |].
  cbn [tick call]. destruct (os_fails env (S (tick w))); [exact Hix |].
  cbn. apply indexed_by_tenant_new_index; assumption.
Qed.

Lemma Index_keeps env log w :
  is_uuid (AuditLog.TenantID log) = true ->
  indexed_by_tenant env (indices w) ->
  indexed_by_tenant env (indices (opensearch.Index env log w).2).
Proof.
  intros Hu Hix. unfold opensearch.Index.
  pose proof (CreateIndex_keeps env (AuditLog.TenantID log)
                (opensearch.indexTime env log w) w Hix) as Hc.
  destruct (opensearch.CreateIndex env _ _ w) as [[[] | err] w1]; cbn [snd] in *;
    [| exact Hc].
  unfold opensearch.request. destruct (os_fails env (tick w1)); [exact Hc |].
  cbn. apply indexed_by_tenant_put; assumption.
Qed.

Lemma put_docs_keep env indexName logs : forall ix,
  (forall log, In log logs ->
     is_uuid (AuditLog.TenantID log) = true
     /\ exists t, indexName = config.GetIndexName env (AuditLog.TenantID log) t) ->
  indexed_by_tenant env ix ->
  indexed_by_tenant env (foldl (fun ix log => opensearch.put_doc indexName log ix) ix logs).
Proof.
  induction logs as [| log logs IH]; intros ix Hlogs Hix; cbn [foldl]; [exact Hix |].
  apply IH.
  - intros l Hl. apply Hlogs. right. exact Hl.
  - destruct (Hlogs log (or_introl eq_refl)) as [Hu [t ->]].
    apply indexed_by_tenant_put; assumption.
Qed.

Lemma bulkIndexGroup_keeps env indexName logs w :
  (forall log, In log logs ->
     is_uuid (AuditLog.TenantID log) = true
     /\ exists t, indexName = config.GetIndexName env (AuditLog.TenantID log) t) ->
  indexed_by_tenant env (indices w) ->
  indexed_by_tenant env (indices (opensearch.bulkIndexGroup env indexName logs w).2).
Proof.
  intros Hlogs Hix. unfold opensearch.bulkIndexGroup.
  assert (Hensured : forall r w1,
    (match logs with
     | [] => (Ok tt, w)
     | log0 :: _ =>
         match opensearch.CreateIndex env (AuditLog.TenantID log0)
                 (opensearch.indexTime env log0 w) w with
         | (Err err, w) => (Err (Errorf "failed to ensure index exists" err), w)
         | (Ok _, w) => (Ok tt, w)
         end
     end) = (r, w1) -> indexed_by_tenant env (indices w1)).
  { intros r w1. destruct logs as [| log0 rest]; [intros [= _ <-]; exact Hix |].
    pose proof (CreateIndex_keeps env (AuditLog.TenantID log0)
                  (opensearch.indexTime env log0 w) w Hix) as Hc.
    destruct (opensearch.CreateIndex env _ _ w) as [[[] | err] w2];
      intros [= _ <-]; exact Hc. }
  destruct (match logs with [] => _ | _ => _ end) as [r w1] eqn:E.
  specialize (Hensured r w1 eq_refl).
  destruct r as [[] | err]; [| exact Hensured].
  unfold opensearch.request. destruct (os_fails env (tick w1)); [exact Hensured |].
  cbn [snd indices call set_indices]. apply put_docs_keep; assumption.
Qed.

Lemma bulkIndexGroups_keep env groups : forall w,
  (forall indexName logs, In (indexName, logs) groups ->
     forall log, In log logs ->
       is_uuid (AuditLog.TenantID log) = true
       /\ exists t, indexName = config.GetIndexName env (AuditLog.TenantID log) t) ->
  indexed_by_tenant env (indices w) ->
  indexed_by_tenant env (indices (opensearch.bulkIndexGroups env groups w).2).
Proof.
  induction groups as [| [indexName logs] rest IH]; intros w Hgroups Hix;
    cbn [opensearch.bulkIndexGroups]; [exact Hix |].
  pose proof (bulkIndexGroup_keeps env indexName logs w
                (Hgroups indexName logs (or_introl eq_refl)) Hix) as Hg.
  destruct (opensearch.bulkIndexGroup env indexName logs w) as [[[] | err] w1];
    cbn [snd] in *; [| exact Hg].
  apply IH; [| exact Hg]. intros n l Hin. apply Hgroups. right. exact Hin.
Qed.

Lemma groups_by_name (name : AuditLog.t -> string) logs indexName group :
  In (indexName, group)
     (map (fun n => (n, List.filter (fun log => String.eqb (name log) n) logs))
          (remove_dups (map name logs))) ->
  forall log, In log group -> In log logs /\ name log = indexName.
Proof.
  intros Hin log Hlog. apply in_map_iff in Hin.
  destruct Hin as (n & Heq & _). injection Heq as <- <-.
  apply filter_In in Hlog. destruct Hlog as [Hlog Hname].
  apply String.eqb_eq in Hname. split; assumption.
Qed.

Lemma BulkIndex_keeps env logs w :
  (forall log, In log logs -> is_uuid (AuditLog.TenantID log) = true) ->
  indexed_by_tenant env (indices w) ->
  indexed_by_tenant env (indices (opensearch.BulkIndex env logs w).2).
Proof.
  intros Hu Hix. unfold opensearch.BulkIndex.
  destruct logs as [| log0 rest] eqn:E; [exact Hix |]. rewrite <- E in *. clear E.
  apply bulkIndexGroups_keep; [| exact Hix].
  intros indexName group Hin log Hlog.
  destruct (groups_by_name _ _ _ _ Hin log Hlog) as [Hl Hname].
  split; [apply Hu, Hl |]. eexists. symmetry. exact Hname.
Qed.

(** One turn of the index worker keeps every document under its tenant,
    when the tenants of the message's events are UUIDs (the primary store
    takes no others). *)
Lemma index_worker_keeps env rm w :
  (forall log, In log (queue.Message.Logs (queue.ReceivedMessage.Message rm)) ->
     is_uuid (AuditLog.TenantID log) = true) ->
  indexed_by_tenant env (indices w) ->
  indexed_by_tenant env (indices (SQSWorker.processOne env rm w)).
Proof.
  intros Hu Hix. unfold SQSWorker.processOne.
  assert (Hp : indexed_by_tenant env
                 (indices (SQSWorker.processMessage env (queue.ReceivedMessage.Message rm) w).2)).
  { unfold SQSWorker.processMessage.
    destruct (String.eqb _ queue.MessageTypeIndex).
    - destruct (queue.Message.Logs _) as [| log [| ? ?]] eqn:E; try exact Hix.
      apply Index_keeps; [| exact Hix]. apply Hu. left. reflexivity.
    - destruct (String.eqb _ queue.MessageTypeBulkIndex); [| exact Hix].
      destruct (queue.Message.Logs _) as [| log rest] eqn:E; [exact Hix |].
      apply BulkIndex_keeps; assumption. }
  destruct (SQSWorker.processMessage env _ w) as [[[] | err] w1]; cbn [snd] in *;
    [| exact Hp].
  unfold SQSService.DeleteMessage. destruct (sqs_fails env (tick w1)); exact Hp.
Qed.

(** *** The live hub *)

Lemma release_clients tenantID h :
  WebSocketHandler.clients (WebSocketHandler.release tenantID h)
  = WebSocketHandler.clients h.
Proof.
  unfold WebSocketHandler.release. destruct (_ =? 0); reflexivity.
Qed.

(** One turn of the loop: what it does to any client of the hub. *)
Lemma deliver_client log h a addr client' :
  WebSocketHandler.clients (WebSocketHandler.deliver log h a) !! addr = Some client' ->
  exists client delivered,
    WebSocketHandler.clients h !! addr = Some client
    /\ WebSocketHandler.Client.tenantID client' = WebSocketHandler.Client.tenantID client
    /\ WebSocketHandler.Client.send client'
       = WebSocketHandler.Client.send client ++ delivered
    /\ Forall (fun m => m = log
                        /\ WebSocketHandler.Client.tenantID client
                           = dto.AuditLogResponse.TenantID m) delivered.
Proof.
  assert (Hsame : forall c : WebSocketHandler.Client.t,
            WebSocketHandler.clients h !! addr = Some c ->
            exists client delivered,
              WebSocketHandler.clients h !! addr = Some client
              /\ WebSocketHandler.Client.tenantID c = WebSocketHandler.Client.tenantID client
              /\ WebSocketHandler.Client.send c
                 = WebSocketHandler.Client.send client ++ delivered
              /\ Forall (fun m => m = log
                                  /\ WebSocketHandler.Client.tenantID client
                                     = dto.AuditLogResponse.TenantID m) delivered).
  { intros c Hc. exists c, []. rewrite app_nil_r. repeat split; auto. }
  unfold WebSocketHandler.deliver.
  destruct (WebSocketHandler.clients h !! a) as [ca |] eqn:Ha; [| apply Hsame].
  destruct (String.eqb_spec (WebSocketHandler.Client.tenantID ca)
                            (dto.AuditLogResponse.TenantID log)) as [Hten | Hten];
    [| apply Hsame].
  destruct (_ <? WebSocketHandler.websocketSendChannelBufferSize).
  - cbn [WebSocketHandler.clients].
    destruct (decide (a = addr)) as [-> | Hne].
    + rewrite lookup_insert_eq. intros [= <-]. exists ca, [log].
      repeat split; auto.
    + rewrite lookup_insert_ne by exact Hne. apply Hsame.
  - rewrite release_clients. cbn [WebSocketHandler.clients].
    destruct (decide (a = addr)) as [-> | Hne].
    + rewrite lookup_delete_eq. discriminate.
    + rewrite lookup_delete_ne by exact Hne. apply Hsame.
Qed.

Lemma deliver_other_tenant log h a addr client :
  WebSocketHandler.clients h !! addr = Some client ->
  WebSocketHandler.Client.tenantID client <> dto.AuditLogResponse.TenantID log ->
  WebSocketHandler.clients (WebSocketHandler.deliver log h a) !! addr = Some client.
Proof.
  intros Hc Hten. unfold WebSocketHandler.deliver.
  destruct (WebSocketHandler.clients h !! a) as [ca |] eqn:Ha; [| exact Hc].
  destruct (String.eqb_spec (WebSocketHandler.Client.tenantID ca)
                            (dto.AuditLogResponse.TenantID log)) as [Hca | Hca];
    [| exact Hc].
  assert (Hne : a <> addr) by (intros ->; congruence).
  destruct (_ <? WebSocketHandler.websocketSendChannelBufferSize).
  - cbn [WebSocketHandler.clients]. rewrite lookup_insert_ne by exact Hne. exact Hc.
  - rewrite release_clients. cbn [WebSocketHandler.clients].
    rewrite lookup_delete_ne by exact Hne. exact Hc.
Qed.

Lemma deliver_all_client log addrs : forall h addr client',
  WebSocketHandler.clients (foldl (WebSocketHandler.deliver log) h addrs) !! addr
  = Some client' ->
  exists client delivered,
    WebSocketHandler.clients h !! addr = Some client
    /\ WebSocketHandler.Client.tenantID client' = WebSocketHandler.Client.tenantID client
    /\ WebSocketHandler.Client.send client'
       = WebSocketHandler.Client.send client ++ delivered
    /\ Forall (fun m => m = log
                        /\ WebSocketHandler.Client.tenantID client
                           = dto.AuditLogResponse.TenantID m) delivered.
Proof.
  induction addrs as [| a addrs IH]; intros h addr client' H; cbn [foldl] in H.
  - exists client', []. rewrite app_nil_r. repeat split; auto.
  - destruct (IH _ _ _ H) as (c1 & d1 & H1 & Ht1 & Hs1 & Hf1).
    destruct (deliver_client _ _ _ _ _ H1) as (c0 & d0 & H0 & Ht0 & Hs0 & Hf0).
    exists c0, (d0 ++ d1). split; [exact H0 |]. split; [congruence |]. split.
    + rewrite Hs1, Hs0, app_assoc. reflexivity.
    + apply Forall_app. split; [exact Hf0 |].
      eapply Forall_impl; [exact Hf1 |]. intros m [-> Hm]. split; congruence.
Qed.

Lemma deliver_all_other_tenant log addrs : forall h addr client,
  WebSocketHandler.clients h !! addr = Some client ->
  WebSocketHandler.Client.tenantID client <> dto.AuditLogResponse.TenantID log ->
  WebSocketHandler.clients (foldl (WebSocketHandler.deliver log) h addrs) !! addr
  = Some client.
Proof.
  induction addrs as [| a addrs IH]; intros h addr client Hc Hten; cbn [foldl];
    [exact Hc |].
  apply IH; [| exact Hten]. apply deliver_other_tenant; assumption.
Qed.

(** What [handlePubSubMessage] does to the clients of the hub: a client of
    another tenant than the message's stays as it is, and whatever is put
    into the buffer of a client is the message, for a client of the
    message's tenant. *)
Lemma hub_routes_by_tenant log h :
  (forall addr client,
     WebSocketHandler.clients h !! addr = Some client ->
     WebSocketHandler.Client.tenantID client <> dto.AuditLogResponse.TenantID log ->
     WebSocketHandler.clients (WebSocketHandler.handlePubSubMessage log h) !! addr
     = Some client)
  /\ (forall addr client',
        WebSocketHandler.clients (WebSocketHandler.handlePubSubMessage log h) !! addr
        = Some client' ->
        exists client delivered,
          WebSocketHandler.clients h !! addr = Some client
          /\ WebSocketHandler.Client.tenantID client'
             = WebSocketHandler.Client.tenantID client
          /\ WebSocketHandler.Client.send client'
             = WebSocketHandler.Client.send client ++ delivered
          /\ Forall (fun m => m = log
                              /\ WebSocketHandler.Client.tenantID client
                                 = dto.AuditLogResponse.TenantID m) delivered).
Proof.
  unfold WebSocketHandler.handlePubSubMessage. split.
  - intros addr client. apply deliver_all_other_tenant.
  - intros addr client'. apply deliver_all_client.
Qed.

Lemma HandleWebSocket_tenant claims tenantID c client :
  claims !! utils.TenantIDKey = Some (utils.AnyString tenantID) ->
  WebSocketHandler.HandleWebSocket (AuthMiddleware.set_claims claims c)
  = WebSocketHandler.Registers client ->
  WebSocketHandler.Client.tenantID client = tenantID.
Proof.
  intros H. unfold WebSocketHandler.HandleWebSocket, AuthMiddleware.set_claims.
  cbn [gin.Context.Keys].
  rewrite lookup_insert_ne by discriminate. rewrite lookup_insert_eq, H.
  intros [= <-]. reflexivity.
Qed.

(** ** Statistics *)

(** *** GROUP BY over a list *)

Section grouping_facts.
Context {K : Type} `{EqDecision K}.

Lemma occurrences_cons (k x : K) (l : list K) :
  postgres.occurrences k (x :: l)
  = (if bool_decide (x = k) then 1 else 0) + postgres.occurrences k l.
Proof.
  unfold postgres.occurrences. cbn [List.filter].
  destruct (bool_decide (x = k)); cbn [length]; lia.
Qed.

Lemma occurrences_nonneg (k : K) (l : list K) : 0 <= postgres.occurrences k l.
Proof. unfold postgres.occurrences. lia. Qed.

Lemma occurrences_pos (k : K) (l : list K) :
  0 < postgres.occurrences k l <-> In k l.
Proof.
  induction l as [| x l IH]; [unfold postgres.occurrences; cbn; lia |].
  rewrite occurrences_cons. pose proof (occurrences_nonneg k l).
  destruct (bool_decide_reflect (x = k)) as [-> | Hne]; cbn [In].
  - split; [auto | lia].
  - rewrite Z.add_0_l, IH. intuition congruence.
Qed.

Lemma occurrences_filter (P : K -> bool) (k : K) (l : list K) :
  P k = true ->
  postgres.occurrences k (List.filter P l) = postgres.occurrences k l.
Proof.
  intros HP. induction l as [| x l IH]; [reflexivity |]. cbn [List.filter].
  destruct (P x) eqn:HPx.
  - rewrite !occurrences_cons, IH. reflexivity.
  - rewrite occurrences_cons, IH.
    destruct (bool_decide_reflect (x = k)) as [-> | Hne]; [congruence | lia].
Qed.

Lemma remove_dups_filter (P : K -> bool) (l : list K) :
  remove_dups (List.filter P l) = List.filter P (remove_dups l).
Proof.
  induction l as [| x l IH]; [reflexivity |]. cbn [List.filter remove_dups].
  destruct (P x) eqn:HPx.
  - cbn [remove_dups].
    destruct (decide_rel elem_of x (List.filter P l)) as [Hin | Hnin];
      destruct (decide_rel elem_of x l) as [Hin' | Hnin'].
    + exact IH.
    + exfalso. apply Hnin'. apply list_elem_of_In. apply list_elem_of_In in Hin.
      apply filter_In in Hin. tauto.
    + exfalso. apply Hnin. apply list_elem_of_In. apply filter_In.
      split; [apply list_elem_of_In; exact Hin' | exact HPx].
    + cbn [List.filter]. rewrite HPx, IH. reflexivity.
  - destruct (decide_rel elem_of x l); [exact IH |].
    cbn [List.filter]. rewrite HPx. exact IH.
Qed.

Lemma In_remove_dups (x : K) (l : list K) : In x (remove_dups l) <-> In x l.
Proof. rewrite <- !list_elem_of_In. apply elem_of_remove_dups. Qed.

Lemma In_group_count (k : K) (n : Z) (l : list K) :
  In (k, n) (postgres.group_count l) <-> In k l /\ n = postgres.occurrences k l.
Proof.
  unfold postgres.group_count. rewrite in_map_iff. split.
  - intros (x & [= <- <-] & Hx). split; [| reflexivity].
    apply In_remove_dups. exact Hx.
  - intros [Hk ->]. exists k. split; [reflexivity |].
    apply In_remove_dups. exact Hk.
Qed.

Lemma group_count_keys (l : list K) : map fst (postgres.group_count l) = remove_dups l.
Proof.
  unfold postgres.group_count. rewrite map_map. cbn. apply map_id.
Qed.

Lemma In_group_sum (k : K) (n : Z) (rows : list (K * Z)) :
  In (k, n) (postgres.group_sum rows)
  <-> In k (map fst rows) /\ n = postgres.total k rows.
Proof.
  unfold postgres.group_sum. rewrite in_map_iff. split.
  - intros (x & [= <- <-] & Hx). split; [| reflexivity].
    apply In_remove_dups. exact Hx.
  - intros [Hk ->]. exists k. split; [reflexivity |].
    apply In_remove_dups. exact Hk.
Qed.

Lemma group_sum_keys (rows : list (K * Z)) :
  map fst (postgres.group_sum rows) = remove_dups (map fst rows).
Proof.
  unfold postgres.group_sum. rewrite map_map. cbn. apply map_id.
Qed.

Lemma total_app (k : K) (l1 l2 : list (K * Z)) :
  postgres.total k (l1 ++ l2) = postgres.total k l1 + postgres.total k l2.
Proof.
  unfold postgres.total. rewrite List.filter_app, map_app.
  induction (map snd (List.filter _ l1)) as [| z zs IH]; cbn; [reflexivity | lia].
Qed.

Lemma sum_where_single (Q : K -> bool) (x : K) (D : list K) (g : K -> Z) :
  NoDup D ->
  sum_where Q (map (fun k => (k, (if bool_decide (x = k) then 1 else 0) + g k)) D)
  = (if Q x && bool_decide (x ∈ D) then 1 else 0)
    + sum_where Q (map (fun k => (k, g k)) D).
Proof.
  unfold sum_where. induction 1 as [| k D Hk HD IH].
  - cbn. rewrite andb_false_r. lia.
  - cbn [map List.filter fst].
    assert (Hin : bool_decide (x ∈ k :: D)
                  = bool_decide (x = k) || bool_decide (x ∈ D)).
    { apply eq_true_iff_eq. rewrite orb_true_iff, !bool_decide_eq_true.
      apply elem_of_cons. }
    rewrite Hin.
    destruct (bool_decide_reflect (x = k)) as [-> | Hne].
    + rewrite (bool_decide_eq_false_2 (k ∈ D) Hk) in IH.
      rewrite andb_false_r in IH. cbn [orb]. rewrite andb_true_r.
      destruct (Q k); cbn [map foldr snd]; lia.
    + cbn [orb]. destruct (Q k); cbn [map foldr snd]; lia.
Qed.

Lemma sum_where_zero (Q : K -> bool) (D : list K) :
  sum_where Q (map (fun k => (k, 0)) D) = 0.
Proof.
  unfold sum_where. induction D as [| k D IH]; [reflexivity |].
  cbn [map List.filter fst]. destruct (Q k); cbn [map foldr snd]; lia.
Qed.

(** Over a list [D] of distinct keys that covers [l], the counts of the
    groups that satisfy [Q] add up to the number of elements of [l] that
    satisfy [Q]. *)
Lemma sum_where_occurrences (Q : K -> bool) (D l : list K) :
  NoDup D -> (forall x, In x l -> In x D) ->
  sum_where Q (map (fun k => (k, postgres.occurrences k l)) D)
  = Z.of_nat (length (List.filter Q l)).
Proof.
  intros HD. induction l as [| x l IH]; intros Hcover.
  - cbn [List.filter length]. apply sum_where_zero.
  - erewrite map_ext; [| intros k; rewrite occurrences_cons; reflexivity].
    rewrite (sum_where_single Q x D (fun k => postgres.occurrences k l) HD).
    rewrite IH by (intros y Hy; apply Hcover; right; exact Hy).
    rewrite (bool_decide_eq_true_2 (x ∈ D))
      by (apply list_elem_of_In, Hcover; left; reflexivity).
    rewrite andb_true_r. cbn [List.filter]. destruct (Q x); cbn [length]; lia.
Qed.

Lemma sum_where_group_count (Q : K -> bool) (l : list K) :
  sum_where Q (postgres.group_count l) = Z.of_nat (length (List.filter Q l)).
Proof.
  unfold postgres.group_count. apply sum_where_occurrences.
  - apply NoDup_remove_dups.
  - intros x Hx. apply In_remove_dups, Hx.
Qed.

End grouping_facts.

(** *** Filing result rows into the maps *)

Lemma file_rows_absent (k : string) rows : forall m : gmap string Z,
  ~ In k (map fst rows) -> file_rows m rows !! k = m !! k.
Proof.
  unfold file_rows. induction rows as [| [k' n'] rows IH]; intros m Hk; [reflexivity |].
  cbn [foldl fst snd]. rewrite IH by (intros H; apply Hk; right; exact H).
  apply lookup_insert_ne. intros ->. apply Hk. left. reflexivity.
Qed.

Lemma file_rows_present (k : string) (v : Z) rows : forall m : gmap string Z,
  (forall n, In (k, n) rows -> n = v) ->
  In k (map fst rows) \/ m !! k = Some v ->
  file_rows m rows !! k = Some v.
Proof.
  unfold file_rows. induction rows as [| [k' n'] rows IH]; intros m Hv Hk.
  - destruct Hk as [[] | Hk]. exact Hk.
  - cbn [foldl fst snd]. apply IH.
    + intros n Hn. apply Hv. right. exact Hn.
    + destruct (decide (k' = k)) as [-> | Hne].
      * right. rewrite (Hv n' (or_introl eq_refl)). apply lookup_insert_eq.
      * rewrite lookup_insert_ne by exact Hne.
        destruct Hk as [[Hk | Hk] | Hk]; [cbn in Hk; congruence | left; exact Hk
                                         | right; exact Hk].
Qed.

Lemma rows_in_app c a b : rows_in c (a ++ b) = rows_in c a ++ rows_in c b.
Proof. unfold rows_in. rewrite List.filter_app, map_app. reflexivity. Qed.

Lemma rows_in_tagged c c' (gc : list (string * Z)) :
  rows_in c (map (fun '(k, n) => postgres.countResult.mk c' k n) gc)
  = if String.eqb c' c then gc else [].
Proof.
  unfold rows_in. induction gc as [| [k n] gc IH]; cbn [map List.filter].
  - destruct (String.eqb c' c); reflexivity.
  - cbn [postgres.countResult.Category]. destruct (String.eqb c' c);
      cbn [map]; rewrite IH; reflexivity.
Qed.

Lemma file_result_maps results : forall stats,
  AuditLogStats.ActionCounts (foldl postgres.file_result stats results)
  = file_rows (AuditLogStats.ActionCounts stats) (rows_in "action" results)
  /\ AuditLogStats.SeverityCounts (foldl postgres.file_result stats results)
     = file_rows (AuditLogStats.SeverityCounts stats) (rows_in "severity" results)
  /\ AuditLogStats.ResourceCounts (foldl postgres.file_result stats results)
     = file_rows (AuditLogStats.ResourceCounts stats) (rows_in "resource_type" results)
  /\ AuditLogStats.TotalLogs (foldl postgres.file_result stats results)
     = AuditLogStats.TotalLogs stats.
Proof.
  induction results as [| r results IH]; intros stats; [repeat split |].
  cbn [foldl]. destruct (IH (postgres.file_result stats r)) as (Ha & Hs & Hr & Ht).
  rewrite Ha, Hs, Hr, Ht. unfold rows_in, postgres.file_result, file_rows.
  cbn [List.filter].
  destruct (String.eqb_spec (postgres.countResult.Category r) "severity") as [E | E].
  { rewrite E. cbn. repeat split. }
  destruct (String.eqb_spec (postgres.countResult.Category r) "action") as [E1 | E1].
  { rewrite E1. cbn. repeat split. }
  destruct (String.eqb_spec (postgres.countResult.Category r) "resource_type") as [E2 | E2].
  { cbn. repeat split. }
  repeat split.
Qed.

(** *** The base table *)

Lemma filter_filter {A} (p q : A -> bool) (l : list A) :
  List.filter q (List.filter p l) = List.filter (fun x => p x && q x) l.
Proof.
  induction l as [| x l IH]; [reflexivity |]. cbn [List.filter].
  destruct (p x); cbn [List.filter andb]; [destruct (q x) |]; rewrite IH; reflexivity.
Qed.

Lemma occurrences_map_filter (p : AuditLog.t -> bool) (f : AuditLog.t -> string)
    (table : list AuditLog.t) (k : string) :
  postgres.occurrences k (map f (List.filter p table))
  = Z.of_nat (length (List.filter (fun l => p l && String.eqb (f l) k) table)).
Proof.
  unfold postgres.occurrences. f_equal.
  induction table as [| l table IH]; [reflexivity |]. cbn [List.filter].
  destruct (p l); cbn [map List.filter andb]; [| exact IH].
  destruct (String.eqb_spec (f l) k) as [E | E].
  - rewrite bool_decide_eq_true_2 by exact E. cbn [length]. rewrite IH. reflexivity.
  - rewrite bool_decide_eq_false_2 by exact E. exact IH.
Qed.

(** Filing the groups of a GROUP BY on field [f] yields the tally of [f]. *)
Lemma group_count_tally (p : AuditLog.t -> bool) (f : AuditLog.t -> string)
    (table : list AuditLog.t) (k : string) :
  file_rows ∅ (postgres.group_count (map f (List.filter p table))) !! k
  = tally p f table k.
Proof.
  unfold tally. rewrite <- occurrences_map_filter.
  set (L := map f (List.filter p table)).
  destruct (Z.ltb_spec 0 (postgres.occurrences k L)) as [Hpos | Hzero].
  - apply file_rows_present.
    + intros n Hn. apply In_group_count in Hn. tauto.
    + left. rewrite group_count_keys. apply In_remove_dups, occurrences_pos, Hpos.
  - rewrite file_rows_absent; [apply lookup_empty |].
    rewrite group_count_keys, In_remove_dups, <- occurrences_pos. lia.
Qed.

Lemma base_query_maps table tenantID startTime endTime :
  let stats := foldl postgres.file_result (AuditLogStats.mk 0 ∅ ∅ ∅)
                 (postgres.base_query table tenantID startTime endTime) in
  let p := postgres.timestamp_in tenantID startTime endTime in
  (forall k, AuditLogStats.ActionCounts stats !! k = tally p AuditLog.Action table k)
  /\ (forall k, AuditLogStats.SeverityCounts stats !! k = tally p AuditLog.Severity table k)
  /\ (forall k, AuditLogStats.ResourceCounts stats !! k
                = tally (fun l => p l && nonempty (AuditLog.ResourceType l))
                        AuditLog.ResourceType table k).
Proof.
  cbv zeta.
  destruct (file_result_maps (postgres.base_query table tenantID startTime endTime)
              (AuditLogStats.mk 0 ∅ ∅ ∅)) as (Ha & Hs & Hr & _).
  rewrite Ha, Hs, Hr. cbn [AuditLogStats.ActionCounts AuditLogStats.SeverityCounts
                           AuditLogStats.ResourceCounts].
  unfold postgres.base_query. rewrite !rows_in_app, !rows_in_tagged.
  cbn [String.eqb Ascii.eqb Bool.eqb app]. rewrite !app_nil_r.
  repeat split; intros k.
  - apply group_count_tally.
  - apply group_count_tally.
  - rewrite filter_filter. apply group_count_tally.
Qed.

(** *** The hourly statistics *)

Lemma hourly_stats_alt table :
  postgres.audit_logs_hourly_stats table
  = map stat_of (postgres.group_count (map event_key table)).
Proof. reflexivity. Qed.

Lemma length_filter_map {A B} (f : A -> B) (P : B -> bool) (l : list A) :
  length (List.filter P (map f l)) = length (List.filter (fun x => P (f x)) l).
Proof.
  induction l as [| x l IH]; [reflexivity |]. cbn [map List.filter].
  destruct (P (f x)); cbn [length]; rewrite IH; reflexivity.
Qed.

(** The counts of the hourly rows selected by a condition on their group add
    up to the number of events whose group satisfies the condition. *)
Lemma hourly_stats_sum (P : postgres.HourlyStat.t -> bool)
    (P' : time.Time * string * string * string * string -> bool) table :
  (forall h, P h = P' (stat_key h)) ->
  foldr Z.add 0 (map postgres.HourlyStat.count
                     (List.filter P (postgres.audit_logs_hourly_stats table)))
  = Z.of_nat (length (List.filter (fun l => P' (event_key l)) table)).
Proof.
  intros HP. rewrite hourly_stats_alt, <- length_filter_map, <- sum_where_group_count.
  unfold sum_where.
  induction (postgres.group_count (map event_key table)) as [| [key n] gc IH];
    [reflexivity |].
  cbn [map List.filter fst]. rewrite HP.
  replace (stat_key (stat_of (key, n))) with key
    by (destruct key as [[[[b t] a] s] r]; reflexivity).
  destruct (P' key); cbn [map foldr snd]; rewrite IH; [| reflexivity].
  destruct key as [[[[b t] a] s] r]; reflexivity.
Qed.

Lemma In_hourly_stats h table :
  In h (postgres.audit_logs_hourly_stats table)
  -> exists l, In l table /\ event_key l = stat_key h.
Proof.
  rewrite hourly_stats_alt, in_map_iff. intros ([key n] & <- & Hin).
  apply In_group_count in Hin. destruct Hin as [Hin _].
  apply in_map_iff in Hin. destruct Hin as (l & <- & Hl).
  exists l. split; [exact Hl |].
  destruct (event_key l) as [[[[b t] a] s] r]. reflexivity.
Qed.

Lemma hourly_stats_of_event l table :
  In l table ->
  exists h, In h (postgres.audit_logs_hourly_stats table) /\ stat_key h = event_key l.
Proof.
  intros Hl. rewrite hourly_stats_alt.
  exists (stat_of (event_key l, postgres.occurrences (event_key l) (map event_key table))).
  split.
  - apply in_map. apply In_group_count. split; [| reflexivity].
    apply in_map. exact Hl.
  - destruct (event_key l) as [[[[b t] a] s] r]. reflexivity.
Qed.

Lemma filter_length_pos {A} (p : A -> bool) (l : list A) :
  0 < Z.of_nat (length (List.filter p l)) <-> exists x, In x l /\ p x = true.
Proof.
  split.
  - destruct (List.filter p l) as [| x xs] eqn:E; [cbn; lia |].
    intros _. exists x. apply filter_In. rewrite E. left. reflexivity.
  - intros (x & Hx & Hp). assert (Hin : In x (List.filter p l)) by (apply filter_In; auto).
    destruct (List.filter p l); [destruct Hin | cbn [length]; lia].
Qed.

(** One branch of the UNION ALL of the hourly query: its rows carry one
    category [c]; its total under a key of that category is the number of
    events in the window that pass the branch's condition and carry the
    key. *)
Lemma hourly_branch (c : string) (f q : postgres.HourlyStat.t -> _)
    (f' : time.Time * string * string * string * string -> string)
    (q' : time.Time * string * string * string * string -> bool)
    table tenantID startTime endTime :
  (forall h, f h = f' (stat_key h)) ->
  (forall h, q h = q' (stat_key h)) ->
  let sel := List.filter (postgres.bucket_in tenantID startTime endTime)
                         (postgres.audit_logs_hourly_stats table) in
  let branch := map (fun h => (c, f h, postgres.HourlyStat.count h)) (List.filter q sel) in
  let count k :=
    Z.of_nat (length (List.filter
                        (fun l => (bucket_window tenantID startTime endTime l
                                   && q' (event_key l))
                                  && String.eqb (f' (event_key l)) k) table)) in
  (forall k, postgres.total (c, k) branch = count k)
  /\ (forall k, In (c, k) (map fst branch) <-> 0 < count k)
  /\ (forall c2 k, c2 <> c ->
        postgres.total (c2, k) branch = 0 /\ ~ In (c2, k) (map fst branch)).
Proof.
  intros Hf Hq sel branch count. split; [| split].
  - intros k. unfold postgres.total, branch.
    transitivity (foldr Z.add 0
      (map postgres.HourlyStat.count
         (List.filter (fun h => (postgres.bucket_in tenantID startTime endTime h && q h)
                                && String.eqb (f h) k)
                      (postgres.audit_logs_hourly_stats table)))).
    + unfold sel. rewrite <- !filter_filter.
      induction (List.filter q _) as [| h hs IH]; [reflexivity |].
      cbn [map List.filter fst].
      destruct (String.eqb_spec (f h) k) as [E | E].
      * rewrite bool_decide_eq_true_2 by (rewrite E; reflexivity).
        cbn [map foldr snd]. rewrite IH. reflexivity.
      * rewrite bool_decide_eq_false_2 by congruence. exact IH.
    + unfold count.
      apply (hourly_stats_sum _
               (fun key => (String.eqb key.1.1.1.2 tenantID
                            && (startTime <=? key.1.1.1.1) && (key.1.1.1.1 <? endTime)
                            && q' key)
                           && String.eqb (f' key) k)).
      intros h. rewrite Hf, Hq. reflexivity.
  - intros k. unfold count. rewrite filter_length_pos. unfold branch.
    rewrite map_map. cbn [fst]. rewrite in_map_iff. split.
    + intros (h & [= <-] & Hin). apply filter_In in Hin. destruct Hin as [Hin Hqh].
      apply filter_In in Hin. destruct Hin as [Hin Hb].
      destruct (In_hourly_stats _ _ Hin) as (l & Hl & Hkey).
      exists l. split; [exact Hl |]. rewrite Hkey, <- Hq, Hqh, <- Hf, String.eqb_refl.
      rewrite !andb_true_r. unfold bucket_window.
      unfold postgres.bucket_in in Hb. revert Hb.
      change (postgres.time_bucket time.Hour (AuditLog.Timestamp l))
        with (event_key l).1.1.1.1.
      change (AuditLog.TenantID l) with (event_key l).1.1.1.2.
      rewrite Hkey. tauto.
    + intros (l & Hl & Hp). apply andb_true_iff in Hp. destruct Hp as [Hp Hk].
      apply andb_true_iff in Hp. destruct Hp as [Hb Hql].
      destruct (hourly_stats_of_event _ _ Hl) as (h & Hh & Hkey).
      exists h. split.
      * rewrite Hf, Hkey. apply String.eqb_eq in Hk. rewrite Hk. reflexivity.
      * apply filter_In. split; [| rewrite Hq, Hkey; exact Hql].
        apply filter_In. split; [exact Hh |].
        unfold postgres.bucket_in. unfold bucket_window in Hb. revert Hb.
        change (postgres.time_bucket time.Hour (AuditLog.Timestamp l))
          with (event_key l).1.1.1.1.
        change (AuditLog.TenantID l) with (event_key l).1.1.1.2.
        rewrite <- Hkey. tauto.
  - intros c2 k Hne. split.
    + unfold postgres.total, branch.
      induction (List.filter q sel) as [| h hs IH]; [reflexivity |].
      cbn [map List.filter fst]. rewrite bool_decide_eq_false_2 by congruence. exact IH.
    + unfold branch. rewrite map_map. cbn [fst]. rewrite in_map_iff.
      intros (h & Heq & _). congruence.
Qed.

Lemma In_rows_in_results c k n (gs : list (string * string * Z)) :
  In (k, n) (rows_in c (map (fun '(c, k, n) => postgres.countResult.mk c k n) gs))
  <-> In (c, k, n) gs.
Proof.
  unfold rows_in. rewrite in_map_iff. split.
  - intros (r & [= <- <-] & Hr). apply filter_In in Hr. destruct Hr as [Hr Hc].
    apply in_map_iff in Hr. destruct Hr as ([[c' k'] n'] & <- & Hin).
    cbn in Hc. apply String.eqb_eq in Hc. subst c'. exact Hin.
  - intros Hin. exists (postgres.countResult.mk c k n). split; [reflexivity |].
    apply filter_In. split; [| cbn; apply String.eqb_refl].
    apply in_map_iff. exists (c, k, n). split; [reflexivity | exact Hin].
Qed.

Lemma In_keys_rows_in_results c k (gs : list (string * string * Z)) :
  In k (map fst (rows_in c (map (fun '(c, k, n) => postgres.countResult.mk c k n) gs)))
  <-> In (c, k) (map fst gs).
Proof.
  rewrite !in_map_iff. split.
  - intros ([k' n] & Hk & Hin). cbn in Hk. subst k'.
    apply In_rows_in_results in Hin. exists (c, k, n). split; [reflexivity | exact Hin].
  - intros ([[c' k'] n] & [= -> ->] & Hin). exists (k, n). split; [reflexivity |].
    apply In_rows_in_results. exact Hin.
Qed.

Lemma filter_all {A} (l : list A) : List.filter (fun _ => true) l = l.
Proof. induction l as [| x l IH]; [reflexivity |]. cbn. rewrite IH. reflexivity. Qed.

Lemma tally_ext p p' f table k :
  (forall l, p l = p' l) -> tally p f table k = tally p' f table k.
Proof.
  intros H. unfold tally. erewrite filter_ext_in; [reflexivity |].
  intros l. cbv beta. rewrite H. reflexivity.
Qed.

(** Filing the rows of a category that one branch of the hourly query
    feeds, the other two branches carrying other categories. *)
Lemma hourly_category (c : string) (count : string -> Z)
    (t : list (string * string * Z)) (k : string) :
  (postgres.total (c, k) t = count k) ->
  (In (c, k) (map fst t) <-> 0 < count k) ->
  file_rows ∅ (rows_in c (map (fun '(c, k, n) => postgres.countResult.mk c k n)
                              (postgres.group_sum t))) !! k
  = if 0 <? count k then Some (count k) else None.
Proof.
  intros Htotal Hin. destruct (Z.ltb_spec 0 (count k)) as [Hpos | Hzero].
  - apply file_rows_present.
    + intros n Hn. apply In_rows_in_results, In_group_sum in Hn.
      destruct Hn as [_ ->]. exact Htotal.
    + left. apply In_keys_rows_in_results. rewrite group_sum_keys.
      apply In_remove_dups, Hin, Hpos.
  - rewrite file_rows_absent; [apply lookup_empty |].
    rewrite In_keys_rows_in_results, group_sum_keys, In_remove_dups, Hin. lia.
Qed.

Lemma hourly_query_maps table tenantID startTime endTime :
  let stats := foldl postgres.file_result (AuditLogStats.mk 0 ∅ ∅ ∅)
                 (postgres.hourly_query table tenantID startTime endTime) in
  let p := bucket_window tenantID startTime endTime in
  (forall k, AuditLogStats.ActionCounts stats !! k = tally p AuditLog.Action table k)
  /\ (forall k, AuditLogStats.SeverityCounts stats !! k = tally p AuditLog.Severity table k)
  /\ (forall k, AuditLogStats.ResourceCounts stats !! k
                = tally (fun l => p l && nonempty (AuditLog.ResourceType l))
                        AuditLog.ResourceType table k).
Proof.
  cbv zeta.
  destruct (file_result_maps (postgres.hourly_query table tenantID startTime endTime)
              (AuditLogStats.mk 0 ∅ ∅ ∅)) as (Ha & Hs & Hr & _).
  rewrite Ha, Hs, Hr. cbn [AuditLogStats.ActionCounts AuditLogStats.SeverityCounts
                           AuditLogStats.ResourceCounts].
  unfold postgres.hourly_query. cbv zeta.
  set (sel := List.filter (postgres.bucket_in tenantID startTime endTime)
                          (postgres.audit_logs_hourly_stats table)).
  pose proof (hourly_branch "action" postgres.HourlyStat.action (fun _ => true)
                (fun key => key.1.1.2) (fun _ => true) table tenantID startTime endTime
                (fun h => eq_refl) (fun h => eq_refl)) as (HAt & HAi & HAo).
  pose proof (hourly_branch "severity" postgres.HourlyStat.severity (fun _ => true)
                (fun key => key.1.2) (fun _ => true) table tenantID startTime endTime
                (fun h => eq_refl) (fun h => eq_refl)) as (HSt & HSi & HSo).
  pose proof (hourly_branch "resource_type" postgres.HourlyStat.resource_type
                (fun h => nonempty (postgres.HourlyStat.resource_type h))
                (fun key => key.2) (fun key => nonempty key.2)
                table tenantID startTime endTime
                (fun h => eq_refl) (fun h => eq_refl)) as (HRt & HRi & HRo).
  fold sel in HAt, HAi, HAo, HSt, HSi, HSo, HRt, HRi, HRo.
  rewrite filter_all in HAt, HAi, HAo, HSt, HSi, HSo.
  set (A := map (fun h => ("action", postgres.HourlyStat.action h,
                           postgres.HourlyStat.count h))
                sel) in *.
  set (S := map (fun h => ("severity", postgres.HourlyStat.severity h,
                           postgres.HourlyStat.count h))
                sel) in *.
  set (R := map (fun h => ("resource_type", postgres.HourlyStat.resource_type h,
                           postgres.HourlyStat.count h))
                (List.filter (fun h => nonempty (postgres.HourlyStat.resource_type h)) sel))
    in *.
  assert (Hkeys : forall key, In key (map fst (A ++ S ++ R))
                              <-> In key (map fst A) \/ In key (map fst S)
                                  \/ In key (map fst R)).
  { intros key. rewrite !map_app, !in_app_iff. reflexivity. }
  repeat split; intros k.
  - rewrite (tally_ext _ (fun l => bucket_window tenantID startTime endTime l && true))
      by (intros l; rewrite andb_true_r; reflexivity).
    unfold tally.
    apply (hourly_category "action"
             (fun k => Z.of_nat (length (List.filter
                (fun l => (bucket_window tenantID startTime endTime l && true)
                          && String.eqb (AuditLog.Action l) k) table)))).
    + rewrite !total_app, HAt.
      rewrite (proj1 (HSo "action" k ltac:(discriminate))).
      rewrite (proj1 (HRo "action" k ltac:(discriminate))). rewrite !Z.add_0_r.
      reflexivity.
    + rewrite Hkeys, HAi.
      pose proof (proj2 (HSo "action" k ltac:(discriminate))).
      pose proof (proj2 (HRo "action" k ltac:(discriminate))). tauto.
  - rewrite (tally_ext _ (fun l => bucket_window tenantID startTime endTime l && true))
      by (intros l; rewrite andb_true_r; reflexivity).
    unfold tally.
    apply (hourly_category "severity"
             (fun k => Z.of_nat (length (List.filter
                (fun l => (bucket_window tenantID startTime endTime l && true)
                          && String.eqb (AuditLog.Severity l) k) table)))).
    + rewrite !total_app, HSt.
      rewrite (proj1 (HAo "severity" k ltac:(discriminate))).
      rewrite (proj1 (HRo "severity" k ltac:(discriminate))). rewrite !Z.add_0_r.
      reflexivity.
    + rewrite Hkeys, HSi.
      pose proof (proj2 (HAo "severity" k ltac:(discriminate))).
      pose proof (proj2 (HRo "severity" k ltac:(discriminate))). tauto.
  - unfold tally.
    apply (hourly_category "resource_type"
             (fun k => Z.of_nat (length (List.filter
                (fun l => (bucket_window tenantID startTime endTime l
                           && nonempty (AuditLog.ResourceType l))
                          && String.eqb (AuditLog.ResourceType l) k) table)))).
    + rewrite !total_app, HRt.
      rewrite (proj1 (HAo "resource_type" k ltac:(discriminate))).
      rewrite (proj1 (HSo "resource_type" k ltac:(discriminate))). reflexivity.
    + rewrite Hkeys, HRi.
      pose proof (proj2 (HAo "resource_type" k ltac:(discriminate))).
      pose proof (proj2 (HSo "resource_type" k ltac:(discriminate))). tauto.
Qed.

(** *** Windows on whole hours *)

Lemma bucket_start_le (s ts : Z) :
  s mod 3600000000000 = 0 ->
  s <= 3600000000000 * (ts / 3600000000000) <-> s <= ts.
Proof.
  intros Hs.
  pose proof (Z.div_mod ts 3600000000000 ltac:(lia)).
  pose proof (Z.mod_pos_bound ts 3600000000000 ltac:(lia)).
  pose proof (Z.div_mod s 3600000000000 ltac:(lia)).
  rewrite Hs in *.
  set (q := ts / 3600000000000) in *. set (r := ts mod 3600000000000) in *.
  set (qs := s / 3600000000000) in *.
  lia.
Qed.

Lemma bucket_start_lt (e ts : Z) :
  e mod 3600000000000 = 0 ->
  3600000000000 * (ts / 3600000000000) < e <-> ts < e.
Proof.
  intros He.
  pose proof (Z.div_mod ts 3600000000000 ltac:(lia)).
  pose proof (Z.mod_pos_bound ts 3600000000000 ltac:(lia)).
  pose proof (Z.div_mod e 3600000000000 ltac:(lia)).
  rewrite He in *.
  set (q := ts / 3600000000000) in *. set (r := ts mod 3600000000000) in *.
  set (qe := e / 3600000000000) in *.
  lia.
Qed.

Lemma aligned_window tenantID startTime endTime l :
  hour_aligned startTime -> hour_aligned endTime ->
  bucket_window tenantID startTime endTime l
  = postgres.timestamp_in tenantID startTime endTime l.
Proof.
  unfold hour_aligned, bucket_window, postgres.timestamp_in, postgres.time_bucket.
  change time.Hour with 3600000000000. intros Hs He.
  set (ts := AuditLog.Timestamp l).
  assert (H1 : (startTime <=? 3600000000000 * (ts / 3600000000000)) = (startTime <=? ts)).
  { apply eq_true_iff_eq. rewrite !Z.leb_le. apply bucket_start_le, Hs. }
  assert (H2 : (3600000000000 * (ts / 3600000000000) <? endTime) = (ts <? endTime)).
  { apply eq_true_iff_eq. rewrite !Z.ltb_lt. apply bucket_start_lt, He. }
  rewrite H1, H2. reflexivity.
Qed.

Lemma Sub_within t u (d : Z) :
  time.minDuration <= d < time.maxDuration ->
  (time.Sub t u <=? d) = (t - u <=? d).
Proof.
  unfold time.Sub, time.minDuration, time.maxDuration. cbv zeta.
  change (2 ^ 63) with 9223372036854775808. intros Hd.
  apply eq_true_iff_eq. rewrite !Z.leb_le.
  destruct (Z.ltb_spec (t - u) (- (9223372036854775808))); [lia |].
  destruct (Z.ltb_spec (9223372036854775808 - 1) (t - u)); lia.
Qed.

(** [GetStats] computes the statistics of the hourly strategy when the
    window is at most 24 hours long and those of the base strategy
    otherwise. *)
Lemma GetStats_routed env ctx filter w :
  AuditLogFilter.StartTime filter <> 0 ->
  AuditLogFilter.EndTime filter <> 0 ->
  AuditLogFilter.TenantID filter <> "" ->
  is_ok (utils.GetTenantIDFromContext ctx) = true ->
  pg_fails env (tick w) = false ->
  pg_fails env (S (tick w)) = false ->
  (postgres.GetStats env ctx filter w).1
  = Ok (stats_by (AuditLogFilter.EndTime filter - AuditLogFilter.StartTime filter
                  <=? 24 * time.Hour)
                 (audit_logs w) (AuditLogFilter.TenantID filter)
                 (AuditLogFilter.StartTime filter) (AuditLogFilter.EndTime filter)).
Proof.
  intros Hs He Hten Hctx Hpg1 Hpg2. unfold postgres.GetStats, time.IsZero.
  apply Z.eqb_neq in Hs, He. rewrite Hs, He. cbn [orb].
  apply nonempty_true in Hten. rewrite Hten.
  unfold postgres.getTenantScope.
  destruct (utils.GetTenantIDFromContext ctx) as [t |]; [| discriminate].
  rewrite Sub_within by (vm_compute; split; [discriminate | reflexivity]).
  unfold postgres.Raw, postgres.RawCount, stats_by. rewrite Hpg1.
  destruct (_ - _ <=? 24 * time.Hour); cbn [tick call audit_logs fst snd];
    rewrite Hpg2; reflexivity.
Qed.

(** *** The statistics of a tenant do not depend on other tenants *)

Lemma map_filter_comm {A B} (f : A -> B) (P : B -> bool) (l : list A) :
  map f (List.filter (fun x => P (f x)) l) = List.filter P (map f l).
Proof.
  induction l as [| x l IH]; [reflexivity |]. cbn [map List.filter].
  destruct (P (f x)); cbn [map]; rewrite IH; reflexivity.
Qed.

Lemma filter_implied {A} (p q : A -> bool) (l : list A) :
  (forall x, q x = true -> p x = true) ->
  List.filter q (List.filter p l) = List.filter q l.
Proof.
  intros H. rewrite filter_filter. apply filter_ext_in. intros x.
  destruct (q x) eqn:E; [rewrite (H x E); reflexivity | apply andb_false_r].
Qed.

Lemma hourly_selection_groups tenantID startTime endTime
    (g : time.Time * string * string * string * string -> Z) D :
  List.filter (postgres.bucket_in tenantID startTime endTime)
              (map (fun key => stat_of (key, g key)) D)
  = map (fun key => stat_of (key, g key))
        (List.filter (fun key => String.eqb key.1.1.1.2 tenantID
                                 && (startTime <=? key.1.1.1.1)
                                 && (key.1.1.1.1 <? endTime)) D).
Proof.
  induction D as [| key D IH]; [reflexivity |]. cbn [map List.filter].
  replace (postgres.bucket_in tenantID startTime endTime (stat_of (key, g key)))
    with (String.eqb key.1.1.1.2 tenantID && (startTime <=? key.1.1.1.1)
          && (key.1.1.1.1 <? endTime))
    by (destruct key as [[[[b t] a] s] r]; reflexivity).
  destruct (_ && _ && _); cbn [map]; rewrite IH; reflexivity.
Qed.

Lemma hourly_selection_of_tenant table tenantID startTime endTime :
  List.filter (postgres.bucket_in tenantID startTime endTime)
              (postgres.audit_logs_hourly_stats (rows_of_tenant tenantID table))
  = List.filter (postgres.bucket_in tenantID startTime endTime)
                (postgres.audit_logs_hourly_stats table).
Proof.
  rewrite !hourly_stats_alt. unfold postgres.group_count, rows_of_tenant.
  set (own := fun key : time.Time * string * string * string * string =>
                String.eqb key.1.1.1.2 tenantID).
  change (List.filter (fun r => String.eqb (AuditLog.TenantID r) tenantID) table)
    with (List.filter (fun r => own (event_key r)) table).
  rewrite map_filter_comm. set (L := map event_key table).
  rewrite !map_map, remove_dups_filter.
  rewrite (hourly_selection_groups tenantID startTime endTime
             (fun key => postgres.occurrences key (List.filter own L))).
  rewrite (hourly_selection_groups tenantID startTime endTime
             (fun key => postgres.occurrences key L)).
  assert (Hown : forall key,
            String.eqb key.1.1.1.2 tenantID && (startTime <=? key.1.1.1.1)
            && (key.1.1.1.1 <? endTime) = true -> own key = true).
  { intros key Hkey. unfold own.
    apply andb_true_iff in Hkey. destruct Hkey as [Hkey _].
    apply andb_true_iff in Hkey. tauto. }
  rewrite filter_implied by exact Hown.
  apply map_ext_in. intros key Hkey. apply filter_In in Hkey.
  destruct Hkey as [_ Hkey]. rewrite occurrences_filter; [reflexivity |].
  apply Hown, Hkey.
Qed.

Lemma base_selection_of_tenant table tenantID startTime endTime :
  List.filter (postgres.timestamp_in tenantID startTime endTime)
              (rows_of_tenant tenantID table)
  = List.filter (postgres.timestamp_in tenantID startTime endTime) table.
Proof.
  apply filter_implied. intros l H. unfold postgres.timestamp_in in H.
  apply andb_true_iff in H. destruct H as [H _].
  apply andb_true_iff in H. tauto.
Qed.

(** Either strategy computes from the rows of the tenant alone. *)
Lemma stats_of_tenant hourly table tenantID startTime endTime :
  stats_by hourly (rows_of_tenant tenantID table) tenantID startTime endTime
  = stats_by hourly table tenantID startTime endTime.
Proof.
  unfold stats_by, postgres.hourly_total, postgres.base_total,
    postgres.hourly_query, postgres.base_query. cbv zeta.
  rewrite hourly_selection_of_tenant, base_selection_of_tenant. reflexivity.
Qed.

(** *** The two strategies *)

(** C4, counterexample: an event at 10:30 and the window from 10:15 to 11:15.
    The event's bucket starts at 10:00, before the window, so the hourly
    strategy counts nothing where the base strategy counts the event. *)
Lemma stats_strategies_agree_fails : ~ stats_strategies_agree.
Proof.
  intros H.
  specialize (H [event "log-1" tenant_a (at_hm 10 30)] tenant_a
                (at_hm 10 15) (at_hm 11 15)).
  apply (f_equal (fun stats => AuditLogStats.ActionCounts stats !! "CREATE")) in H.
  vm_compute in H. discriminate.
Qed.

(** The total of the hourly strategy is the number of rows of the hourly
    statistics in the window, not the number of events: two events of one
    hour with the same action, severity and resource type make one row. *)
Lemma hourly_total_counts_groups :
  let table := [event "log-1" tenant_a (at_hm 10 10);
                event "log-2" tenant_a (at_hm 10 20)] in
  AuditLogStats.TotalLogs (stats_by true table tenant_a (at_hm 10 0) (at_hm 11 0)) = 1
  /\ AuditLogStats.ActionCounts
       (stats_by true table tenant_a (at_hm 10 0) (at_hm 11 0)) !! "CREATE" = Some 2
  /\ AuditLogStats.TotalLogs (stats_by false table tenant_a (at_hm 10 0) (at_hm 11 0)) = 2.
Proof. vm_compute. repeat split. Qed.

(** C4, amended.  [GetStats] computes by the hourly strategy when the window
    is at most 24 hours long and by the base strategy otherwise; and when
    the window starts and ends on whole hours the two strategies yield the
    same counts per action, per severity and per resource type. *)
Theorem stats_counts_agree_on_whole_hours :
  (forall env ctx filter w,
     AuditLogFilter.StartTime filter <> 0 ->
     AuditLogFilter.EndTime filter <> 0 ->
     AuditLogFilter.TenantID filter <> "" ->
     is_ok (utils.GetTenantIDFromContext ctx) = true ->
     pg_fails env (tick w) = false ->
     pg_fails env (S (tick w)) = false ->
     (postgres.GetStats env ctx filter w).1
     = Ok (stats_by (AuditLogFilter.EndTime filter - AuditLogFilter.StartTime filter
                     <=? 24 * time.Hour)
                    (audit_logs w) (AuditLogFilter.TenantID filter)
                    (AuditLogFilter.StartTime filter) (AuditLogFilter.EndTime filter)))
  /\ (forall table tenantID startTime endTime,
        hour_aligned startTime -> hour_aligned endTime ->
        AuditLogStats.ActionCounts (stats_by true table tenantID startTime endTime)
        = AuditLogStats.ActionCounts (stats_by false table tenantID startTime endTime)
        /\ AuditLogStats.SeverityCounts (stats_by true table tenantID startTime endTime)
           = AuditLogStats.SeverityCounts (stats_by false table tenantID startTime endTime)
        /\ AuditLogStats.ResourceCounts (stats_by true table tenantID startTime endTime)
           = AuditLogStats.ResourceCounts (stats_by false table tenantID startTime endTime)).
Proof.
  split; [exact GetStats_routed |].
  intros table tenantID startTime endTime Hs He.
  destruct (hourly_query_maps table tenantID startTime endTime) as (Ha & Hv & Hr).
  destruct (base_query_maps table tenantID startTime endTime) as (Ha' & Hv' & Hr').
  cbv zeta in *. unfold stats_by, postgres.set_TotalLogs.
  cbn [AuditLogStats.ActionCounts AuditLogStats.SeverityCounts
       AuditLogStats.ResourceCounts].
  repeat split; apply map_eq; intros k.
  - rewrite Ha, Ha'. apply tally_ext. intros l. apply aligned_window; assumption.
  - rewrite Hv, Hv'. apply tally_ext. intros l. apply aligned_window; assumption.
  - rewrite Hr, Hr'. apply tally_ext. intros l.
    rewrite aligned_window by assumption. reflexivity.
Qed.

Lemma stats_counts_agree_on_whole_hours_witness :
  let table := [event "log-1" tenant_a (at_hm 10 10);
                event "log-2" tenant_a (at_hm 10 20);
                event "log-3" tenant_b (at_hm 10 30);
                event "log-4" tenant_a (at_hm 12 0)] in
  let w := set_audit_logs table empty_world in
  let ctx := api.RequestCtx (request_of tenant_a ∅ ∅ gin.Malformed) in
  (postgres.GetStats quiet ctx (stats_filter tenant_a (at_hm 10 0) (at_hm 13 0)) w).1
  = Ok (stats_by true table tenant_a (at_hm 10 0) (at_hm 13 0))
  /\ (postgres.GetStats quiet ctx (stats_filter tenant_a (at_hm 10 0) (at_hm 58 0)) w).1
     = Ok (stats_by false table tenant_a (at_hm 10 0) (at_hm 58 0))
  /\ (AuditLogStats.ActionCounts (stats_by true table tenant_a (at_hm 10 0) (at_hm 13 0))
      = AuditLogStats.ActionCounts (stats_by false table tenant_a (at_hm 10 0) (at_hm 13 0))
      /\ AuditLogStats.SeverityCounts (stats_by true table tenant_a (at_hm 10 0) (at_hm 13 0))
         = AuditLogStats.SeverityCounts (stats_by false table tenant_a (at_hm 10 0) (at_hm 13 0))
      /\ AuditLogStats.ResourceCounts (stats_by true table tenant_a (at_hm 10 0) (at_hm 13 0))
         = AuditLogStats.ResourceCounts
             (stats_by false table tenant_a (at_hm 10 0) (at_hm 13 0))).
Proof.
  intros table w ctx. split; [| split].
  - apply (proj1 stats_counts_agree_on_whole_hours quiet ctx
             (stats_filter tenant_a (at_hm 10 0) (at_hm 13 0)) w);
      reflexivity || discriminate.
  - apply (proj1 stats_counts_agree_on_whole_hours quiet ctx
             (stats_filter tenant_a (at_hm 10 0) (at_hm 58 0)) w);
      reflexivity || discriminate.
  - apply (proj2 stats_counts_agree_on_whole_hours table tenant_a
             (at_hm 10 0) (at_hm 13 0)); reflexivity.
Defined.

(** *** The handlers *)

Lemma FromAuditLog_TenantID log :
  dto.AuditLogResponse.TenantID (dto.FromAuditLog log) = AuditLog.TenantID log.
Proof. reflexivity. Qed.

Lemma FromAuditLogs_tenant tenantID logs :
  (forall log, In log logs -> AuditLog.TenantID log = tenantID) ->
  Forall (fun r => dto.AuditLogResponse.TenantID r = tenantID) (dto.FromAuditLogs logs).
Proof.
  intros H. unfold dto.FromAuditLogs. apply List.Forall_forall. intros r Hr.
  apply in_map_iff in Hr as (log & <- & Hlog). rewrite FromAuditLog_TenantID.
  apply H, Hlog.
Qed.

Lemma service_GetByID_tenant env ctx id w log w' tenantID :
  utils.GetTenantIDFromContext ctx = Ok tenantID ->
  service.GetByID env ctx id w = (Ok (Some log), w') ->
  dto.AuditLogResponse.TenantID log = tenantID.
Proof.
  intros Hctx. unfold service.GetByID.
  destruct (postgres.GetByID env ctx id w) as [[row | err] w1] eqn:Hget;
    [| discriminate].
  intros [= <- _]. apply GetByID_tenant in Hget as [Hten _].
  rewrite Hctx in Hten. injection Hten as ->. reflexivity.
Qed.

Lemma service_List_tenant env ctx filter usePagination w logs w' tenantID :
  indexed_by_tenant env (indices w) ->
  is_uuid tenantID = true ->
  utils.GetTenantIDFromContext ctx = Ok tenantID ->
  AuditLogFilter.TenantID filter = tenantID ->
  service.List env ctx filter usePagination w = (Ok logs, w') ->
  Forall (fun r => dto.AuditLogResponse.TenantID r = tenantID) logs.
Proof.
  intros Hix Huuid Hctx Hf. unfold service.List, service.List_routed.
  destruct (service.hasSearchCriteria (service.paginate filter)).
  - destruct (opensearch.Search env ctx (service.paginate filter) w)
      as [[rows | err] w1] eqn:Hs; [| discriminate].
    intros [= <- _]. apply FromAuditLogs_tenant.
    exact (Search_tenant _ _ _ _ _ _ _ Hix Huuid Hctx Hs).
  - destruct (postgres.List env ctx (service.paginate filter) w)
      as [[rows | err] w1] eqn:Hl; [| discriminate].
    intros [= <- _]. apply FromAuditLogs_tenant. intros log Hlog.
    destruct (List_tenant _ _ _ _ _ _ Hl log Hlog) as [-> _].
    rewrite paginate_TenantID. exact Hf.
Qed.

Lemma GetStats_of_tenant env ctx filter w :
  (postgres.GetStats env ctx filter
     (world_of_tenant (AuditLogFilter.TenantID filter) w)).1
  = (postgres.GetStats env ctx filter w).1
  \/ AuditLogFilter.TenantID filter = "".
Proof.
  destruct (nonempty (AuditLogFilter.TenantID filter)) eqn:Hten;
    [left | right; apply nonempty_false, Hten].
  unfold postgres.GetStats. rewrite Hten.
  destruct (_ || _); [reflexivity |].
  destruct (postgres.getTenantScope ctx); [| reflexivity].
  unfold world_of_tenant, postgres.Raw, postgres.RawCount.
  cbn [tick set_audit_logs audit_logs].
  assert (Hq : postgres.hourly_query
                 (rows_of_tenant (AuditLogFilter.TenantID filter) (audit_logs w))
                 (AuditLogFilter.TenantID filter) (AuditLogFilter.StartTime filter)
                 (AuditLogFilter.EndTime filter)
               = postgres.hourly_query (audit_logs w)
                   (AuditLogFilter.TenantID filter) (AuditLogFilter.StartTime filter)
                   (AuditLogFilter.EndTime filter)).
  { unfold postgres.hourly_query. cbv zeta.
    rewrite hourly_selection_of_tenant. reflexivity. }
  assert (Hb : postgres.base_query
                 (rows_of_tenant (AuditLogFilter.TenantID filter) (audit_logs w))
                 (AuditLogFilter.TenantID filter) (AuditLogFilter.StartTime filter)
                 (AuditLogFilter.EndTime filter)
               = postgres.base_query (audit_logs w)
                   (AuditLogFilter.TenantID filter) (AuditLogFilter.StartTime filter)
                   (AuditLogFilter.EndTime filter)).
  { unfold postgres.base_query. cbv zeta.
    rewrite base_selection_of_tenant. reflexivity. }
  rewrite Hq, Hb.
  destruct (time.Sub _ _ <=? 24 * time.Hour);
    destruct (pg_fails env (tick w)); cbn [tick call audit_logs set_audit_logs fst snd];
    try reflexivity;
    destruct (pg_fails env (S (tick w))); cbn [fst snd]; try reflexivity.
  - unfold postgres.hourly_total. rewrite hourly_selection_of_tenant. reflexivity.
  - unfold postgres.base_total. rewrite base_selection_of_tenant. reflexivity.
Qed.

Lemma api_GetStats_of_tenant env c w :
  (api.GetStats env c (world_of_tenant (gin.GetString c utils.TenantIDKey) w)).1
  = (api.GetStats env c w).1.
Proof.
  unfold api.GetStats.
  destruct (api.getFilterFromQuery env c) as [filter | err] eqn:Hf; [| reflexivity].
  pose proof (getFilterFromQuery_TenantID _ _ _ Hf) as Hten.
  assert (Hne : AuditLogFilter.TenantID filter <> "").
  { rewrite Hten. unfold api.getFilterFromQuery in Hf.
    destruct (nonempty (gin.GetString c utils.TenantIDKey)) eqn:Hn;
      [| discriminate].
    intros Heq. rewrite Heq in Hn. discriminate. }
  destruct (GetStats_of_tenant env (api.RequestCtx c) filter w) as [Hs | He];
    [| contradiction].
  rewrite <- Hten. unfold service.GetStatsV2.
  destruct (postgres.GetStats env (api.RequestCtx c) filter
              (world_of_tenant (AuditLogFilter.TenantID filter) w)) as [r1 w1].
  destruct (postgres.GetStats env (api.RequestCtx c) filter w) as [r2 w2].
  cbn [fst] in Hs. subst r2. destruct r1; reflexivity.
Qed.

(** C1.  For a request that passed authentication with a token of tenant
    [tenantID] (a UUID), over a search index that files every document under
    its own tenant: the record [GetLog] returns and every record [ListLogs]
    and [ExportLogs] return carry that tenant; the answer of [GetStats] is
    the answer over the store without the rows of other tenants; the client
    [HandleWebSocket] registers carries that tenant; and the hub leaves a
    client whose tenant differs from the message's as it was, while every
    message it hands to a client carries the client's tenant. *)
Theorem tenant_isolation env claims tenantID c0 w :
  claims !! utils.TenantIDKey = Some (utils.AnyString tenantID) ->
  is_uuid tenantID = true ->
  indexed_by_tenant env (indices w) ->
  let c := AuthMiddleware.set_claims claims c0 in
  records_of_tenant tenantID (api.GetLog env c w).1
  /\ records_of_tenant tenantID (api.ListLogs env c w).1
  /\ records_of_tenant tenantID (api.ExportLogs env c w).1
  /\ (api.GetStats env c (world_of_tenant tenantID w)).1 = (api.GetStats env c w).1
  /\ (forall client,
        WebSocketHandler.HandleWebSocket c = WebSocketHandler.Registers client ->
        WebSocketHandler.Client.tenantID client = tenantID)
  /\ (forall log h,
        (forall addr client,
           WebSocketHandler.clients h !! addr = Some client ->
           WebSocketHandler.Client.tenantID client <> dto.AuditLogResponse.TenantID log ->
           WebSocketHandler.clients (WebSocketHandler.handlePubSubMessage log h) !! addr
           = Some client)
        /\ (forall addr client',
              WebSocketHandler.clients (WebSocketHandler.handlePubSubMessage log h) !! addr
              = Some client' ->
              exists client delivered,
                WebSocketHandler.clients h !! addr = Some client
                /\ WebSocketHandler.Client.tenantID client'
                   = WebSocketHandler.Client.tenantID client
                /\ WebSocketHandler.Client.send client'
                   = WebSocketHandler.Client.send client ++ delivered
                /\ Forall (fun m => m = log
                                    /\ WebSocketHandler.Client.tenantID client
                                       = dto.AuditLogResponse.TenantID m) delivered)).
Proof.
  intros Hclaims Huuid Hix c.
  pose proof (set_claims_GetString claims tenantID c0 Hclaims) as Hkey.
  pose proof (set_claims_RequestCtx claims tenantID c0 Hclaims) as Hctx.
  fold c in Hkey, Hctx.
  repeat split.
  - unfold api.GetLog, records_of_tenant.
    destruct (service.GetByID env (api.RequestCtx c) (gin.Param c "id") w)
      as [[[log |] | err] w1] eqn:Hget; try exact I.
    exact (service_GetByID_tenant _ _ _ _ _ _ _ Hctx Hget).
  - unfold api.ListLogs, records_of_tenant.
    destruct (api.getFilterFromQuery env c) as [filter | err] eqn:Hf; [| exact I].
    destruct (service.List env (api.RequestCtx c) filter true w)
      as [[logs | err] w1] eqn:Hl; [| exact I].
    apply (service_List_tenant _ _ _ _ _ _ _ _ Hix Huuid Hctx) in Hl; [exact Hl |].
    rewrite (getFilterFromQuery_TenantID _ _ _ Hf). exact Hkey.
  - unfold api.ExportLogs, records_of_tenant.
    destruct (_ && _); [exact I |].
    destruct (api.getFilterFromQuery env c) as [filter | err] eqn:Hf; [| exact I].
    destruct (service.List env (api.RequestCtx c) filter false w)
      as [[logs | err] w1] eqn:Hl; [| exact I].
    apply (service_List_tenant _ _ _ _ _ _ _ _ Hix Huuid Hctx) in Hl; [exact Hl |].
    rewrite (getFilterFromQuery_TenantID _ _ _ Hf). exact Hkey.
  - rewrite <- Hkey. apply api_GetStats_of_tenant.
  - intros client Hreg. exact (HandleWebSocket_tenant _ _ _ _ Hclaims Hreg).
  - apply hub_routes_by_tenant.
  - apply hub_routes_by_tenant.
Qed.
Lemma tenant_isolation_witness :
  let w :=
    (opensearch.Index quiet (event "log-2" tenant_b 5)
       (set_audit_logs [event "log-1" tenant_a 5; event "log-2" tenant_b 5]
                       empty_world)).2 in
  let c := request_of tenant_a {[ "id" := "log-1" ]} ∅ gin.Malformed in
  (is_uuid tenant_a = true /\ indexed_by_tenant quiet (indices w))
  /\ (api.GetLog quiet c w).1
     = gin.JSON http.StatusOK
         (gin.JSONLog (dto.FromAuditLog (event "log-1" tenant_a 5)))
  /\ records_of_tenant tenant_a (api.GetLog quiet c w).1
  /\ records_of_tenant tenant_a (api.ListLogs quiet c w).1
  /\ records_of_tenant tenant_a (api.ExportLogs quiet c w).1
  /\ (api.GetStats quiet c (world_of_tenant tenant_a w)).1 = (api.GetStats quiet c w).1.
Proof.
  intros w c.
  assert (Hix : indexed_by_tenant quiet (indices w)).
  { apply Index_keeps; [reflexivity | apply indexed_by_tenant_empty]. }
  assert (Hclaims : ({[ utils.TenantIDKey := utils.AnyString tenant_a ]}
                       : gmap string utils.any) !! utils.TenantIDKey
                    = Some (utils.AnyString tenant_a)) by reflexivity.
  split; [split; [reflexivity | exact Hix] |].
  split; [reflexivity |].
  destruct (tenant_isolation quiet {[ utils.TenantIDKey := utils.AnyString tenant_a ]}
              tenant_a
              (gin.Context.mk ∅ ∅ {[ "id" := "log-1" ]} ∅ "10.0.0.1" gin.Malformed)
              w Hclaims eq_refl Hix) as (H1 & H2 & H3 & H4 & _).
  repeat split; assumption.
Defined.

(** * Further properties of the code *)

(** ** The primary-store repository *)

Lemma matches_if_Where_iff (b : bool) c db r :
  gorm.matches (if b then gorm.Where c db else db) r = true
  <-> gorm.matches db r = true /\ (b = true -> c r = true).
Proof.
  destruct b.
  - rewrite matches_Where, andb_true_iff. tauto.
  - split; [intros H; split; [exact H | discriminate] | tauto].
Qed.

Lemma latest_first_insert x l :
  latest_first l -> latest_first (gorm.insert_desc x l).
Proof.
  induction l as [| y l IH]; cbn [gorm.insert_desc latest_first].
  - intros _. split; [constructor | exact I].
  - intros [Hy Hl]. destruct (AuditLog.Timestamp y <? AuditLog.Timestamp x) eqn:Hlt.
    + apply Z.ltb_lt in Hlt. cbn [latest_first]. split; [| split; assumption].
      constructor; [lia |].
      eapply Forall_impl; [exact Hy |]. cbn. intros z Hz. lia.
    + apply Z.ltb_ge in Hlt. cbn [latest_first]. split; [| apply IH, Hl].
      apply List.Forall_forall. intros z Hz. apply In_insert_desc in Hz.
      destruct Hz as [-> | Hz]; [exact Hlt |].
      rewrite List.Forall_forall in Hy. apply Hy, Hz.
Qed.

Lemma latest_first_sort l : latest_first (gorm.sort_desc l).
Proof.
  unfold gorm.sort_desc. induction l as [| x l IH]; cbn [foldr].
  - exact I.
  - apply latest_first_insert, IH.
Qed.

Lemma latest_first_drop n : forall l, latest_first l -> latest_first (drop n l).
Proof.
  induction n as [| n IH]; intros [| x l]; cbn; try tauto.
  intros [_ Hl]. apply IH, Hl.
Qed.

Lemma latest_first_take n : forall l, latest_first l -> latest_first (take n l).
Proof.
  induction n as [| n IH]; intros [| x l]; cbn; try tauto.
  intros [Hx Hl]. split; [| apply IH, Hl].
  apply List.Forall_forall. intros y Hy. apply In_take in Hy.
  rewrite List.Forall_forall in Hx. apply Hx, Hy.
Qed.

Lemma limit_if_Where (b : bool) c db :
  gorm.limit (if b then gorm.Where c db else db) = gorm.limit db.
Proof. destruct b; reflexivity. Qed.

Lemma offset_if_Where (b : bool) c db :
  gorm.offset (if b then gorm.Where c db else db) = gorm.offset db.
Proof. destruct b; reflexivity. Qed.

(** The statement that [List] builds, by its effect. *)
Lemma List_statement env ctx filter w :
  AuditLogFilter.TenantID filter <> "" ->
  exists db,
    postgres.List env ctx filter w = gorm.Find env db w
    /\ (forall r, gorm.matches db r = true <-> passes filter r)
    /\ gorm.order_timestamp_desc db = true
    /\ gorm.limit db
       = (if 0 <? AuditLogFilter.Limit filter
          then Some (AuditLogFilter.Limit filter) else None)
    /\ gorm.offset db
       = (if 0 <? AuditLogFilter.Offset filter
          then Some (AuditLogFilter.Offset filter) else None).
Proof.
  intros Hten. unfold postgres.List.
  apply nonempty_true in Hten. rewrite Hten. cbn [negb].
  eexists. split; [reflexivity |]. split; [| split; [reflexivity | split]].
  - intros r. unfold gorm.Order.
    change (gorm.matches (gorm.mk (gorm.conds ?d) _ _ _) r) with (gorm.matches d r).
    rewrite matches_if_Offset, matches_if_Limit.
    rewrite !matches_if_Where_iff, matches_Where. unfold passes, gorm.col_eq.
    rewrite !negb_true_iff, !andb_true_iff, !String.eqb_eq, !Z.leb_le.
    unfold time.IsZero. rewrite !Z.eqb_neq, !nonempty_true.
    unfold gorm.matches. cbn [gorm.conds gorm.WithContext forallb]. tauto.
  - unfold gorm.Order. cbn [gorm.limit].
    destruct (0 <? AuditLogFilter.Offset filter), (0 <? AuditLogFilter.Limit filter);
      cbn [gorm.limit gorm.Offset gorm.Limit]; rewrite ?limit_if_Where; reflexivity.
  - unfold gorm.Order. cbn [gorm.offset].
    destruct (0 <? AuditLogFilter.Offset filter), (0 <? AuditLogFilter.Limit filter);
      cbn [gorm.offset gorm.Offset gorm.Limit]; rewrite ?offset_if_Where; reflexivity.
Qed.

Lemma select_ordered db table :
  gorm.order_timestamp_desc db = true -> latest_first (gorm.select db table).
Proof.
  intros Ho. unfold gorm.select. rewrite Ho.
  destruct (gorm.limit db), (gorm.offset db);
    repeat first [apply latest_first_take | apply latest_first_drop];
    apply latest_first_sort.
Qed.

Lemma select_limit db table n :
  gorm.limit db = Some n -> 0 < n ->
  Z.of_nat (length (gorm.select db table)) <= n.
Proof.
  intros Hl Hn. unfold gorm.select. rewrite Hl.
  rewrite length_take. lia.
Qed.

(** The rows [List] returns are rows of the table that satisfy the filter,
    latest first, and no more than the limit when one is set. *)
Theorem List_rows_pass env ctx filter w logs w' :
  postgres.List env ctx filter w = (Ok logs, w') ->
  (forall r, In r logs -> In r (audit_logs w) /\ passes filter r)
  /\ latest_first logs
  /\ (0 < AuditLogFilter.Limit filter ->
      Z.of_nat (length logs) <= AuditLogFilter.Limit filter).
Proof.
  intros HL.
  destruct (nonempty (AuditLogFilter.TenantID filter)) eqn:Hten.
  2:{ unfold postgres.List in HL. rewrite Hten in HL. discriminate. }
  apply nonempty_true in Hten.
  destruct (List_statement env ctx filter w Hten) as (db & Hdb & Hm & Ho & Hl & _).
  rewrite Hdb in HL. unfold gorm.Find in HL.
  destruct (pg_fails env (tick w)); [discriminate |].
  injection HL as <- <-. split; [| split].
  - intros r Hr. apply In_select in Hr. destruct Hr as [Hr Hp].
    split; [exact Hr | apply Hm, Hp].
  - apply select_ordered, Ho.
  - intros Hpos. apply select_limit; [| exact Hpos].
    rewrite Hl. apply Z.ltb_lt in Hpos. rewrite Hpos. reflexivity.
Qed.

Lemma List_rows_pass_witness :
  let table := [event "log-1" tenant_a 5; event "log-2" tenant_b 6;
                event "log-3" tenant_a 7; event "log-4" tenant_a 9] in
  let filter :=
    AuditLogFilter.set_Limit 2 (AuditLogFilter.set_TenantID tenant_a AuditLogFilter.zero) in
  (postgres.List quiet ∅ filter (set_audit_logs table empty_world)).1
  = Ok [event "log-4" tenant_a 9; event "log-3" tenant_a 7]
  /\ latest_first [event "log-4" tenant_a 9; event "log-3" tenant_a 7]
  /\ Z.of_nat (length [event "log-4" tenant_a 9; event "log-3" tenant_a 7]) <= 2.
Proof.
  intros table filter. split; [reflexivity |].
  destruct (List_rows_pass quiet ∅ filter (set_audit_logs table empty_world)
              [event "log-4" tenant_a 9; event "log-3" tenant_a 7]
              (call (PgSelect true 2) (set_audit_logs table empty_world)) eq_refl)
    as (_ & Hord & Hlen).
  split; [exact Hord | apply Hlen; reflexivity].
Defined.

(** Without limit and offset, [List] returns exactly the rows of the table
    that satisfy the filter. *)
Theorem List_complete env ctx filter w :
  AuditLogFilter.TenantID filter <> "" ->
  AuditLogFilter.Limit filter <= 0 ->
  AuditLogFilter.Offset filter <= 0 ->
  pg_fails env (tick w) = false ->
  exists logs,
    (postgres.List env ctx filter w).1 = Ok logs
    /\ (forall r, In r logs <-> In r (audit_logs w) /\ passes filter r).
Proof.
  intros Hten Hlim Hoff Hpg.
  destruct (List_statement env ctx filter w Hten) as (db & Hdb & Hm & Ho & Hl & Hf).
  apply Z.ltb_ge in Hlim, Hoff. rewrite Hlim in Hl. rewrite Hoff in Hf.
  rewrite Hdb. unfold gorm.Find. rewrite Hpg. eexists. split; [reflexivity |].
  intros r. unfold gorm.select. rewrite Ho, Hl, Hf.
  rewrite In_sort_desc, filter_In, Hm. tauto.
Qed.

Lemma List_complete_witness :
  let table := [event "log-1" tenant_a 5; event "log-2" tenant_b 6;
                event "log-3" tenant_a 7] in
  let filter := AuditLogFilter.set_TenantID tenant_a AuditLogFilter.zero in
  exists logs,
    (postgres.List quiet ∅ filter (set_audit_logs table empty_world)).1 = Ok logs
    /\ (forall r, In r logs <-> In r table /\ passes filter r).
Proof.
  intros table filter.
  apply (List_complete quiet ∅ filter (set_audit_logs table empty_world)).
  - discriminate.
  - cbn. lia.
  - cbn. lia.
  - reflexivity.
Defined.

(** *** Pages *)

Lemma paginate_fields filter :
  let f := service.paginate filter in
  AuditLogFilter.Page f = page_number filter
  /\ AuditLogFilter.PageSize f = page_size filter
  /\ AuditLogFilter.Limit f = page_size filter
  /\ AuditLogFilter.Offset f = wrap_int ((page_number filter - 1) * page_size filter).
Proof.
  unfold service.paginate, page_number, page_size. cbv zeta.
  destruct (AuditLogFilter.Page filter <? 1) eqn:Hp;
    destruct (AuditLogFilter.PageSize _ <? 1) eqn:Hs; cbn in *; rewrite ?Hs;
    repeat split; reflexivity.
Qed.

Lemma page_size_pos filter : 1 <= page_size filter.
Proof.
  unfold page_size. destruct (AuditLogFilter.PageSize filter <? 1) eqn:H; [lia |].
  apply Z.ltb_ge in H. exact H.
Qed.

Lemma page_number_pos filter : 1 <= page_number filter.
Proof.
  unfold page_number. destruct (AuditLogFilter.Page filter <? 1) eqn:H; [lia |].
  apply Z.ltb_ge in H. exact H.
Qed.

Lemma length_hits env q docs n :
  opensearch.size q = Some n -> 0 <= n ->
  Z.of_nat (length (opensearch.hits env q docs)) <= n.
Proof.
  intros Hs Hn. unfold opensearch.hits. rewrite Hs. cbn [default].
  rewrite length_take.
  match goal with |- context [Nat.min ?a ?b] => pose proof (Nat.le_min_l a b) end.
  rewrite <- (Z2Nat.id n) at 2 by exact Hn. apply Nat2Z.inj_le. assumption.
Qed.

Lemma List_limit env ctx filter w logs w' :
  postgres.List env ctx filter w = (Ok logs, w') ->
  0 < AuditLogFilter.Limit filter ->
  Z.of_nat (length logs) <= AuditLogFilter.Limit filter.
Proof.
  intros HL Hpos.
  destruct (nonempty (AuditLogFilter.TenantID filter)) eqn:Hten.
  2:{ unfold postgres.List in HL. rewrite Hten in HL. discriminate. }
  apply nonempty_true in Hten.
  destruct (List_statement env ctx filter w Hten) as (db & Hdb & _ & _ & Hl & _).
  rewrite Hdb in HL. unfold gorm.Find in HL.
  destruct (pg_fails env (tick w)); [discriminate |].
  injection HL as <- <-. apply select_limit; [| exact Hpos].
  rewrite Hl. apply Z.ltb_lt in Hpos. rewrite Hpos. reflexivity.
Qed.

Lemma buildSearchQuery_size filter :
  0 < AuditLogFilter.Page filter -> 0 < AuditLogFilter.PageSize filter ->
  opensearch.size (opensearch.buildSearchQuery filter)
  = Some (AuditLogFilter.PageSize filter)
  /\ opensearch.from (opensearch.buildSearchQuery filter)
     = Some (wrap_int ((AuditLogFilter.Page filter - 1) * AuditLogFilter.PageSize filter)).
Proof.
  intros Hp Hs. unfold opensearch.buildSearchQuery. cbv zeta.
  apply Z.ltb_lt in Hp, Hs. rewrite Hp, Hs. cbn [andb]. split; reflexivity.
Qed.

(** [service.List] never returns more than one page, on either backend and
    whatever [usePagination] is; so an export holds at most one page. *)
Theorem List_one_page :
  (forall env ctx filter usePagination w logs w',
     service.List env ctx filter usePagination w = (Ok logs, w') ->
     Z.of_nat (length logs) <= page_size filter)
  /\ (forall env c w logs,
        gin.Response.content (api.ExportLogs env c w).1 = gin.JSONLogs logs ->
        exists filter,
          api.getFilterFromQuery env c = Ok filter
          /\ Z.of_nat (length logs) <= page_size filter).
Proof.
  assert (H1 : forall env ctx filter usePagination w logs w',
     service.List env ctx filter usePagination w = (Ok logs, w') ->
     Z.of_nat (length logs) <= page_size filter).
  { intros env ctx filter up w logs w'. unfold service.List, service.List_routed.
    destruct (paginate_fields filter) as (Hp & Hs & Hl & _). cbv zeta in *.
    pose proof (page_size_pos filter) as Hpos.
    pose proof (page_number_pos filter) as Hnum.
    destruct (service.hasSearchCriteria (service.paginate filter)).
    - unfold opensearch.Search.
      destruct (utils.GetTenantIDFromContext ctx); [| discriminate].
      unfold opensearch.request. destruct (os_fails env (tick w)); [discriminate |].
      intros [= <- _]. unfold dto.FromAuditLogs. rewrite length_map.
      destruct (buildSearchQuery_size (service.paginate filter)) as [Hsz _];
        [rewrite Hp; lia | rewrite Hs; lia |].
      rewrite Hs in Hsz. apply (length_hits _ _ _ _ Hsz). lia.
    - destruct (postgres.List env ctx (service.paginate filter) w)
        as [[rows | err] w1] eqn:HL; [| discriminate].
      intros [= <- _]. unfold dto.FromAuditLogs. rewrite length_map.
      apply List_limit in HL; rewrite Hl in *; [exact HL | lia]. }
  split; [exact H1 |].
  intros env c w logs. unfold api.ExportLogs.
  destruct (_ && _); [discriminate |].
  destruct (api.getFilterFromQuery env c) as [filter | err]; [| discriminate].
  destruct (service.List env (api.RequestCtx c) filter false w)
    as [[rows | err] w1] eqn:HL; [| discriminate].
  cbn. intros [= <-]. exists filter. split; [reflexivity |].
  exact (H1 _ _ _ _ _ _ _ HL).
Qed.
Lemma List_one_page_witness :
  let table := [event "log-1" tenant_a (march_20 + 1);
                event "log-2" tenant_a (march_20 + 2);
                event "log-3" tenant_a (march_20 + 3)] in
  let w := set_audit_logs table empty_world in
  let c := request_of tenant_a ∅
             {[ "start_time" := "2024-03-20"; "end_time" := "2024-03-20";
                "page_size" := "2" ]} gin.Malformed in
  let page := dto.FromAuditLogs [event "log-3" tenant_a (march_20 + 3);
                                 event "log-2" tenant_a (march_20 + 2)] in
  ((service.List literate (api.RequestCtx c)
      (AuditLogFilter.set_PageSize 2
         (AuditLogFilter.set_TenantID tenant_a AuditLogFilter.zero)) true w).1
   = Ok page
   /\ Z.of_nat (length page) <= 2)
  /\ (gin.Response.content (api.ExportLogs literate c w).1 = gin.JSONLogs page
      /\ exists filter,
           api.getFilterFromQuery literate c = Ok filter
           /\ Z.of_nat (length page) <= page_size filter).
Proof.
  intros table w c page.
  assert (HL : service.List literate (api.RequestCtx c)
                 (AuditLogFilter.set_PageSize 2
                    (AuditLogFilter.set_TenantID tenant_a AuditLogFilter.zero)) true w
               = (Ok page, call (PgSelect true 2) w))
    by (vm_compute; reflexivity).
  assert (HE : gin.Response.content (api.ExportLogs literate c w).1 = gin.JSONLogs page)
    by (vm_compute; reflexivity).
  split.
  - split; [rewrite HL; reflexivity |].
    exact (proj1 List_one_page _ _ _ _ _ _ _ HL).
  - split; [exact HE |].
    exact (proj2 List_one_page literate c w page HE).
Defined.

Lemma wrap_int_small z : - 2 ^ 63 <= z < 2 ^ 63 -> wrap_int z = z.
Proof.
  intros Hz. unfold wrap_int. rewrite Z.mod_small; lia.
Qed.




(** *** Deletion *)

Lemma length_filter_split {A} (f : A -> bool) (l : list A) :
  (length (List.filter f l) + length (List.filter (fun x => negb (f x)) l)
   = length l)%nat.
Proof.
  induction l as [| x l IH]; [reflexivity |].
  cbn [List.filter]. destruct (f x); cbn [negb length]; lia.
Qed.

(** [DeleteBeforeDate] removes the rows of the tenant whose timestamp is
    before the date and no other row, keeps the rows of every other tenant
    as they were, and returns the number of rows removed; when the store
    fails nothing is removed. *)
Theorem DeleteBeforeDate_exact env ctx tenantID beforeDate w :
  let r := postgres.DeleteBeforeDate env ctx tenantID beforeDate w in
  if pg_fails env (tick w)
  then is_err r.1 = true /\ audit_logs r.2 = audit_logs w
  else
    (forall e,
       In e (audit_logs r.2)
       <-> In e (audit_logs w)
           /\ ~ (AuditLog.TenantID e = tenantID /\ AuditLog.Timestamp e < beforeDate))
    /\ r.1 = Ok (Z.of_nat (length (audit_logs w)) - Z.of_nat (length (audit_logs r.2)))
    /\ (forall other,
          other <> tenantID ->
          rows_of_tenant other (audit_logs r.2) = rows_of_tenant other (audit_logs w)).
Proof.
  cbv zeta. unfold postgres.DeleteBeforeDate, gorm.Delete.
  destruct (pg_fails env (tick w)); [split; reflexivity |].
  cbn [fst snd audit_logs call set_audit_logs].
  assert (Hm : forall e,
            gorm.matches
              (gorm.Where
                 (fun r => String.eqb (AuditLog.TenantID r) tenantID
                           && (AuditLog.Timestamp r <? beforeDate)) gorm.WithContext) e
            = String.eqb (AuditLog.TenantID e) tenantID
              && (AuditLog.Timestamp e <? beforeDate)).
  { intros e. rewrite matches_Where. reflexivity. }
  split; [| split].
  - intros e. rewrite filter_In, Hm, negb_true_iff, andb_false_iff.
    rewrite String.eqb_neq, Z.ltb_ge. split.
    + intros [Hin Hno]. split; [exact Hin |]. intros [Ht Hlt].
      destruct Hno as [Hno | Hno]; [contradiction | lia].
    + intros [Hin Hno]. split; [exact Hin |].
      destruct (decide (AuditLog.TenantID e = tenantID)) as [Ht | Ht];
        [| left; exact Ht].
      right. destruct (Z.lt_ge_cases (AuditLog.Timestamp e) beforeDate) as [Hlt | Hge];
        [exfalso; apply Hno; split; assumption | exact Hge].
  - f_equal.
    pose proof (length_filter_split
                  (gorm.matches
                     (gorm.Where
                        (fun r => String.eqb (AuditLog.TenantID r) tenantID
                                  && (AuditLog.Timestamp r <? beforeDate))
                        gorm.WithContext)) (audit_logs w)) as Hlen.
    lia.
  - intros other Hother. unfold rows_of_tenant. rewrite filter_filter.
    apply filter_ext_in. intros e. rewrite Hm.
    destruct (String.eqb (AuditLog.TenantID e) other) eqn:He;
      [| rewrite andb_false_r; reflexivity].
    apply String.eqb_eq in He.
    assert (Hne : String.eqb (AuditLog.TenantID e) tenantID = false)
      by (apply String.eqb_neq; congruence).
    rewrite Hne. reflexivity.
Qed.

Lemma DeleteBeforeDate_exact_witness :
  let w := set_audit_logs [event "log-1" tenant_a 5; event "log-2" tenant_b 5;
                           event "log-3" tenant_a 6] empty_world in
  let r := postgres.DeleteBeforeDate quiet ∅ tenant_a 6 w in
  r.1 = Ok 1
  /\ audit_logs r.2 = [event "log-2" tenant_b 5; event "log-3" tenant_a 6]
  /\ rows_of_tenant tenant_b (audit_logs r.2) = rows_of_tenant tenant_b (audit_logs w).
Proof.
  intros w r.
  pose proof (DeleteBeforeDate_exact quiet ∅ tenant_a 6 w) as H.
  cbv zeta in H. change (pg_fails quiet (tick w)) with false in H. cbv iota in H.
  destruct H as (_ & Hn & Hother).
  split; [exact Hn |]. split; [reflexivity |].
  apply Hother. discriminate.
Defined.

(** *** Insert and lookup *)

Lemma ensureID_TenantID env log w :
  AuditLog.TenantID (postgres.ensureID env log w).1 = AuditLog.TenantID log.
Proof.
  unfold postgres.ensureID. destruct (nonempty (AuditLog.ID log)); reflexivity.
Qed.

Lemma stored_row_ID now log :
  AuditLog.ID (gorm.stored_row now log) = AuditLog.ID log.
Proof.
  unfold gorm.stored_row. destruct (nonempty (AuditLog.Severity log)); reflexivity.
Qed.

(** A successful [Create], by its effect. *)
Lemma postgres_Create_ok env ctx log w row w1 :
  postgres.Create env ctx log w = (Ok tt, row, w1) ->
  row = gorm.stored_row (time_Now env (tick w)) (postgres.ensureID env log w).1
  /\ audit_logs w1 = audit_logs w ++ [row]
  /\ pg_fails env (tick w) = false.
Proof.
  unfold postgres.Create.
  destruct (ensureID_world env log w) as (Htick & _ & Hlogs & _).
  destruct (postgres.ensureID env log w) as [log1 w0]. cbn [fst snd] in *.
  unfold gorm.Create. rewrite Htick, Hlogs.
  destruct (pg_fails env (tick w)); [discriminate |].
  destruct (gorm.keys_free _ _); [| discriminate].
  cbn [map hd]. intros [= <- <-]. cbn [audit_logs call set_audit_logs].
  repeat split.
Qed.

(** A row that [Create] stored is what [GetByID] returns for its identifier
    to a caller of the row's tenant, provided that the tenant had no row of
    that identifier before. *)
Theorem GetByID_after_Create env env' ctx ctx' log w row w1 :
  postgres.Create env ctx log w = (Ok tt, row, w1) ->
  utils.GetTenantIDFromContext ctx' = Ok (AuditLog.TenantID log) ->
  pg_fails env' (tick w1) = false ->
  (forall r, In r (audit_logs w) ->
             AuditLog.TenantID r = AuditLog.TenantID log ->
             AuditLog.ID r <> AuditLog.ID row) ->
  (postgres.GetByID env' ctx' (AuditLog.ID row) w1).1 = Ok row.
Proof.
  intros Hc Hctx Hpg Hfresh.
  apply postgres_Create_ok in Hc. destruct Hc as (Hrow & Hlogs & _).
  assert (Hten : AuditLog.TenantID row = AuditLog.TenantID log)
    by (rewrite Hrow, stored_row_TenantID, ensureID_TenantID; reflexivity).
  unfold postgres.GetByID, postgres.getTenantScope. rewrite Hctx.
  unfold gorm.First. rewrite Hpg.
  rewrite select_plain by reflexivity. rewrite Hlogs, List.filter_app.
  assert (Hnone : List.filter
            (gorm.matches
               (gorm.Where (gorm.col_eq AuditLog.ID (AuditLog.ID row))
                  (gorm.Where (gorm.col_eq AuditLog.TenantID (AuditLog.TenantID log))
                     gorm.WithContext))) (audit_logs w) = []).
  { apply filter_nil_iff. intros r Hr.
    apply not_true_is_false. intros Hm. apply GetByID_scope in Hm.
    destruct Hm as [Ht Hid]. exact (Hfresh r Hr Ht Hid). }
  rewrite Hnone. cbn [List.filter app].
  assert (Hm : gorm.matches
            (gorm.Where (gorm.col_eq AuditLog.ID (AuditLog.ID row))
               (gorm.Where (gorm.col_eq AuditLog.TenantID (AuditLog.TenantID log))
                  gorm.WithContext)) row = true)
    by (apply GetByID_scope; split; [exact Hten | reflexivity]).
  rewrite Hm. reflexivity.
Qed.

Lemma GetByID_after_Create_witness :
  let w := set_audit_logs [event "log-1" tenant_b 5] empty_world in
  let log := dto.ToAuditLog (late_request 20) in
  let created := postgres.Create quiet ∅ log w in
  (postgres.GetByID quiet (api.RequestCtx (request_of tenant_a ∅ ∅ gin.Malformed))
     (AuditLog.ID created.1.2) created.2).1
  = Ok created.1.2.
Proof.
  intros w log created.
  apply (GetByID_after_Create quiet quiet ∅
           (api.RequestCtx (request_of tenant_a ∅ ∅ gin.Malformed))
           log w created.1.2 created.2).
  - reflexivity.
  - reflexivity.
  - reflexivity.
  - intros r [<- | []] Ht. discriminate.
Defined.

Lemma sendMessage_audit_logs env msg q w :
  audit_logs (SQSService.sendMessage env msg q w).2 = audit_logs w.
Proof.
  unfold SQSService.sendMessage. destruct (sqs_fails env (tick w)); [reflexivity |].
  destruct q; reflexivity.
Qed.

(** The row [CreateLog] stores carries the tenant named in the request
    body, whatever the tenant of the caller's token is. *)
Theorem CreateLog_stores_body_tenant env wired c w r :
  gin.Context.Body c = gin.Object r ->
  gin.Response.status (api.CreateLog env (wired_service env wired) c w).1
  = http.StatusCreated ->
  exists row,
    audit_logs (api.CreateLog env (wired_service env wired) c w).2
    = audit_logs w ++ [row]
    /\ AuditLog.TenantID row = dto.CreateAuditLogRequest.TenantID r.
Proof.
  intros Hbody. unfold api.CreateLog, api.ShouldBindJSON. rewrite Hbody.
  destruct (dto.binding_required r); [| discriminate].
  unfold service.Create.
  destruct (postgres.Create env (api.RequestCtx c) (dto.ToAuditLog r) w)
    as [[[[] | err] row] w1] eqn:Hc; [| discriminate].
  intros _. apply postgres_Create_ok in Hc. destruct Hc as (Hrow & Hlogs & _).
  exists row. split.
  - unfold SQSService.SendIndexMessage.
    pose proof (sendMessage_audit_logs env
                  (queue.Message.mk queue.MessageTypeIndex (AuditLog.TenantID row)
                     [row] (AuditLog.Timestamp row) 0) queue.IndexQueue w1) as Hs.
    destruct (SQSService.sendMessage env _ queue.IndexQueue w1) as [sent w2].
    cbn [fst snd] in *. destruct wired; cbn [wired_service
      service.SetWebSocketBroadcaster service.AuditLogService.broadcaster
      service.NewAuditLogService snd];
      rewrite ?BroadcastLog_audit_logs, Hs, Hlogs; reflexivity.
  - rewrite Hrow, stored_row_TenantID, ensureID_TenantID. reflexivity.
Qed.

Lemma CreateLog_stores_body_tenant_witness :
  let c := request_of tenant_a ∅ ∅ (gin.Object request_for_tenant_b) in
  gin.GetString c utils.TenantIDKey = tenant_a
  /\ exists row,
       audit_logs (api.CreateLog quiet (wired_service quiet true) c empty_world).2
       = [row]
       /\ AuditLog.TenantID row = tenant_b.
Proof.
  intros c. split; [reflexivity |].
  apply (CreateLog_stores_body_tenant quiet true c empty_world request_for_tenant_b);
    reflexivity.
Defined.

(** *** Recent logs *)

Lemma take_above_drop n : forall l x y,
  latest_first l -> In x (take n l) -> In y (drop n l) ->
  AuditLog.Timestamp y <= AuditLog.Timestamp x.
Proof.
  induction n as [| n IH]; intros [| a l] x y Hl Hx Hy; cbn in *; try tauto.
  destruct Hl as [Ha Hl]. destruct Hx as [<- | Hx].
  - apply In_drop in Hy. rewrite List.Forall_forall in Ha. apply Ha, Hy.
  - exact (IH l x y Hl Hx Hy).
Qed.

Lemma In_take_or_drop {A} n (l : list A) x :
  In x l -> In x (take n l) \/ In x (drop n l).
Proof.
  intros H. rewrite <- (take_drop n l) in H. apply in_app_or in H. exact H.
Qed.

(** [GetRecentLogs] returns at most 100 rows, rows of the tenant since the
    instant, latest first; a row of the tenant since the instant that it
    leaves out is no later than any row it returns.  A failure of the store
    is returned wrapped. *)
Theorem GetRecentLogs_latest env ctx tenantID since w :
  let r := postgres.GetRecentLogs env ctx tenantID since w in
  if pg_fails env (tick w)
  then r.1 = Err (Errorf "failed to get recent logs" (New "primary store: query failed"))
  else
    exists logs,
      r.1 = Ok logs
      /\ (length logs <= 100)%nat
      /\ latest_first logs
      /\ (forall e, In e logs ->
                    In e (audit_logs w) /\ AuditLog.TenantID e = tenantID
                    /\ since <= AuditLog.Timestamp e)
      /\ (forall e x,
            In e (audit_logs w) -> AuditLog.TenantID e = tenantID ->
            since <= AuditLog.Timestamp e -> ~ In e logs ->
            In x logs -> AuditLog.Timestamp e <= AuditLog.Timestamp x).
Proof.
  cbv zeta. unfold postgres.GetRecentLogs, gorm.Find.
  destruct (pg_fails env (tick w)); [reflexivity |].
  eexists. split; [reflexivity |].
  unfold gorm.select.
  cbn [gorm.limit gorm.offset gorm.order_timestamp_desc gorm.Limit gorm.Order
       gorm.Where gorm.WithContext].
  change (Z.to_nat 100) with 100%nat.
  set (sel := List.filter _ (audit_logs w)).
  assert (Hsel : forall e, In e sel <->
            In e (audit_logs w) /\ AuditLog.TenantID e = tenantID
            /\ since <= AuditLog.Timestamp e).
  { intros e. unfold sel. rewrite filter_In. unfold gorm.matches. cbn.
    rewrite andb_true_r, andb_true_iff, String.eqb_eq, Z.leb_le. tauto. }
  split; [| split; [| split]].
  - rewrite length_take. apply Nat.le_min_l.
  - apply latest_first_take, latest_first_sort.
  - intros e He. apply In_take in He. apply (proj1 (In_sort_desc _ _)) in He.
    apply Hsel, He.
  - intros e x Hin Ht Hs Hout Hx.
    assert (He : In e (gorm.sort_desc sel)) by (apply In_sort_desc, Hsel; tauto).
    destruct (In_take_or_drop 100 _ _ He) as [He' | He']; [contradiction |].
    exact (take_above_drop 100 _ x e (latest_first_sort sel) Hx He').
Qed.

Lemma GetRecentLogs_latest_witness :
  let w := set_audit_logs [event "log-1" tenant_a 5; event "log-2" tenant_b 6;
                           event "log-3" tenant_a 7; event "log-4" tenant_a 3]
                          empty_world in
  exists logs,
    (postgres.GetRecentLogs quiet ∅ tenant_a 4 w).1 = Ok logs
    /\ logs = [event "log-3" tenant_a 7; event "log-1" tenant_a 5]
    /\ (length logs <= 100)%nat
    /\ latest_first logs
    /\ (In (event "log-3" tenant_a 7) logs ->
        In (event "log-3" tenant_a 7) (audit_logs w)
        /\ AuditLog.TenantID (event "log-3" tenant_a 7) = tenant_a
        /\ 4 <= AuditLog.Timestamp (event "log-3" tenant_a 7)).
Proof.
  intros w.
  pose proof (GetRecentLogs_latest quiet ∅ tenant_a 4 w) as H.
  cbv zeta in H. change (pg_fails quiet (tick w)) with false in H. cbv iota in H.
  destruct H as (logs & Hok & Hlen & Hord & Hin & _).
  exists logs. split; [exact Hok |].
  split; [injection Hok as <-; reflexivity |].
  split; [exact Hlen |]. split; [exact Hord |]. apply Hin.
Defined.

(** ** Statistics *)

Lemma stats_by_maps hourly table tenantID startTime endTime :
  let stats := stats_by hourly table tenantID startTime endTime in
  let p := if hourly then bucket_window tenantID startTime endTime
           else postgres.timestamp_in tenantID startTime endTime in
  (forall k, AuditLogStats.ActionCounts stats !! k = tally p AuditLog.Action table k)
  /\ (forall k, AuditLogStats.SeverityCounts stats !! k = tally p AuditLog.Severity table k)
  /\ (forall k, AuditLogStats.ResourceCounts stats !! k
                = tally (fun l => p l && nonempty (AuditLog.ResourceType l))
                        AuditLog.ResourceType table k).
Proof.
  cbv zeta. unfold stats_by, postgres.set_TotalLogs.
  cbn [AuditLogStats.ActionCounts AuditLogStats.SeverityCounts
       AuditLogStats.ResourceCounts].
  destruct hourly; [apply hourly_query_maps | apply base_query_maps].
Qed.

Lemma hourly_total_groups table tenantID startTime endTime :
  postgres.hourly_total table tenantID startTime endTime
  = Z.of_nat (length (remove_dups
                        (map event_key
                             (List.filter (bucket_window tenantID startTime endTime)
                                          table)))).
Proof.
  unfold postgres.hourly_total. rewrite hourly_stats_alt.
  unfold postgres.group_count. rewrite map_map.
  rewrite (hourly_selection_groups tenantID startTime endTime
             (fun key => postgres.occurrences key (map event_key table))).
  rewrite length_map. rewrite <- remove_dups_filter. do 2 f_equal.
  rewrite <- (map_filter_comm event_key). f_equal.
Qed.

(** Over a window longer than 24 hours [GetStats] counts the events
    themselves: the total is the number of the tenant's events in the
    window (start included, end excluded), and each map holds, per key, the
    number of those events with that action, severity or (non-empty)
    resource type, and no entry for a key without event. *)
Theorem GetStats_long_window env ctx filter w :
  let tenantID := AuditLogFilter.TenantID filter in
  let startTime := AuditLogFilter.StartTime filter in
  let endTime := AuditLogFilter.EndTime filter in
  let p := postgres.timestamp_in tenantID startTime endTime in
  startTime <> 0 -> endTime <> 0 -> tenantID <> "" ->
  is_ok (utils.GetTenantIDFromContext ctx) = true ->
  pg_fails env (tick w) = false ->
  pg_fails env (S (tick w)) = false ->
  24 * time.Hour < endTime - startTime ->
  exists stats,
    (postgres.GetStats env ctx filter w).1 = Ok stats
    /\ AuditLogStats.TotalLogs stats
       = Z.of_nat (length (List.filter p (audit_logs w)))
    /\ (forall k, AuditLogStats.ActionCounts stats !! k
                  = tally p AuditLog.Action (audit_logs w) k)
    /\ (forall k, AuditLogStats.SeverityCounts stats !! k
                  = tally p AuditLog.Severity (audit_logs w) k)
    /\ (forall k, AuditLogStats.ResourceCounts stats !! k
                  = tally (fun l => p l && nonempty (AuditLog.ResourceType l))
                          AuditLog.ResourceType (audit_logs w) k).
Proof.
  cbv zeta. intros Hs He Hten Hctx Hpg1 Hpg2 Hlong.
  rewrite (GetStats_routed env ctx filter w Hs He Hten Hctx Hpg1 Hpg2).
  apply Z.leb_gt in Hlong. rewrite Hlong.
  eexists. split; [reflexivity |]. split; [reflexivity |].
  apply (stats_by_maps false).
Qed.

Lemma GetStats_long_window_witness :
  let table := [event "log-1" tenant_a (at_hm 10 10);
                event "log-2" tenant_a (at_hm 10 20);
                event "log-3" tenant_b (at_hm 10 30);
                event "log-4" tenant_a (at_hm 60 0)] in
  let w := set_audit_logs table empty_world in
  let ctx := api.RequestCtx (request_of tenant_a ∅ ∅ gin.Malformed) in
  exists stats,
    (postgres.GetStats quiet ctx (stats_filter tenant_a (at_hm 10 0) (at_hm 58 0)) w).1
    = Ok stats
    /\ AuditLogStats.TotalLogs stats = 2
    /\ AuditLogStats.ActionCounts stats !! "CREATE" = Some 2.
Proof.
  intros table w ctx.
  destruct (GetStats_long_window quiet ctx
              (stats_filter tenant_a (at_hm 10 0) (at_hm 58 0)) w)
    as (stats & Hok & Htot & Hact & _); try reflexivity; try discriminate.
  exists stats. split; [exact Hok |]. split; [exact Htot |].
  rewrite Hact. reflexivity.
Defined.

(** Over a window of at most 24 hours [GetStats] counts by whole hours: each
    map holds, per key, the number of the tenant's events whose hour starts
    in the window; the total is the number of distinct combinations of
    hour, action, severity and resource type among those events. *)
Theorem GetStats_short_window env ctx filter w :
  let tenantID := AuditLogFilter.TenantID filter in
  let startTime := AuditLogFilter.StartTime filter in
  let endTime := AuditLogFilter.EndTime filter in
  let p := bucket_window tenantID startTime endTime in
  startTime <> 0 -> endTime <> 0 -> tenantID <> "" ->
  is_ok (utils.GetTenantIDFromContext ctx) = true ->
  pg_fails env (tick w) = false ->
  pg_fails env (S (tick w)) = false ->
  endTime - startTime <= 24 * time.Hour ->
  exists stats,
    (postgres.GetStats env ctx filter w).1 = Ok stats
    /\ AuditLogStats.TotalLogs stats
       = Z.of_nat (length (remove_dups (map event_key (List.filter p (audit_logs w)))))
    /\ (forall k, AuditLogStats.ActionCounts stats !! k
                  = tally p AuditLog.Action (audit_logs w) k)
    /\ (forall k, AuditLogStats.SeverityCounts stats !! k
                  = tally p AuditLog.Severity (audit_logs w) k)
    /\ (forall k, AuditLogStats.ResourceCounts stats !! k
                  = tally (fun l => p l && nonempty (AuditLog.ResourceType l))
                          AuditLog.ResourceType (audit_logs w) k).
Proof.
  cbv zeta. intros Hs He Hten Hctx Hpg1 Hpg2 Hshort.
  rewrite (GetStats_routed env ctx filter w Hs He Hten Hctx Hpg1 Hpg2).
  apply Z.leb_le in Hshort. rewrite Hshort.
  eexists. split; [reflexivity |]. split; [apply hourly_total_groups |].
  apply (stats_by_maps true).
Qed.

Lemma GetStats_short_window_witness :
  let table := [event "log-1" tenant_a (at_hm 10 10);
                event "log-2" tenant_a (at_hm 10 20);
                event "log-3" tenant_b (at_hm 10 30);
                event "log-4" tenant_a (at_hm 12 0)] in
  let w := set_audit_logs table empty_world in
  let ctx := api.RequestCtx (request_of tenant_a ∅ ∅ gin.Malformed) in
  exists stats,
    (postgres.GetStats quiet ctx (stats_filter tenant_a (at_hm 10 0) (at_hm 13 0)) w).1
    = Ok stats
    /\ AuditLogStats.TotalLogs stats = 2
    /\ AuditLogStats.ActionCounts stats !! "CREATE" = Some 3.
Proof.
  intros table w ctx.
  destruct (GetStats_short_window quiet ctx
              (stats_filter tenant_a (at_hm 10 0) (at_hm 13 0)) w)
    as (stats & Hok & Htot & Hact & _); try reflexivity; try discriminate.
  exists stats. split; [exact Hok |]. split; [rewrite Htot; reflexivity |].
  rewrite Hact. reflexivity.
Defined.

(** *** Statistics of a page *)

(** A map of counts after more elements were counted into it. *)
Lemma counted_more {A} (p : A -> bool) (f : A -> string) (step : gmap string Z -> A -> gmap string Z)
    (k : string) :
  (forall m x, step m x !! k
               = if p x && String.eqb (f x) k
                 then Some (default 0 (m !! k) + 1) else m !! k) ->
  forall l m,
    foldl step m l !! k
    = (let n := Z.of_nat (length (List.filter (fun x => p x && String.eqb (f x) k) l)) in
       if 0 <? n then Some (default 0 (m !! k) + n) else m !! k).
Proof.
  intros Hstep. induction l as [| x l IH]; intros m; [reflexivity |].
  cbn [foldl List.filter]. rewrite IH, Hstep. cbv zeta.
  destruct (p x && String.eqb (f x) k); cbn [length].
  - set (n := length (List.filter _ l)).
    replace (0 <? Z.of_nat (S n)) with true by (symmetry; apply Z.ltb_lt; lia).
    destruct (0 <? Z.of_nat n) eqn:Hn; cbn [default]; unfold id; f_equal; [lia |].
    apply Z.ltb_ge in Hn. lia.
  - reflexivity.
Qed.

Lemma increment_lookup key m k :
  service.increment key m !! k
  = if String.eqb key k then Some (default 0 (m !! k) + 1) else m !! k.
Proof.
  unfold service.increment. destruct (String.eqb key k) eqn:He.
  - apply String.eqb_eq in He. subst k. apply lookup_insert_eq.
  - apply String.eqb_neq in He. apply lookup_insert_ne, He.
Qed.

Lemma count_log_fields logs : forall stats,
  let stats' := foldl service.count_log stats logs in
  dto.GetAuditLogStatsResponse.TotalLogs stats'
  = dto.GetAuditLogStatsResponse.TotalLogs stats
  /\ dto.GetAuditLogStatsResponse.ActionCounts stats'
     = foldl (fun m log => service.increment (dto.AuditLogResponse.Action log) m)
             (dto.GetAuditLogStatsResponse.ActionCounts stats) logs
  /\ dto.GetAuditLogStatsResponse.SeverityCounts stats'
     = foldl (fun m log => service.increment (dto.AuditLogResponse.Severity log) m)
             (dto.GetAuditLogStatsResponse.SeverityCounts stats) logs
  /\ dto.GetAuditLogStatsResponse.ResourceCounts stats'
     = foldl (fun m log =>
                if nonempty (dto.AuditLogResponse.ResourceType log)
                then service.increment (dto.AuditLogResponse.ResourceType log) m
                else m)
             (dto.GetAuditLogStatsResponse.ResourceCounts stats) logs.
Proof.
  induction logs as [| log logs IH]; intros stats; [repeat split |].
  cbn [foldl]. cbv zeta. destruct (IH (service.count_log stats log)) as (H1 & H2 & H3 & H4).
  rewrite H1, H2, H3, H4. repeat split.
Qed.

(** [service.GetStats] counts the logs of the one page that [List] returns:
    the total is the length of that page, hence at most the page size, and
    each map holds, per key, the number of the logs of the page with that
    action, severity or (non-empty) resource type. *)
Theorem GetStats_counts_one_page env ctx filter w stats w' :
  service.GetStats env ctx filter w = (Ok stats, w') ->
  exists logs,
    service.List env ctx filter false w = (Ok logs, w')
    /\ dto.GetAuditLogStatsResponse.TotalLogs stats = Z.of_nat (length logs)
    /\ dto.GetAuditLogStatsResponse.TotalLogs stats <= page_size filter
    /\ (forall k, dto.GetAuditLogStatsResponse.ActionCounts stats !! k
                  = counted (fun _ => true) dto.AuditLogResponse.Action logs k)
    /\ (forall k, dto.GetAuditLogStatsResponse.SeverityCounts stats !! k
                  = counted (fun _ => true) dto.AuditLogResponse.Severity logs k)
    /\ (forall k, dto.GetAuditLogStatsResponse.ResourceCounts stats !! k
                  = counted (fun log => nonempty (dto.AuditLogResponse.ResourceType log))
                            dto.AuditLogResponse.ResourceType logs k).
Proof.
  unfold service.GetStats.
  destruct (service.List env ctx filter false w) as [[logs | err] w1] eqn:HL;
    [| discriminate].
  intros [= <- <-]. exists logs. split; [reflexivity |].
  destruct (count_log_fields logs
              (dto.GetAuditLogStatsResponse.mk (Z.of_nat (length logs)) ∅ ∅ ∅))
    as (Ht & Ha & Hs & Hr). cbv zeta in *.
  cbn [dto.GetAuditLogStatsResponse.TotalLogs dto.GetAuditLogStatsResponse.ActionCounts
       dto.GetAuditLogStatsResponse.SeverityCounts
       dto.GetAuditLogStatsResponse.ResourceCounts] in *.
  rewrite Ht, Ha, Hs, Hr.
  split; [reflexivity |].
  split.
  { unfold service.List in HL.
    destruct (service.List_routed env ctx filter false w) as [[b r] w2] eqn:HR.
    injection HL as -> ->.
    unfold service.List_routed in HR.
    destruct (paginate_fields filter) as (Hp & Hsz & Hl & _). cbv zeta in *.
    pose proof (page_size_pos filter) as Hpos.
    pose proof (page_number_pos filter) as Hnum.
    destruct (service.hasSearchCriteria (service.paginate filter)).
    - unfold opensearch.Search in HR.
      destruct (utils.GetTenantIDFromContext ctx); [| discriminate].
      unfold opensearch.request in HR.
      destruct (os_fails env (tick w)); [discriminate |].
      injection HR as _ <- _. unfold dto.FromAuditLogs. rewrite length_map.
      destruct (buildSearchQuery_size (service.paginate filter)) as [Hq _];
        [rewrite Hp; lia | rewrite Hsz; lia |].
      rewrite Hsz in Hq. apply (length_hits _ _ _ _ Hq). lia.
    - destruct (postgres.List env ctx (service.paginate filter) w)
        as [[rows | err] w3] eqn:HP; [| discriminate].
      injection HR as _ <- _. unfold dto.FromAuditLogs. rewrite length_map.
      apply List_limit in HP; rewrite Hl in *; [exact HP | lia]. }
  split; [| split]; intros k; unfold counted.
  - rewrite (counted_more (fun _ => true) dto.AuditLogResponse.Action _ k).
    + cbv zeta. rewrite lookup_empty. cbn [default]. reflexivity.
    + intros m x. rewrite increment_lookup. reflexivity.
  - rewrite (counted_more (fun _ => true) dto.AuditLogResponse.Severity _ k).
    + cbv zeta. rewrite lookup_empty. cbn [default]. reflexivity.
    + intros m x. rewrite increment_lookup. reflexivity.
  - rewrite (counted_more (fun log => nonempty (dto.AuditLogResponse.ResourceType log))
               dto.AuditLogResponse.ResourceType _ k).
    + cbv zeta. rewrite lookup_empty. cbn [default]. reflexivity.
    + intros m x. destruct (nonempty (dto.AuditLogResponse.ResourceType x));
        [rewrite increment_lookup |]; reflexivity.
Qed.

Lemma GetStats_counts_one_page_witness :
  let table := [event "log-1" tenant_a 1; event "log-2" tenant_a 2;
                event "log-3" tenant_a 3] in
  let w := set_audit_logs table empty_world in
  let filter :=
    AuditLogFilter.set_PageSize 2
      (AuditLogFilter.set_TenantID tenant_a AuditLogFilter.zero) in
  exists stats,
    (service.GetStats quiet ∅ filter w).1 = Ok stats
    /\ dto.GetAuditLogStatsResponse.TotalLogs stats = 2
    /\ dto.GetAuditLogStatsResponse.ActionCounts stats !! "CREATE" = Some 2.
Proof.
  intros table w filter.
  destruct (service.GetStats quiet ∅ filter w) as [[stats | err] w'] eqn:HG;
    [| discriminate].
  exists stats. split; [reflexivity |].
  destruct (GetStats_counts_one_page quiet ∅ filter w stats w' HG)
    as (logs & HL & Ht & _ & Ha & _).
  injection HL as <- _.
  split; [exact Ht | rewrite Ha; reflexivity].
Defined.

(** ** The search-index repository *)

(** A successful [CreateIndex], by its effect on the indices. *)
Lemma CreateIndex_ok env tenantID t w w1 :
  opensearch.CreateIndex env tenantID t w = (Ok tt, w1) ->
  indices w1
  = match indices w !! config.GetIndexName env tenantID t with
    | Some _ => indices w
    | None => <[config.GetIndexName env tenantID t := ∅]> (indices w)
    end.
Proof.
  unfold opensearch.CreateIndex, opensearch.request.
  destruct (os_fails env (tick w)); [discriminate |].
  cbn [indices call]. destruct (indices w !! _) eqn:E.
  - intros [= <-]. reflexivity.
  - cbn [tick call]. destruct (os_fails env (S (tick w))); [discriminate |].
    intros [= <-]. reflexivity.
Qed.

Lemma put_doc_new_index name log ix :
  ix !! name = None ->
  opensearch.put_doc name log (<[name := ∅]> ix) = opensearch.put_doc name log ix.
Proof.
  intros Hnone. unfold opensearch.put_doc.
  rewrite lookup_insert_eq, Hnone, insert_insert_eq. reflexivity.
Qed.

(** A successful [Index], by its effect on the indices. *)
Lemma Index_ok env log w w1 :
  opensearch.Index env log w = (Ok tt, w1) ->
  indices w1
  = opensearch.put_doc
      (config.GetIndexName env (AuditLog.TenantID log) (opensearch.indexTime env log w))
      log (indices w).
Proof.
  unfold opensearch.Index.
  destruct (opensearch.CreateIndex env (AuditLog.TenantID log)
              (opensearch.indexTime env log w) w) as [[[] | err] w0] eqn:Hc;
    [| discriminate].
  apply CreateIndex_ok in Hc.
  unfold opensearch.request. destruct (os_fails env (tick w0)); [discriminate |].
  intros [= <-]. cbn [indices call set_indices]. rewrite Hc.
  destruct (indices w !! _) eqn:E; [reflexivity |].
  apply put_doc_new_index, E.
Qed.

(** After a successful [Index] the document is in the index named after its
    tenant and day, under its identifier; every other document of the
    search engine is where it was. *)
Theorem Index_stores_document env log w w1 :
  opensearch.Index env log w = (Ok tt, w1) ->
  let name := config.GetIndexName env (AuditLog.TenantID log)
                (opensearch.indexTime env log w) in
  (exists docs, indices w1 !! name = Some docs /\ docs !! AuditLog.ID log = Some log)
  /\ (forall n id,
        (n, id) <> (name, AuditLog.ID log) ->
        (indices w1 !! n) ≫= (fun docs => docs !! id)
        = (indices w !! n) ≫= (fun docs => docs !! id)).
Proof.
  intros HI name. apply Index_ok in HI. fold name in HI. rewrite HI.
  unfold opensearch.put_doc. split.
  - eexists. split; [apply lookup_insert_eq | apply lookup_insert_eq].
  - intros n id Hne. destruct (decide (n = name)) as [-> | Hn].
    + rewrite lookup_insert_eq. cbn [mbind option_bind].
      assert (Hid : AuditLog.ID log <> id) by congruence.
      rewrite lookup_insert_ne by exact Hid.
      destruct (indices w !! name); [reflexivity | apply lookup_empty].
    + rewrite lookup_insert_ne by congruence. reflexivity.
Qed.

Lemma Index_stores_document_witness :
  let w0 := (opensearch.Index quiet (event "log-1" tenant_a 5) empty_world).2 in
  let r := opensearch.Index quiet (event "log-2" tenant_a 5) w0 in
  r.1 = Ok tt
  /\ (exists docs,
        indices r.2 !! config.GetIndexName quiet tenant_a 5 = Some docs
        /\ docs !! "log-2" = Some (event "log-2" tenant_a 5))
  /\ (indices r.2 !! config.GetIndexName quiet tenant_a 5) ≫= (fun docs => docs !! "log-1")
     = (indices w0 !! config.GetIndexName quiet tenant_a 5) ≫= (fun docs => docs !! "log-1").
Proof.
  intros w0 r. split; [reflexivity |].
  destruct (Index_stores_document quiet (event "log-2" tenant_a 5) w0 r.2 eq_refl)
    as [Hdoc Hrest].
  split; [exact Hdoc |]. apply Hrest. discriminate.
Defined.

(** Indexing a document a second time (as happens when its message is
    delivered again) leaves the search engine as the first time left it,
    when the document carries its own timestamp. *)
Theorem Index_again_changes_nothing env log w w1 w1' w2 :
  AuditLog.Timestamp log <> 0 ->
  opensearch.Index env log w = (Ok tt, w1) ->
  indices w1' = indices w1 ->
  opensearch.Index env log w1' = (Ok tt, w2) ->
  indices w2 = indices w1.
Proof.
  intros Hts H1 Hsame H2. apply Index_ok in H1, H2.
  assert (Ht : forall w0, opensearch.indexTime env log w0 = AuditLog.Timestamp log).
  { intros w0. unfold opensearch.indexTime, time.IsZero.
    apply Z.eqb_neq in Hts. rewrite Hts. reflexivity. }
  rewrite Ht in H1, H2. rewrite H2, Hsame, H1.
  unfold opensearch.put_doc. rewrite lookup_insert_eq. cbn [default]. unfold id.
  rewrite !insert_insert_eq. reflexivity.
Qed.

Lemma Index_again_changes_nothing_witness :
  let log := event "log-1" tenant_a 5 in
  let w1 := (opensearch.Index quiet log empty_world).2 in
  indices (opensearch.Index quiet log w1).2 = indices w1.
Proof.
  intros log w1.
  apply (Index_again_changes_nothing quiet log empty_world w1 w1
           (opensearch.Index quiet log w1).2).
  - discriminate.
  - reflexivity.
  - reflexivity.
  - reflexivity.
Defined.

(** *** Search *)





(** *** Deletion from the search engine *)

(** [Delete] and [DeleteIndex] address the tenant's index of the current
    day, whatever day the document was indexed under: every other index is
    left as it was, so a document indexed under another day survives its
    own [Delete]. *)
Theorem Delete_reaches_current_day_only env tenantID logID w :
  let today := config.GetIndexName env tenantID (time_Now env (tick w)) in
  (forall n,
     n <> today ->
     indices (opensearch.Delete env tenantID logID w).2 !! n = indices w !! n
     /\ indices (opensearch.DeleteIndex env tenantID w).2 !! n = indices w !! n)
  /\ (forall n docs doc,
        n <> today ->
        indices w !! n = Some docs -> docs !! logID = Some doc ->
        exists docs',
          indices (opensearch.Delete env tenantID logID w).2 !! n = Some docs'
          /\ docs' !! logID = Some doc).
Proof.
  intros today.
  assert (H : forall n,
     n <> today ->
     indices (opensearch.Delete env tenantID logID w).2 !! n = indices w !! n
     /\ indices (opensearch.DeleteIndex env tenantID w).2 !! n = indices w !! n).
  { intros n Hn. unfold opensearch.Delete, opensearch.DeleteIndex, opensearch.request.
    fold today. destruct (os_fails env (tick w)); [split; reflexivity |].
    cbn [indices call]. destruct (indices w !! today) as [docs |] eqn:E;
      [| split; reflexivity].
    split.
    - destruct (docs !! logID); [| reflexivity].
      cbn [snd indices set_indices]. apply lookup_insert_ne. congruence.
    - cbn [snd indices set_indices]. apply lookup_delete_ne. congruence. }
  split; [exact H |].
  intros n docs doc Hn Hdocs Hdoc. exists docs. split; [| exact Hdoc].
  rewrite (proj1 (H n Hn)). exact Hdocs.
Qed.

Lemma Delete_reaches_current_day_only_witness :
  let log := event "log-1" tenant_a 5 in
  let w := (opensearch.Index quiet log empty_world).2 in
  exists docs',
    indices (opensearch.Delete quiet tenant_a "log-1" w).2
      !! config.GetIndexName quiet tenant_a 5 = Some docs'
    /\ docs' !! "log-1" = Some log.
Proof.
  intros log w.
  apply (proj2 (Delete_reaches_current_day_only quiet tenant_a "log-1" w)
           (config.GetIndexName quiet tenant_a 5) {[ "log-1" := log ]} log).
  - vm_compute. discriminate.
  - reflexivity.
  - reflexivity.
Defined.

(** ** The workers *)

Lemma request_queues {A} env (a : A) w :
  index_queue (opensearch.request env a w).2 = index_queue w
  /\ audit_logs (opensearch.request env a w).2 = audit_logs w.
Proof.
  unfold opensearch.request. destruct (os_fails env (tick w)); split; reflexivity.
Qed.

Lemma CreateIndex_queues env tenantID t w :
  index_queue (opensearch.CreateIndex env tenantID t w).2 = index_queue w
  /\ audit_logs (opensearch.CreateIndex env tenantID t w).2 = audit_logs w.
Proof.
  unfold opensearch.CreateIndex, opensearch.request.
  destruct (os_fails env (tick w)); [split; reflexivity |].
  cbn [indices call]. destruct (indices w !! _); [split; reflexivity |].
  cbn [tick call]. destruct (os_fails env (S (tick w))); split; reflexivity.
Qed.

Lemma Index_queues env log w :
  index_queue (opensearch.Index env log w).2 = index_queue w
  /\ audit_logs (opensearch.Index env log w).2 = audit_logs w.
Proof.
  unfold opensearch.Index.
  pose proof (CreateIndex_queues env (AuditLog.TenantID log)
                (opensearch.indexTime env log w) w) as Hc.
  destruct (opensearch.CreateIndex env _ _ w) as [[[] | err] w1]; cbn [snd] in *;
    [| exact Hc].
  unfold opensearch.request. destruct (os_fails env (tick w1)); exact Hc.
Qed.

Lemma bulkIndexGroup_queues env indexName logs w :
  index_queue (opensearch.bulkIndexGroup env indexName logs w).2 = index_queue w
  /\ audit_logs (opensearch.bulkIndexGroup env indexName logs w).2 = audit_logs w.
Proof.
  unfold opensearch.bulkIndexGroup.
  assert (H : forall w1 : World,
            index_queue w1 = index_queue w /\ audit_logs w1 = audit_logs w ->
            index_queue (match opensearch.request env tt w1 with
                         | (Ok _, w2) =>
                             (Ok tt, set_indices
                                       (foldl (fun ix log => opensearch.put_doc indexName log ix)
                                              (indices w2) logs) w2)
                         | (Err err, w2) =>
                             (Err (Errorf "failed to execute bulk request" err), w2)
                         end).2 = index_queue w
            /\ audit_logs (match opensearch.request env tt w1 with
                           | (Ok _, w2) =>
                               (Ok tt, set_indices
                                         (foldl (fun ix log => opensearch.put_doc indexName log ix)
                                                (indices w2) logs) w2)
                           | (Err err, w2) =>
                               (Err (Errorf "failed to execute bulk request" err), w2)
                           end).2 = audit_logs w).
  { intros w1 Hw1. unfold opensearch.request.
    destruct (os_fails env (tick w1)); exact Hw1. }
  destruct logs as [| log0 rest].
  - apply H. split; reflexivity.
  - pose proof (CreateIndex_queues env (AuditLog.TenantID log0)
                  (opensearch.indexTime env log0 w) w) as Hc.
    destruct (opensearch.CreateIndex env _ _ w) as [[[] | err] w1]; cbn [snd] in *.
    + apply H, Hc.
    + exact Hc.
Qed.

Lemma bulkIndexGroups_queues env groups : forall w,
  index_queue (opensearch.bulkIndexGroups env groups w).2 = index_queue w
  /\ audit_logs (opensearch.bulkIndexGroups env groups w).2 = audit_logs w.
Proof.
  induction groups as [| [indexName logs] groups IH]; intros w; [split; reflexivity |].
  cbn [opensearch.bulkIndexGroups].
  pose proof (bulkIndexGroup_queues env indexName logs w) as Hg.
  destruct (opensearch.bulkIndexGroup env indexName logs w) as [[[] | err] w1];
    cbn [snd] in *; [| exact Hg].
  destruct (IH w1) as [H1 H2]. destruct Hg as [Hg1 Hg2]. split; congruence.
Qed.

Lemma BulkIndex_queues env logs w :
  index_queue (opensearch.BulkIndex env logs w).2 = index_queue w
  /\ audit_logs (opensearch.BulkIndex env logs w).2 = audit_logs w.
Proof.
  unfold opensearch.BulkIndex. destruct logs; [split; reflexivity |].
  apply bulkIndexGroups_queues.
Qed.

Lemma processMessage_queues env msg w :
  index_queue (SQSWorker.processMessage env msg w).2 = index_queue w
  /\ audit_logs (SQSWorker.processMessage env msg w).2 = audit_logs w.
Proof.
  unfold SQSWorker.processMessage.
  destruct (String.eqb _ queue.MessageTypeIndex).
  - destruct (queue.Message.Logs msg) as [| log [| log' rest]];
      [split; reflexivity | apply Index_queues | split; reflexivity].
  - destruct (String.eqb _ queue.MessageTypeBulkIndex); [| split; reflexivity].
    destruct (queue.Message.Logs msg) as [| log rest]; [split; reflexivity |].
    apply BulkIndex_queues.
Qed.

(** The index worker takes a message out of its queue only after it
    processed it with success: a message whose processing fails stays in
    the queue, and a message that cannot be processed at all (an unknown
    type, an INDEX message without exactly one log, a BULK_INDEX message
    without logs) is left there without any call being made.  The primary
    store is never touched. *)
Theorem index_worker_acks_only_success env rm w :
  let msg := queue.ReceivedMessage.Message rm in
  let w' := SQSWorker.processOne env rm w in
  audit_logs w' = audit_logs w
  /\ (is_err (SQSWorker.processMessage env msg w).1 = true ->
      index_queue w' = index_queue w)
  /\ ((queue.Message.Type_ msg <> queue.MessageTypeIndex
       /\ queue.Message.Type_ msg <> queue.MessageTypeBulkIndex)
      \/ (queue.Message.Type_ msg = queue.MessageTypeIndex
          /\ length (queue.Message.Logs msg) <> 1%nat)
      \/ (queue.Message.Type_ msg = queue.MessageTypeBulkIndex
          /\ queue.Message.Logs msg = []) ->
      w' = w)
  /\ (is_ok (SQSWorker.processMessage env msg w).1 = true ->
      sqs_fails env (tick (SQSWorker.processMessage env msg w).2) = false ->
      index_queue w'
      = List.filter
          (fun m => negb (String.eqb (queue.ReceivedMessage.ReceiptHandle m)
                                     (queue.ReceivedMessage.ReceiptHandle rm)))
          (index_queue w)).
Proof.
  cbv zeta. unfold SQSWorker.processOne.
  destruct (processMessage_queues env (queue.ReceivedMessage.Message rm) w) as [Hq Ha].
  split; [| split; [| split]].
  - destruct (SQSWorker.processMessage env _ w) as [[[] | err] w1]; cbn [snd] in *;
      [| exact Ha].
    unfold SQSService.DeleteMessage. destruct (sqs_fails env (tick w1)); exact Ha.
  - destruct (SQSWorker.processMessage env _ w) as [[[] | err] w1]; cbn [fst snd] in *;
      [discriminate | intros _; exact Hq].
  - intros Hbad. unfold SQSWorker.processMessage.
    destruct Hbad as [[H1 H2] | [[H1 H2] | [H1 H2]]].
    + apply String.eqb_neq in H1, H2. rewrite H1, H2. reflexivity.
    + rewrite H1. cbn [String.eqb]. rewrite String.eqb_refl.
      destruct (queue.Message.Logs _) as [| log [| log' rest]]; try reflexivity.
      contradiction H2. reflexivity.
    + rewrite H1, H2. reflexivity.
  - destruct (SQSWorker.processMessage env _ w) as [[[] | err] w1]; cbn [fst snd] in *;
      [| discriminate].
    intros _ Hsqs. unfold SQSService.DeleteMessage. rewrite Hsqs.
    cbn [snd index_queue call set_queue get_queue]. rewrite Hq. reflexivity.
Qed.

Lemma index_worker_acks_only_success_witness :
  let good := index_message (event "log-1" tenant_a 5) "receipt-1" in
  let bad := unknown_message "receipt-2" in
  let w := set_queue queue.IndexQueue [good; bad] empty_world in
  SQSWorker.processOne quiet bad w = w
  /\ index_queue (SQSWorker.processOne quiet good w) = [bad].
Proof.
  intros good bad w. split.
  - apply (proj1 (proj2 (proj2 (index_worker_acks_only_success quiet bad w)))).
    left. split; discriminate.
  - apply (proj2 (proj2 (proj2 (index_worker_acks_only_success quiet good w))));
      reflexivity.
Defined.

(** The archive worker and the cleanup worker leave a message of another
    type where it is, and so does the archive worker with an ARCHIVE message
    that names no tenant: no call is made, nothing is written, and the
    message is not deleted from its queue. *)
Theorem workers_leave_foreign_messages env rm w :
  let msg := queue.ReceivedMessage.Message rm in
  (queue.Message.Type_ msg <> queue.MessageTypeArchive ->
   ArchiveWorker.processOne env rm w = w)
  /\ (queue.Message.Type_ msg <> queue.MessageTypeCleanup ->
      CleanupWorker.processOne env rm w = w)
  /\ (queue.Message.TenantID msg = "" -> ArchiveWorker.processOne env rm w = w).
Proof.
  cbv zeta. unfold ArchiveWorker.processOne, CleanupWorker.processOne.
  split; [| split].
  - intros H. apply String.eqb_neq in H. rewrite H. reflexivity.
  - intros H. apply String.eqb_neq in H. rewrite H. reflexivity.
  - intros H. destruct (String.eqb _ queue.MessageTypeArchive); [| reflexivity].
    unfold ArchiveWorker.processArchiveMessage, postgres.List,
      ArchiveWorker.archiveFilter.
    cbn [AuditLogFilter.TenantID AuditLogFilter.set_EndTime AuditLogFilter.set_TenantID].
    rewrite H. reflexivity.
Qed.

Lemma workers_leave_foreign_messages_witness :
  let w := set_queue queue.ArchiveQueue
             [unknown_message "receipt-1"; archive_message "" 10]
             (set_audit_logs [event "log-1" tenant_a 5] empty_world) in
  ArchiveWorker.processOne quiet (unknown_message "receipt-1") w = w
  /\ CleanupWorker.processOne quiet (unknown_message "receipt-1") w = w
  /\ ArchiveWorker.processOne quiet (archive_message "" 10) w = w.
Proof.
  intros w.
  destruct (workers_leave_foreign_messages quiet (unknown_message "receipt-1") w)
    as (H1 & H2 & _).
  destruct (workers_leave_foreign_messages quiet (archive_message "" 10) w)
    as (_ & _ & H3).
  split; [apply H1; discriminate |].
  split; [apply H2; discriminate | apply H3; reflexivity].
Defined.

(** ** The cleanup endpoint and the lifecycle it starts *)

(** [Cleanup] deletes nothing itself.  When it accepts a request it has
    read a date that is not in the future and has sent one ARCHIVE message
    for the tenant of the token and that date; when it refuses a request it
    has enqueued nothing.  In both cases the primary store, the archive and
    the other queues are as they were. *)
Theorem Cleanup_only_schedules env c w :
  let r := api.Cleanup env c w in
  let tenantID := gin.GetString c utils.TenantIDKey in
  (audit_logs r.2 = audit_logs w /\ bucket r.2 = bucket w
   /\ cleanup_queue r.2 = cleanup_queue w /\ index_queue r.2 = index_queue w)
  /\ match r.1 with
     | api.CleanupAccepted status h =>
         status = http.StatusAccepted
         /\ api.CleanupScheduled.tenant_id h = tenantID
         /\ tenantID <> ""
         /\ exists beforeDate,
              api.ParseUserTime env (gin.Query c "before_date") true = Ok beforeDate
              /\ beforeDate <= time_Now env (tick w)
              /\ archive_queue r.2
                 = archive_queue w
                   ++ [queue.ReceivedMessage.mk
                         (queue.Message.mk queue.MessageTypeArchive tenantID []
                            (time_Now env (tick w)) beforeDate)
                         (receipt_handle env (tick w))]
     | api.CleanupRefused response =>
         archive_queue r.2 = archive_queue w
         /\ In (gin.Response.status response)
               [http.StatusUnauthorized; http.StatusBadRequest;
                http.StatusInternalServerError]
     end.
Proof.
  cbv zeta. unfold api.Cleanup.
  destruct (nonempty (gin.GetString c utils.TenantIDKey)) eqn:Hten; cbn [negb].
  2:{ split; [repeat split |]. split; [reflexivity | cbn; tauto]. }
  destruct (nonempty (gin.Query c "before_date")); cbn [negb].
  2:{ split; [repeat split |]. split; [reflexivity | cbn; tauto]. }
  destruct (api.ParseUserTime env (gin.Query c "before_date") true)
    as [beforeDate | err].
  2:{ split; [repeat split |]. split; [reflexivity | cbn; tauto]. }
  unfold time.After. destruct (time_Now env (tick w) <? beforeDate) eqn:Hfut.
  { split; [repeat split |]. split; [reflexivity | cbn; tauto]. }
  unfold service.ScheduleArchive, SQSService.SendArchiveMessage, SQSService.sendMessage.
  destruct (sqs_fails env (tick w)).
  { split; [repeat split |]. split; [reflexivity | cbn; tauto]. }
  cbn. split; [repeat split |]. split; [reflexivity |]. split; [reflexivity |].
  split; [apply nonempty_true, Hten |].
  exists beforeDate. split; [reflexivity |]. split; [| reflexivity].
  apply Z.ltb_ge, Hfut.
Qed.

(** One turn of the archive worker on a queue that holds one ARCHIVE
    message, when no outside call fails. *)
Lemma archive_worker_turn env rm w :
  never_fails env ->
  let msg := queue.ReceivedMessage.Message rm in
  queue.Message.Type_ msg = queue.MessageTypeArchive ->
  queue.Message.TenantID msg <> "" ->
  archive_queue w = [rm] ->
  let logs := archive_selection msg (audit_logs w) in
  let key := ArchiveWorker.s3Key env (queue.Message.TenantID msg)
                                 (queue.Message.BeforeDate msg) in
  exists w' now handle archived_at,
    ArchiveWorker.processMessages env w = (Ok tt, w')
    /\ audit_logs w' = audit_logs w
    /\ index_queue w' = index_queue w
    /\ archive_queue w' = []
    /\ cleanup_queue w'
       = cleanup_queue w ++ [queue.ReceivedMessage.mk (cleanup_of msg now) handle]
    /\ bucket w'
       = match logs with
         | [] => bucket w
         | _ => <[key := ArchiveData.mk (queue.Message.TenantID msg)
                           (queue.Message.BeforeDate msg) archived_at
                           (Z.of_nat (length logs)) logs]> (bucket w)
         end.
Proof.
  intros Hnf msg Htype Hten Hq logs key.
  assert (Hpg : forall n, pg_fails env n = false) by (intros n; apply Hnf).
  assert (Hsqs : forall n, sqs_fails env n = false) by (intros n; apply Hnf).
  assert (Hs3 : forall n, s3_fails env n = false) by (intros n; apply Hnf).
  unfold ArchiveWorker.processMessages, SQSService.ReceiveMessages.
  rewrite Hsqs. cbn [get_queue]. rewrite Hq.
  change (take (Z.to_nat ArchiveWorker.maxMessages) [rm]) with [rm].
  cbn [foldl]. unfold ArchiveWorker.processOne. fold msg. rewrite Htype.
  rewrite String.eqb_refl. unfold ArchiveWorker.processArchiveMessage.
  rewrite (List_archive_filter env ∅ msg _ Hten (Hpg _)).
  cbn [audit_logs call]. fold logs.
  unfold ArchiveWorker.enqueueCleanupMessage, SQSService.SendCleanupMessage,
    SQSService.sendMessage, SQSService.DeleteMessage, ArchiveWorker.archiveLogsToS3.
  destruct logs as [| log0 rest] eqn:Hlogs.
  - rewrite ?Hsqs. cbn [fst snd tick call set_queue get_queue]. rewrite ?Hsqs.
    cbn [snd audit_logs index_queue archive_queue cleanup_queue bucket call set_queue
         get_queue].
    do 3 eexists. exists 0. split; [reflexivity |]. split; [reflexivity |].
    split; [reflexivity |]. split.
    + rewrite Hq. cbn [List.filter]. rewrite String.eqb_refl. reflexivity.
    + split; reflexivity.
  - rewrite ?Hs3. cbn [fst snd tick call set_bucket]. rewrite ?Hsqs.
    cbn [fst snd tick call set_queue get_queue set_bucket]. rewrite ?Hsqs.
    cbn [snd audit_logs index_queue archive_queue cleanup_queue bucket call set_queue
         get_queue set_bucket].
    do 4 eexists. split; [reflexivity |]. split; [reflexivity |].
    split; [reflexivity |]. split.
    + rewrite Hq. cbn [List.filter]. rewrite String.eqb_refl. reflexivity.
    + split; reflexivity.
Qed.

(** One turn of the cleanup worker on a queue that holds one CLEANUP
    message, when no outside call fails. *)
Lemma cleanup_worker_turn env rm w :
  never_fails env ->
  let msg := queue.ReceivedMessage.Message rm in
  queue.Message.Type_ msg = queue.MessageTypeCleanup ->
  cleanup_queue w = [rm] ->
  exists w',
    CleanupWorker.processMessages env w = (Ok tt, w')
    /\ audit_logs w'
       = List.filter
           (fun r => negb (String.eqb (AuditLog.TenantID r) (queue.Message.TenantID msg)
                           && (AuditLog.Timestamp r <? queue.Message.BeforeDate msg)))
           (audit_logs w)
    /\ index_queue w' = index_queue w
    /\ archive_queue w' = archive_queue w
    /\ cleanup_queue w' = []
    /\ bucket w' = bucket w.
Proof.
  intros Hnf msg Htype Hq.
  assert (Hpg : forall n, pg_fails env n = false) by (intros n; apply Hnf).
  assert (Hsqs : forall n, sqs_fails env n = false) by (intros n; apply Hnf).
  unfold CleanupWorker.processMessages, SQSService.ReceiveMessages.
  rewrite Hsqs. cbn [get_queue]. rewrite Hq.
  change (take (Z.to_nat CleanupWorker.maxMessages) [rm]) with [rm].
  cbn [foldl]. unfold CleanupWorker.processOne. fold msg. rewrite Htype.
  rewrite String.eqb_refl.
  unfold CleanupWorker.processCleanupMessage, postgres.DeleteBeforeDate, gorm.Delete,
    SQSService.DeleteMessage.
  rewrite Hpg. cbn [fst snd tick call set_audit_logs]. rewrite Hsqs.
  cbn [snd audit_logs index_queue archive_queue cleanup_queue bucket call set_queue
       get_queue set_audit_logs].
  eexists. split; [reflexivity |]. split.
  { apply filter_ext_in. intros r. rewrite matches_Where. reflexivity. }
  split; [reflexivity |]. split; [reflexivity |]. split; [| reflexivity].
  rewrite Hq. cbn [List.filter]. rewrite String.eqb_refl. reflexivity.
Qed.

(** An accepted [Cleanup], by its effect. *)
Lemma Cleanup_accepts env c w beforeDate :
  sqs_fails env (tick w) = false ->
  gin.GetString c utils.TenantIDKey <> "" ->
  gin.Query c "before_date" <> "" ->
  api.ParseUserTime env (gin.Query c "before_date") true = Ok beforeDate ->
  beforeDate <= time_Now env (tick w) ->
  let r := api.Cleanup env c w in
  let msg := queue.Message.mk queue.MessageTypeArchive
               (gin.GetString c utils.TenantIDKey) [] (time_Now env (tick w))
               beforeDate in
  r.1 = api.CleanupAccepted http.StatusAccepted
          (api.CleanupScheduled.mk "Cleanup operation scheduled successfully"
             (gin.GetString c utils.TenantIDKey)
             (time_Format env "2006-01-02T15:04:05Z07:00" beforeDate))
  /\ audit_logs r.2 = audit_logs w
  /\ index_queue r.2 = index_queue w
  /\ cleanup_queue r.2 = cleanup_queue w
  /\ bucket r.2 = bucket w
  /\ archive_queue r.2
     = archive_queue w ++ [queue.ReceivedMessage.mk msg (receipt_handle env (tick w))].
Proof.
  intros Hsqs Hten Hq Hparse Hpast. cbv zeta. unfold api.Cleanup.
  apply nonempty_true in Hten, Hq. rewrite Hten, Hq, Hparse. cbn [negb].
  unfold time.After. apply Z.ltb_ge in Hpast. rewrite Hpast.
  unfold service.ScheduleArchive, SQSService.SendArchiveMessage, SQSService.sendMessage.
  rewrite Hsqs. cbn. repeat split.
Qed.

(** The whole lifecycle, when no outside call fails and the queues are
    empty at the start: an accepted cleanup request, one turn of the archive
    worker and one turn of the cleanup worker.  At the end the tenant's
    events before the date, and no other, are gone from the primary store;
    every event that went is in the object of the archive; the object holds
    the tenant's events up to the date as they were at the start; both
    queues are empty again. *)
Theorem cleanup_lifecycle env c w0 beforeDate :
  never_fails env ->
  archive_queue w0 = [] ->
  cleanup_queue w0 = [] ->
  gin.GetString c utils.TenantIDKey <> "" ->
  gin.Query c "before_date" <> "" ->
  api.ParseUserTime env (gin.Query c "before_date") true = Ok beforeDate ->
  beforeDate <= time_Now env (tick w0) ->
  let tenantID := gin.GetString c utils.TenantIDKey in
  let msg := queue.Message.mk queue.MessageTypeArchive tenantID []
               (time_Now env (tick w0)) beforeDate in
  let key := ArchiveWorker.s3Key env tenantID beforeDate in
  let w1 := (api.Cleanup env c w0).2 in
  let w2 := (ArchiveWorker.processMessages env w1).2 in
  let w3 := (CleanupWorker.processMessages env w2).2 in
  (forall e,
     In e (audit_logs w3)
     <-> In e (audit_logs w0)
         /\ ~ (AuditLog.TenantID e = tenantID /\ AuditLog.Timestamp e < beforeDate))
  /\ (forall e,
        In e (audit_logs w0) -> ~ In e (audit_logs w3) ->
        exists obj, bucket w3 !! key = Some obj /\ In e (ArchiveData.logs obj))
  /\ (archive_selection msg (audit_logs w0) <> [] ->
      exists obj,
        bucket w3 !! key = Some obj
        /\ ArchiveData.logs obj = archive_selection msg (audit_logs w0))
  /\ archive_queue w3 = []
  /\ cleanup_queue w3 = [].
Proof.
  intros Hnf Ha0 Hc0 Hten Hq Hparse Hpast tenantID msg key w1 w2 w3.
  assert (Hsqs : sqs_fails env (tick w0) = false) by apply Hnf.
  destruct (Cleanup_accepts env c w0 beforeDate Hsqs Hten Hq Hparse Hpast)
    as (_ & Hlogs1 & _ & Hc1 & Hb1 & Ha1).
  cbv zeta in Hlogs1, Hc1, Hb1, Ha1. fold w1 tenantID in Hlogs1, Hc1, Hb1, Ha1.
  fold msg in Ha1. rewrite Ha0 in Ha1. cbn [app] in Ha1. rewrite Hc0 in Hc1.
  destruct (archive_worker_turn env
              (queue.ReceivedMessage.mk msg (receipt_handle env (tick w0)))
              w1 Hnf eq_refl Hten Ha1)
    as (w2' & now & handle & archived_at & Hturn2 & Hlogs2 & _ & Ha2 & Hc2 & Hb2).
  cbn [queue.ReceivedMessage.Message] in Hturn2, Hlogs2, Ha2, Hc2, Hb2.
  assert (Hw2 : w2 = w2') by (unfold w2; rewrite Hturn2; reflexivity).
  rewrite <- Hw2 in *. clear Hw2 w2' Hturn2.
  rewrite Hc1 in Hc2. cbn [app] in Hc2.
  destruct (cleanup_worker_turn env
              (queue.ReceivedMessage.mk (cleanup_of msg now) handle) w2 Hnf eq_refl Hc2)
    as (w3' & Hturn3 & Hlogs3 & _ & Ha3 & Hc3 & Hb3).
  cbn [queue.ReceivedMessage.Message cleanup_of queue.Message.TenantID
       queue.Message.BeforeDate] in Hlogs3.
  assert (Hw3 : w3 = w3') by (unfold w3; rewrite Hturn3; reflexivity).
  rewrite <- Hw3 in *. clear Hw3 w3' Hturn3.
  rewrite Hlogs2, Hlogs1 in Hlogs3.
  change (queue.Message.TenantID msg) with tenantID in Hlogs3.
  change (queue.Message.BeforeDate msg) with beforeDate in Hlogs3.
  assert (Hgone : forall e,
            In e (audit_logs w3)
            <-> In e (audit_logs w0)
                /\ ~ (AuditLog.TenantID e = tenantID /\ AuditLog.Timestamp e < beforeDate)).
  { intros e. rewrite Hlogs3, filter_In, negb_true_iff, andb_false_iff.
    rewrite String.eqb_neq, Z.ltb_ge. fold tenantID. split.
    - intros [Hin Hno]. split; [exact Hin |]. intros [Ht Hlt].
      destruct Hno as [Hno | Hno]; [contradiction | lia].
    - intros [Hin Hno]. split; [exact Hin |].
      destruct (decide (AuditLog.TenantID e = tenantID)) as [Ht | Ht];
        [| left; exact Ht].
      right. destruct (Z.lt_ge_cases (AuditLog.Timestamp e) beforeDate) as [Hlt | Hge];
        [exfalso; apply Hno; split; assumption | exact Hge]. }
  rewrite Hlogs1 in Hb2. rewrite Hb3, Hb2, Hb1.
  assert (Hobj : archive_selection msg (audit_logs w0) <> [] ->
            exists obj,
              (match archive_selection msg (audit_logs w0) with
               | [] => bucket w0
               | _ :: _ =>
                   <[ArchiveWorker.s3Key env (queue.Message.TenantID msg)
                       (queue.Message.BeforeDate msg) :=
                       ArchiveData.mk (queue.Message.TenantID msg)
                         (queue.Message.BeforeDate msg) archived_at
                         (Z.of_nat (length (archive_selection msg (audit_logs w0))))
                         (archive_selection msg (audit_logs w0))]> (bucket w0)
               end) !! key = Some obj
              /\ ArchiveData.logs obj = archive_selection msg (audit_logs w0)).
  { intros Hne. destruct (archive_selection msg (audit_logs w0)) as [| a l] eqn:Hsel;
      [contradiction |].
    eexists. split; [apply lookup_insert_eq | reflexivity]. }
  split; [exact Hgone |]. split; [| split; [exact Hobj |]].
  - intros e Hin Hout.
    assert (Hrange : AuditLog.TenantID e = tenantID /\ AuditLog.Timestamp e < beforeDate).
    { destruct (decide (AuditLog.TenantID e = tenantID)) as [Ht | Ht].
      - destruct (Z.lt_ge_cases (AuditLog.Timestamp e) beforeDate) as [Hlt | Hge];
          [split; assumption |].
        exfalso. apply Hout, Hgone. split; [exact Hin |]. intros [_ Hlt]. lia.
      - exfalso. apply Hout, Hgone. split; [exact Hin |]. intros [Ht' _].
        contradiction. }
    assert (Hsel : In e (archive_selection msg (audit_logs w0))).
    { apply In_archive_selection. split; [exact Hin |].
      split; [apply Hrange |]. right. cbn. lia. }
    destruct Hobj as (obj & Hlook & Hlogs).
    { intros Hnil. rewrite Hnil in Hsel. destruct Hsel. }
    exists obj. split; [exact Hlook |]. rewrite Hlogs. exact Hsel.
  - rewrite Ha3. split; [exact Ha2 | exact Hc3].
Qed.

Lemma cleanup_lifecycle_witness :
  let table := [event "log-1" tenant_a (march_20 + 5);
                event "log-2" tenant_b (march_20 + 6);
                event "log-3" tenant_a (march_20 + 48 * time.Hour)] in
  let w0 := set_audit_logs table empty_world in
  let c := request_of tenant_a ∅ {[ "before_date" := "2024-03-20" ]} gin.Malformed in
  let w1 := (api.Cleanup literate c w0).2 in
  let w2 := (ArchiveWorker.processMessages literate w1).2 in
  let w3 := (CleanupWorker.processMessages literate w2).2 in
  audit_logs w3 = [event "log-2" tenant_b (march_20 + 6);
                   event "log-3" tenant_a (march_20 + 48 * time.Hour)]
  /\ (exists obj,
        bucket w3 !! ArchiveWorker.s3Key literate tenant_a
                       (march_20 + (24 * time.Hour - time.Second)) = Some obj
        /\ In (event "log-1" tenant_a (march_20 + 5)) (ArchiveData.logs obj))
  /\ archive_queue w3 = []
  /\ cleanup_queue w3 = [].
Proof.
  intros table w0 c w1 w2 w3.
  assert (Hnf : never_fails literate) by (intros n; repeat split).
  assert (Hten : gin.GetString c utils.TenantIDKey <> "")
    by (vm_compute; discriminate).
  assert (Hq : gin.Query c "before_date" <> "") by (vm_compute; discriminate).
  assert (Hparse : api.ParseUserTime literate (gin.Query c "before_date") true
                   = Ok (march_20 + (24 * time.Hour - time.Second)))
    by (vm_compute; reflexivity).
  assert (Hpast : march_20 + (24 * time.Hour - time.Second)
                  <= time_Now literate (tick w0))
    by (vm_compute; discriminate).
  destruct (cleanup_lifecycle literate c w0
              (march_20 + (24 * time.Hour - time.Second)) Hnf eq_refl eq_refl
              Hten Hq Hparse Hpast)
    as (_ & Harch & _ & Ha & Hc).
  split; [vm_compute; reflexivity |].
  split; [| split; assumption].
  apply Harch.
  - left. reflexivity.
  - vm_compute. intros [H | [H | []]]; discriminate.
Defined.

(** An ARCHIVE message that is processed again after the cleanup of its task
    has run (the broker delivers at least once) writes the object anew from
    what the primary store holds now: when any event of the tenant is left
    at exactly the before-date, the object is replaced by one that holds
    only such events, and none of the events that the cleanup deleted. *)
Theorem archive_again_replaces_object env ctx msg w w1 :
  queue.Message.BeforeDate msg <> 0 ->
  (forall r, In r (audit_logs w) -> ~ in_cleanup_range msg r) ->
  archive_selection msg (audit_logs w) <> [] ->
  ArchiveWorker.processArchiveMessage env ctx msg w = (Ok tt, w1) ->
  exists obj,
    bucket w1 !! ArchiveWorker.s3Key env (queue.Message.TenantID msg)
                                      (queue.Message.BeforeDate msg) = Some obj
    /\ (forall r, In r (ArchiveData.logs obj) ->
                  AuditLog.TenantID r = queue.Message.TenantID msg
                  /\ AuditLog.Timestamp r = queue.Message.BeforeDate msg)
    /\ (forall e, in_cleanup_range msg e -> ~ In e (ArchiveData.logs obj)).
Proof.
  intros Hdate Hclean Hsel Hturn.
  destruct (archive_turn_success env ctx msg w w1 Hturn) as [_ Hobj].
  destruct (Hobj Hsel) as [archived_at Hlook].
  eexists. split; [exact Hlook |]. cbn [ArchiveData.logs].
  assert (Hin : forall r, In r (archive_selection msg (audit_logs w)) ->
                  AuditLog.TenantID r = queue.Message.TenantID msg
                  /\ AuditLog.Timestamp r = queue.Message.BeforeDate msg).
  { intros r Hr. apply In_archive_selection in Hr.
    destruct Hr as (Hr & Ht & [Hz | Hle]); [contradiction |].
    split; [exact Ht |].
    destruct (Z.lt_ge_cases (AuditLog.Timestamp r) (queue.Message.BeforeDate msg))
      as [Hlt | Hge]; [| lia].
    exfalso. apply (Hclean r Hr). split; assumption. }
  split; [exact Hin |].
  intros e [_ Hlt] He. apply Hin in He. lia.
Qed.

Lemma archive_again_replaces_object_witness :
  let msg := queue.ReceivedMessage.Message (archive_message tenant_a 10) in
  let key := ArchiveWorker.s3Key quiet tenant_a 10 in
  let w := set_bucket {[ key := ArchiveData.mk tenant_a 10 1000 2
                                  [event "log-2" tenant_a 10; event "log-1" tenant_a 5] ]}
             (set_audit_logs [event "log-2" tenant_a 10] empty_world) in
  exists obj,
    bucket (ArchiveWorker.processArchiveMessage quiet ∅ msg w).2 !! key = Some obj
    /\ ~ In (event "log-1" tenant_a 5) (ArchiveData.logs obj).
Proof.
  intros msg key w.
  destruct (archive_again_replaces_object quiet ∅ msg w
              (ArchiveWorker.processArchiveMessage quiet ∅ msg w).2)
    as (obj & Hlook & _ & Hout).
  - discriminate.
  - intros r [<- | []] [_ Hlt]. vm_compute in Hlt. discriminate.
  - discriminate.
  - reflexivity.
  - exists obj. split; [exact Hlook |]. apply Hout. split; reflexivity.
Defined.

(** ** Rate limiting *)

Lemma Get_Int_stored env key w n :
  counter_substrate_sound env -> 0 <= n ->
  redis_keys w !! key = stored_counter env n ->
  exists err,
    RateLimitMiddleware.Get_Int env key w = (n, err, call (RedisGet key true) w)
    /\ RateLimitMiddleware.hard_error err = false.
Proof.
  intros [Hredis Hconv] Hn Hkey. unfold RateLimitMiddleware.Get_Int.
  rewrite Hredis, Hkey. unfold stored_counter.
  destruct (n =? 0) eqn:Hz.
  - apply Z.eqb_eq in Hz. subst n. eexists. split; [reflexivity |]. reflexivity.
  - rewrite Hconv by exact Hn. eexists. split; [reflexivity |]. reflexivity.
Qed.

(** One request at the global limiter, with [n] requests counted so far. *)
Lemma GlobalRateLimit_step env limit c w n :
  counter_substrate_sound env -> 0 <= n < 2 ^ 63 - 1 ->
  let key := ("rate_limit:global:" ++ gin.Context.ClientIP c)%string in
  redis_keys w !! key = stored_counter env n ->
  let r := RateLimitMiddleware.GlobalRateLimit env limit c w in
  if limit <=? n
  then RateLimitMiddleware.Outcome.next r.1 = false
       /\ (exists reset,
             RateLimitMiddleware.Outcome.response r.1
             = Some (gin.JSON http.StatusTooManyRequests
                       (gin.JSONRateLimit "Global rate limit exceeded" limit reset)))
       /\ redis_keys r.2 = redis_keys w
  else RateLimitMiddleware.Outcome.next r.1 = true
       /\ RateLimitMiddleware.Outcome.response r.1 = None
       /\ (exists reset,
             RateLimitMiddleware.Outcome.headers r.1
             = RateLimitMiddleware.rate_headers limit (limit - (n + 1)) reset)
       /\ redis_keys r.2 !! key = stored_counter env (n + 1).
Proof.
  intros Hsound Hn key Hkey. cbv zeta. unfold RateLimitMiddleware.GlobalRateLimit.
  fold key.
  destruct (Get_Int_stored env key w n Hsound (proj1 Hn) Hkey) as (err & HG & Hhard).
  rewrite HG, Hhard. destruct (limit <=? n) eqn:Hlim.
  - cbn. split; [reflexivity |]. split; [eexists; reflexivity | reflexivity].
  - apply Z.leb_gt in Hlim. destruct Hsound as [Hredis Hconv].
    cbn [fst snd RateLimitMiddleware.Outcome.next RateLimitMiddleware.Outcome.response
         RateLimitMiddleware.Outcome.headers].
    split; [reflexivity |]. split; [reflexivity |]. split.
    + replace (limit - (n + 1) <? 0) with false by (symmetry; apply Z.ltb_ge; lia).
      eexists. reflexivity.
    + unfold RateLimitMiddleware.Incr_Expire. rewrite Hredis.
      cbn [redis_keys call]. rewrite Hkey. unfold stored_counter.
      destruct (n =? 0) eqn:Hz.
      * apply Z.eqb_eq in Hz. subst n. cbn [redis_keys call set_redis_keys].
        rewrite lookup_insert_eq. reflexivity.
      * rewrite Hconv by lia. cbn [redis_keys call set_redis_keys].
        rewrite lookup_insert_eq, wrap_int_small by lia.
        apply Z.eqb_neq in Hz.
        replace (n + 1 =? 0) with false by (symmetry; apply Z.eqb_neq; lia).
        reflexivity.
Qed.

Lemma after_requests_counter env limit c w :
  counter_substrate_sound env -> 0 <= limit < 2 ^ 63 - 1 ->
  redis_keys w !! ("rate_limit:global:" ++ gin.Context.ClientIP c)%string = None ->
  forall k,
    redis_keys (after_requests env limit c k w)
      !! ("rate_limit:global:" ++ gin.Context.ClientIP c)%string
    = stored_counter env (Z.min (Z.of_nat k) limit).
Proof.
  intros Hsound Hlimit Hkey. induction k as [| k IH].
  - cbn [after_requests]. rewrite Hkey.
    replace (Z.min (Z.of_nat 0) limit) with 0 by lia. reflexivity.
  - cbn [after_requests].
    set (wk := after_requests env limit c k w) in *.
    pose proof (GlobalRateLimit_step env limit c wk (Z.min (Z.of_nat k) limit) Hsound) as Hs.
    cbv zeta in Hs. specialize (Hs ltac:(lia) IH).
    destruct (limit <=? Z.min (Z.of_nat k) limit) eqn:Hlim.
    + apply Z.leb_le in Hlim. destruct Hs as (_ & _ & Hsame). rewrite Hsame, IH.
      f_equal. lia.
    + apply Z.leb_gt in Hlim. destruct Hs as (_ & _ & _ & Hnext). rewrite Hnext.
      f_equal. lia.
Qed.

(** From an absent counter, and as long as the counter does not expire, the
    global limiter lets exactly [limit] requests of a client pass: the
    request after [k] earlier ones proceeds when [k < limit], with
    [limit - k - 1] announced as remaining, and is answered with 429 and
    not passed on when [k >= limit]. *)
Theorem GlobalRateLimit_lets_limit_pass env limit c w k :
  counter_substrate_sound env ->
  0 <= limit < 2 ^ 63 - 1 ->
  redis_keys w !! ("rate_limit:global:" ++ gin.Context.ClientIP c)%string = None ->
  let r := RateLimitMiddleware.GlobalRateLimit env limit c
             (after_requests env limit c k w) in
  if Z.of_nat k <? limit
  then RateLimitMiddleware.Outcome.next r.1 = true
       /\ RateLimitMiddleware.Outcome.response r.1 = None
       /\ exists reset,
            RateLimitMiddleware.Outcome.headers r.1
            = RateLimitMiddleware.rate_headers limit (limit - Z.of_nat k - 1) reset
  else RateLimitMiddleware.Outcome.next r.1 = false
       /\ exists reset,
            RateLimitMiddleware.Outcome.response r.1
            = Some (gin.JSON http.StatusTooManyRequests
                      (gin.JSONRateLimit "Global rate limit exceeded" limit reset)).
Proof.
  intros Hsound Hlimit Hkey. cbv zeta.
  pose proof (after_requests_counter env limit c w Hsound Hlimit Hkey k) as Hk.
  pose proof (GlobalRateLimit_step env limit c (after_requests env limit c k w)
                (Z.min (Z.of_nat k) limit) Hsound) as Hs.
  cbv zeta in Hs. specialize (Hs ltac:(lia) Hk).
  destruct (Z.of_nat k <? limit) eqn:Hlt.
  - apply Z.ltb_lt in Hlt.
    replace (limit <=? Z.min (Z.of_nat k) limit) with false in Hs
      by (symmetry; apply Z.leb_gt; lia).
    destruct Hs as (Hn & Hr & [reset Hh] & _). split; [exact Hn |].
    split; [exact Hr |]. exists reset. rewrite Hh. f_equal. lia.
  - apply Z.ltb_ge in Hlt.
    replace (limit <=? Z.min (Z.of_nat k) limit) with true in Hs
      by (symmetry; apply Z.leb_le; lia).
    destruct Hs as (Hn & Hr & _). split; [exact Hn | exact Hr].
Qed.

Lemma decimal_sound : counter_substrate_sound decimal.
Proof.
  split; [reflexivity |]. intros z _. cbn [strconv_Atoi strconv_Itoa decimal].
  rewrite DecimalString.NilZero.isi.
  - cbn [option_map]. rewrite DecimalZ.of_to. reflexivity.
  - destruct z as [| p | p]; cbn; try discriminate.
    intros [= H]. exact (DecimalPos.Unsigned.to_uint_nonnil p H).
  - destruct z as [| p | p]; cbn; try discriminate.
    intros [= H]. exact (DecimalPos.Unsigned.to_uint_nonnil p H).
Qed.

Lemma GlobalRateLimit_lets_limit_pass_witness :
  let c := limited_request tenant_a in
  let outcome k :=
    (RateLimitMiddleware.GlobalRateLimit decimal 2 c
       (after_requests decimal 2 c k empty_world)).1 in
  RateLimitMiddleware.Outcome.next (outcome 1%nat) = true
  /\ RateLimitMiddleware.Outcome.next (outcome 2%nat) = false.
Proof.
  intros c outcome.
  pose proof (GlobalRateLimit_lets_limit_pass decimal 2 c empty_world 1
                decimal_sound ltac:(lia) eq_refl) as H1.
  pose proof (GlobalRateLimit_lets_limit_pass decimal 2 c empty_world 2
                decimal_sound ltac:(lia) eq_refl) as H2.
  cbv zeta in H1, H2.
  change (Z.of_nat 1 <? 2) with true in H1. change (Z.of_nat 2 <? 2) with false in H2.
  cbv iota in H1, H2. split; [apply H1 | apply H2].
Defined.

(** [JWTAuth] sets the claims in the key map of the request, and
    [TenantRateLimit] looks for them in the context of the request itself:
    for a request that [JWTAuth] let through and whose own context holds no
    claims, the tenant limiter answers 401, does not pass the request on
    and never reads a counter. *)
Theorem TenantRateLimit_after_JWTAuth env config claims c0 w :
  gin.Context.Request_Context c0 !! utils.ClaimsKey = None ->
  RateLimitMiddleware.TenantRateLimit env config (AuthMiddleware.set_claims claims c0) w
  = (RateLimitMiddleware.Outcome.mk false
       (Some (gin.JSON http.StatusUnauthorized
                (gin.JSONError (New "Tenant ID required for rate limiting"))))
       [], w).
Proof.
  intros Hctx. unfold RateLimitMiddleware.TenantRateLimit, AuthMiddleware.set_claims.
  cbn [gin.Context.Request_Context]. unfold utils.GetTenantIDFromContext.
  rewrite Hctx. reflexivity.
Qed.

Lemma TenantRateLimit_after_JWTAuth_witness :
  RateLimitMiddleware.TenantRateLimit quiet (RateLimitMiddleware.Config.mk 1000)
    (request_of tenant_a ∅ ∅ gin.Malformed) empty_world
  = (RateLimitMiddleware.Outcome.mk false
       (Some (gin.JSON 401 (gin.JSONError (New "Tenant ID required for rate limiting"))))
       [], empty_world).
Proof.
  apply (TenantRateLimit_after_JWTAuth quiet (RateLimitMiddleware.Config.mk 1000)
           {[ utils.TenantIDKey := utils.AnyString tenant_a ]}
           (gin.Context.mk ∅ ∅ ∅ ∅ "10.0.0.1" gin.Malformed) empty_world).
  reflexivity.
Defined.

(** ** The live hub *)

Lemma clients_of_insert_fresh t a c (m : gmap nat WebSocketHandler.Client.t) :
  m !! a = None ->
  clients_of t (<[a := c]> m)
  = clients_of t m + (if decide (WebSocketHandler.Client.tenantID c = t) then 1 else 0).
Proof.
  intros Hnone. unfold clients_of. rewrite map_filter_insert. cbn [snd].
  destruct (decide (WebSocketHandler.Client.tenantID c = t)).
  - rewrite map_size_insert_None; [lia |].
    apply map_lookup_filter_None. left. exact Hnone.
  - rewrite delete_id by exact Hnone. lia.
Qed.

Lemma clients_of_delete t a c (m : gmap nat WebSocketHandler.Client.t) :
  m !! a = Some c ->
  clients_of t (delete a m)
  = clients_of t m - (if decide (WebSocketHandler.Client.tenantID c = t) then 1 else 0).
Proof.
  intros Hsome.
  rewrite <- (insert_delete_id m a c Hsome) at 2.
  rewrite clients_of_insert_fresh by apply lookup_delete_eq. lia.
Qed.

Lemma clients_of_nonneg t m : 0 <= clients_of t m.
Proof. unfold clients_of. lia. Qed.

Lemma clients_of_replace t a c c' (m : gmap nat WebSocketHandler.Client.t) :
  m !! a = Some c ->
  WebSocketHandler.Client.tenantID c' = WebSocketHandler.Client.tenantID c ->
  clients_of t (<[a := c']> m) = clients_of t m.
Proof.
  intros Hsome Hten. rewrite <- (insert_delete_eq m).
  rewrite clients_of_insert_fresh by apply lookup_delete_eq.
  rewrite (clients_of_delete t a c m Hsome), Hten. lia.
Qed.

(** [release] after a client of the tenant left the map. *)
Lemma release_consistent tenantID a c h :
  hub_consistent h ->
  WebSocketHandler.clients h !! a = Some c ->
  WebSocketHandler.Client.tenantID c = tenantID ->
  hub_consistent
    (WebSocketHandler.release tenantID
       (WebSocketHandler.mk (delete a (WebSocketHandler.clients h))
          (WebSocketHandler.tenantClients h) (WebSocketHandler.subscribers h))).
Proof.
  intros Hcons Hsome Hten t. cbv zeta.
  destruct (Hcons tenantID) as [Htc Hsub]. cbv zeta in Htc, Hsub.
  destruct (Hcons t) as [Htc' Hsub']. cbv zeta in Htc', Hsub'.
  pose proof (clients_of_delete tenantID a c _ Hsome) as Hd.
  pose proof (clients_of_delete t a c _ Hsome) as Hd'.
  pose proof (clients_of_nonneg tenantID (delete a (WebSocketHandler.clients h))) as Hnn.
  rewrite Hten in Hd, Hd'. rewrite decide_True in Hd by reflexivity.
  unfold WebSocketHandler.release.
  cbn [WebSocketHandler.tenantClients WebSocketHandler.clients
       WebSocketHandler.subscribers].
  rewrite Htc.
  replace (clients_of tenantID (WebSocketHandler.clients h) =? 0) with false
    by (symmetry; apply Z.eqb_neq; lia).
  cbn [default]. unfold id.
  destruct (clients_of tenantID (WebSocketHandler.clients h) - 1 =? 0) eqn:Hz;
    cbn [WebSocketHandler.tenantClients WebSocketHandler.clients
         WebSocketHandler.subscribers].
  - apply Z.eqb_eq in Hz. destruct (decide (tenantID = t)) as [<- | Hne].
    + rewrite lookup_delete_eq, Hd, Hz. cbn. split; [reflexivity |].
      rewrite elem_of_difference, elem_of_singleton.
      split; [intros [_ Hno]; contradiction Hno; reflexivity | lia].
    + rewrite lookup_delete_ne by exact Hne. rewrite Hd', Z.sub_0_r.
      split; [exact Htc' |]. rewrite <- Hsub'.
      rewrite elem_of_difference, elem_of_singleton.
      split; [tauto | intros Hin; split; [exact Hin | congruence]].
  - apply Z.eqb_neq in Hz. destruct (decide (tenantID = t)) as [<- | Hne].
    + rewrite lookup_insert_eq, Hd.
      replace (clients_of tenantID (WebSocketHandler.clients h) - 1 =? 0) with false
        by (symmetry; apply Z.eqb_neq; exact Hz).
      split; [reflexivity |]. rewrite Hsub. lia.
    + rewrite lookup_insert_ne by exact Hne. rewrite Hd', Z.sub_0_r.
      split; [exact Htc' | exact Hsub'].
Qed.

Lemma register_consistent addr client h :
  hub_consistent h ->
  WebSocketHandler.clients h !! addr = None ->
  hub_consistent (WebSocketHandler.register addr client h).
Proof.
  intros Hcons Hnone t. cbv zeta.
  set (t0 := WebSocketHandler.Client.tenantID client).
  destruct (Hcons t0) as [Htc Hsub]. cbv zeta in Htc, Hsub.
  destruct (Hcons t) as [Htc' Hsub']. cbv zeta in Htc', Hsub'.
  pose proof (clients_of_insert_fresh t0 addr client _ Hnone) as Hi.
  pose proof (clients_of_insert_fresh t addr client _ Hnone) as Hi'.
  pose proof (clients_of_nonneg t0 (WebSocketHandler.clients h)) as Hnn.
  fold t0 in Hi, Hi'. rewrite decide_True in Hi by reflexivity.
  unfold WebSocketHandler.register. fold t0.
  cbn [WebSocketHandler.tenantClients WebSocketHandler.clients
       WebSocketHandler.subscribers].
  assert (Hn : default 0 (WebSocketHandler.tenantClients h !! t0)
               = clients_of t0 (WebSocketHandler.clients h)).
  { rewrite Htc. destruct (clients_of t0 _ =? 0) eqn:Hz; [| reflexivity].
    apply Z.eqb_eq in Hz. rewrite Hz. reflexivity. }
  rewrite Hn. destruct (decide (t0 = t)) as [<- | Hne].
  - rewrite lookup_insert_eq, Hi.
    replace (clients_of t0 (WebSocketHandler.clients h) + 1 =? 0) with false
      by (symmetry; apply Z.eqb_neq; lia).
    split; [reflexivity |].
    destruct (clients_of t0 (WebSocketHandler.clients h) + 1 =? 1) eqn:H1.
    + split; [lia |]. intros _. apply elem_of_union. right.
      apply elem_of_singleton. reflexivity.
    + apply Z.eqb_neq in H1. rewrite Hsub. lia.
  - rewrite lookup_insert_ne by exact Hne. rewrite Hi', Z.add_0_r.
    split; [exact Htc' |].
    destruct (clients_of t0 (WebSocketHandler.clients h) + 1 =? 1);
      [| exact Hsub'].
    rewrite <- Hsub', elem_of_union, elem_of_singleton.
    split; [intros [Hin | Hin]; [exact Hin | congruence] | tauto].
Qed.

Lemma unregister_consistent addr h :
  hub_consistent h -> hub_consistent (WebSocketHandler.unregister addr h).
Proof.
  intros Hcons. unfold WebSocketHandler.unregister.
  destruct (WebSocketHandler.clients h !! addr) as [client |] eqn:Hc; [| exact Hcons].
  apply (release_consistent _ addr client h Hcons Hc). reflexivity.
Qed.

Lemma deliver_consistent log h addr :
  hub_consistent h -> hub_consistent (WebSocketHandler.deliver log h addr).
Proof.
  intros Hcons. unfold WebSocketHandler.deliver.
  destruct (WebSocketHandler.clients h !! addr) as [client |] eqn:Hc; [| exact Hcons].
  destruct (String.eqb _ _); [| exact Hcons].
  destruct (_ <? _).
  - intros t. cbv zeta.
    cbn [WebSocketHandler.tenantClients WebSocketHandler.clients
         WebSocketHandler.subscribers].
    rewrite (clients_of_replace t addr client _ _ Hc) by reflexivity.
    apply Hcons.
  - apply (release_consistent _ addr client h Hcons Hc). reflexivity.
Qed.

(** The books of the hub stay in agreement with its clients: they agree in
    a new hub, and registering a new client, unregistering a client and
    handling a pub/sub message (which drops the clients whose buffer is
    full) keep them so. *)
Theorem hub_stays_consistent :
  hub_consistent WebSocketHandler.NewWebSocketHandler
  /\ (forall h addr client,
        hub_consistent h -> WebSocketHandler.clients h !! addr = None ->
        hub_consistent (WebSocketHandler.register addr client h))
  /\ (forall h addr,
        hub_consistent h -> hub_consistent (WebSocketHandler.unregister addr h))
  /\ (forall h log,
        hub_consistent h -> hub_consistent (WebSocketHandler.handlePubSubMessage log h)).
Proof.
  split; [| split; [| split]].
  - intros t. cbv zeta. unfold clients_of. cbn [WebSocketHandler.NewWebSocketHandler
      WebSocketHandler.clients WebSocketHandler.tenantClients
      WebSocketHandler.subscribers].
    rewrite map_filter_empty, map_size_empty. cbn. split; [apply lookup_empty |].
    split; [intros Hin; apply elem_of_empty in Hin; destruct Hin | lia].
  - intros h addr client Hc Hn. apply register_consistent; assumption.
  - intros h addr Hc. apply unregister_consistent, Hc.
  - intros h log Hc. unfold WebSocketHandler.handlePubSubMessage.
    generalize (map fst (map_to_list (WebSocketHandler.clients h))). intros addrs.
    revert h Hc. induction addrs as [| a addrs IH]; intros h Hc; [exact Hc |].
    cbn [foldl]. apply IH, deliver_consistent, Hc.
Qed.

Lemma hub_stays_consistent_witness :
  let a := WebSocketHandler.Client.mk tenant_a [] in
  let b := WebSocketHandler.Client.mk tenant_b [] in
  let h := WebSocketHandler.register 2 b
             (WebSocketHandler.register 1 a WebSocketHandler.NewWebSocketHandler) in
  hub_consistent h
  /\ hub_consistent (WebSocketHandler.unregister 1 h)
  /\ hub_consistent
       (WebSocketHandler.handlePubSubMessage
          (dto.FromAuditLog (event "log-1" tenant_a 5)) h).
Proof.
  intros a b h.
  destruct hub_stays_consistent as (Hnew & Hreg & Hunreg & Hmsg).
  assert (Hh : hub_consistent h).
  { apply Hreg; [apply Hreg; [exact Hnew | reflexivity] | reflexivity]. }
  split; [exact Hh |]. split; [apply Hunreg, Hh | apply Hmsg, Hh].
Defined.

(** *** Delivery *)

Lemma deliver_other_addr log h a addr :
  a <> addr ->
  WebSocketHandler.clients (WebSocketHandler.deliver log h a) !! addr
  = WebSocketHandler.clients h !! addr.
Proof.
  intros Hne. unfold WebSocketHandler.deliver.
  destruct (WebSocketHandler.clients h !! a) as [client |]; [| reflexivity].
  destruct (String.eqb _ _); [| reflexivity].
  destruct (_ <? _).
  - cbn [WebSocketHandler.clients]. apply lookup_insert_ne, Hne.
  - rewrite release_clients. cbn [WebSocketHandler.clients].
    apply lookup_delete_ne, Hne.
Qed.

Lemma deliver_all_absent log addrs : forall h addr,
  ~ In addr addrs ->
  WebSocketHandler.clients (foldl (WebSocketHandler.deliver log) h addrs) !! addr
  = WebSocketHandler.clients h !! addr.
Proof.
  induction addrs as [| a addrs IH]; intros h addr Hout; [reflexivity |].
  cbn [foldl]. rewrite IH by (intros Hin; apply Hout; right; exact Hin).
  apply deliver_other_addr. intros ->. apply Hout. left. reflexivity.
Qed.

Lemma deliver_same log h a :
  WebSocketHandler.clients (WebSocketHandler.deliver log h a) !! a
  = WebSocketHandler.clients h !! a ≫= delivered_to log.
Proof.
  unfold WebSocketHandler.deliver, delivered_to.
  destruct (WebSocketHandler.clients h !! a) as [client |] eqn:Hc;
    cbn [mbind option_bind]; [| exact Hc].
  destruct (String.eqb _ _); [| exact Hc].
  destruct (_ <? _).
  - cbn [WebSocketHandler.clients]. apply lookup_insert_eq.
  - rewrite release_clients. cbn [WebSocketHandler.clients]. apply lookup_delete_eq.
Qed.

Lemma deliver_all_exact log addrs : forall h addr,
  NoDup addrs -> In addr addrs ->
  WebSocketHandler.clients (foldl (WebSocketHandler.deliver log) h addrs) !! addr
  = WebSocketHandler.clients h !! addr ≫= delivered_to log.
Proof.
  induction addrs as [| a addrs IH]; intros h addr Hnd Hin; [destruct Hin |].
  apply NoDup_cons in Hnd. destruct Hnd as [Ha Hnd]. cbn [foldl].
  destruct (decide (a = addr)) as [-> | Hne].
  - rewrite deliver_all_absent; [apply deliver_same |].
    intros Hin'. apply Ha. apply list_elem_of_In. exact Hin'.
  - destruct Hin as [Heq | Hin]; [contradiction |].
    rewrite (IH _ _ Hnd Hin), deliver_other_addr by exact Hne. reflexivity.
Qed.

(** [handlePubSubMessage] hands the message exactly once to every client of
    the message's tenant whose buffer has room, drops every client of that
    tenant whose buffer is full, and leaves every other client as it
    was. *)
Theorem handlePubSubMessage_exact log h addr :
  WebSocketHandler.clients (WebSocketHandler.handlePubSubMessage log h) !! addr
  = WebSocketHandler.clients h !! addr ≫= delivered_to log.
Proof.
  unfold WebSocketHandler.handlePubSubMessage.
  destruct (WebSocketHandler.clients h !! addr) as [client |] eqn:Hc.
  - rewrite <- Hc. apply deliver_all_exact.
    + apply NoDup_fst_map_to_list.
    + apply list_elem_of_In, list_elem_of_fmap. exists (addr, client).
      split; [reflexivity |]. apply elem_of_map_to_list, Hc.
  - rewrite deliver_all_absent; [rewrite Hc; reflexivity |].
    intros Hin. apply list_elem_of_In, list_elem_of_fmap in Hin.
    destruct Hin as ([a c] & -> & Hin). apply elem_of_map_to_list in Hin.
    cbn in Hc. rewrite Hin in Hc. discriminate.
Qed.
